(** * The NCDOT incident ingestor ([main.go]): a shallow embedding

    The program fetches the NCDOT incident feed, keeps the vehicle crashes
    and the disabled vehicles, looks up the weather at each incident with two
    chained calls to the National Weather Service, and writes one row per
    incident into the table [unified_incidents] with a single
    [INSERT ... ON CONFLICT (source, source_id) DO UPDATE] statement.

    The embedding follows [main.go] function by function:
    - Go values: [int] as [Z], [float64] as the kernel's binary64 [float],
      [string] as [string], [error] as the inductive [error];
    - the functions of Go's standard library that the program calls on data
      it builds itself are written out ([strconv.Itoa], the [%.4f] verb of
      [fmt.Sprintf], [json.Marshal] on the program's own types, the [int32]
      conversion);
    - what the program does not decide (the answers of the weather service
      and of the database server and the time they take, the decoders applied
      to the bytes received from the network, [time.Parse]) is a field of
      the class [Env], so every theorem holds for every behaviour of that
      world;
    - effects (the clock, the requests sent, the statements executed, the
      table, the log) are threaded through a state-and-error monad over
      [World]. *)

From Stdlib Require Import ZArith List String Ascii Bool Lia.
From Stdlib Require Import PrimFloat SpecFloat FloatOps.
From Stdlib Require Import DecimalString.
From Stdlib Require DecimalZ DecimalPos.
Import ListNotations.

Set Warnings "-inexact-float,-register-all".
Local Open Scope string_scope.
Local Open Scope Z_scope.
Local Open Scope list_scope.

(** ** Go values *)

(** Go's [error]: a message, possibly wrapping a cause ([fmt.Errorf] with the
    verb [%w]). *)
Inductive error : Type :=
| errors_New (msg : string)
| Errorf_w (msg : string) (cause : error).

(** The outcome of a Go call returning [(T, error)]. *)
Inductive result (A : Type) : Type :=
| Ok (a : A)
| Err (e : error).
Arguments Ok {A} a.
Arguments Err {A} e.

(** [strconv.Itoa]. *)
Definition Itoa (i : Z) : string := NilZero.string_of_int (Z.to_int i).

(** The conversion [int32(x)] of a Go [int]: the low 32 bits, read as a signed
    number. *)
Definition int32 (x : Z) : Z := (x + 2 ^ 31) mod 2 ^ 32 - 2 ^ 31.

(** *** [fmt.Sprintf("%.4f", x)]

    The verb [%.4f] prints the decimal number with four digits after the
    point that is nearest to the exact value of the binary64 number, ties going
    to the even digit. A finite binary64 number is [m * 2^e] up to its sign. *)

(** The integer nearest to [n / d], ties to even ([0 <= n], [0 < d]). *)
Definition round_half_even (n d : Z) : Z :=
  let q := n / d in
  let r := n mod d in
  if 2 * r <? d then q
  else if d <? 2 * r then q + 1
  else if Z.even q then q else q + 1.

(** The integer nearest to [m * 2^e * 10^4]. *)
Definition scaled4 (m e : Z) : Z :=
  if 0 <=? e then m * 2 ^ e * 10000
  else round_half_even (m * 10000) (2 ^ (- e)).

Fixpoint zeros (n : nat) : string :=
  match n with
  | O => ""
  | S k => String "0" (zeros k)
  end.

(** The four digits after the point. *)
Definition frac4 (r : Z) : string :=
  let s := Itoa r in (zeros (4 - String.length s) ++ s)%string.

(** [q] ten-thousandths, printed with its sign. *)
Definition fixed4 (neg : bool) (q : Z) : string :=
  ((if neg then "-" else "") ++ Itoa (q / 10000) ++ "." ++ frac4 (q mod 10000))%string.

Definition Sprintf_4f (x : float) : string :=
  match Prim2SF x with
  | S754_nan => "NaN"
  | S754_infinity false => "+Inf"
  | S754_infinity true => "-Inf"
  | S754_zero s => fixed4 s 0
  | S754_finite s m e => fixed4 s (scaled4 (Zpos m) e)
  end.

(** ** The data of [main.go] *)

(** [Incident] matches the JSON data of the NCDOT feed. *)
Record Incident : Type := {
  ID : Z;
  Latitude : float;
  Longitude : float;
  CommonName : string;
  Reason : string;
  Condition : string;
  IncidentType : string;
  Severity : Z;
  Direction : string;
  Location : string;
  CountyID : Z;
  CountyName : string;
  City : string;
  StartTime : string;
  EndTime : string;
  LastUpdate : string;
  Road : string;
  RouteID : Z;
  LanesClosed : Z;
  LanesTotal : Z;
  Detour : string;
  CrossStreetPrefix : string;
  CrossStreetNumber : Z;
  CrossStreetSuffix : string;
  CrossStreetCommonName : string;
  Event : string;
  CreatedFromConcurrent : bool;
  MovableConstruction : string;
  WorkZoneSpeedLimit : Z
}.

Record WeatherData : Type := {
  Temperature : Z;
  WindSpeed : string;
  ShortForecast : string;
  Icon : string
}.

(** [NWSPointsResponse.Properties.ForecastHourly]. *)
Record NWSPointsResponse : Type := {
  ForecastHourly : string
}.

(** [NWSHourlyResponse.Properties.Periods]. *)
Record NWSHourlyResponse : Type := {
  Periods : list WeatherData
}.

(** [sql.NullInt32] and [sql.NullString]; their zero value is the SQL NULL. *)
Record NullInt32 : Type := { Int32 : Z; Int32_Valid : bool }.
Record NullString : Type := { String_ : string; String_Valid : bool }.

(** What the driver sends for them ([Value()]): NULL unless [Valid]. *)
Definition NullInt32_Value (n : NullInt32) : option Z :=
  if Int32_Valid n then Some (Int32 n) else None.
Definition NullString_Value (n : NullString) : option string :=
  if String_Valid n then Some (String_ n) else None.

(** An instant ([time.Time]), in nanoseconds since the Unix epoch. *)
Definition Instant : Type := Z.

(** ** JSON documents and [json.Marshal]

    The encoder is modelled up to the rendering of the document as bytes: it
    yields the document, or the error it raises on a value JSON cannot
    hold. Strings are Go strings that hold valid UTF-8, as every string
    decoded from the feed does. *)
Inductive json : Type :=
| JNull
| JBool (b : bool)
| JInt (n : Z)
| JFloat (x : float)
| JString (s : string)
| JObject (members : list (string * json)).

(** The value under a key of an object. *)
Fixpoint members_get (k : string) (ms : list (string * json)) : option json :=
  match ms with
  | [] => None
  | (k', v) :: rest => if String.eqb k k' then Some v else members_get k rest
  end.

Definition json_get (k : string) (j : json) : option json :=
  match j with
  | JObject ms => members_get k ms
  | _ => None
  end.

(** A float64 is encoded unless it is NaN or an infinity
    ([json.UnsupportedValueError]). *)
Definition marshal_float64 (x : float) : result json :=
  if is_finite x then Ok (JFloat x)
  else Err (errors_New ("json: unsupported value: " ++
              match Prim2SF x with
              | S754_nan => "NaN"
              | S754_infinity true => "-Inf"
              | _ => "+Inf"
              end)).

(** A struct is encoded field by field, in the order of the declaration, under
    the names of the [json] tags. *)
Definition marshal_Incident (i : Incident) : result json :=
  match marshal_float64 (Latitude i) with
  | Err e => Err e
  | Ok lat =>
    match marshal_float64 (Longitude i) with
    | Err e => Err e
    | Ok lon =>
      Ok (JObject [
        ("id", JInt (ID i));
        ("latitude", lat);
        ("longitude", lon);
        ("commonName", JString (CommonName i));
        ("reason", JString (Reason i));
        ("condition", JString (Condition i));
        ("incidentType", JString (IncidentType i));
        ("severity", JInt (Severity i));
        ("direction", JString (Direction i));
        ("location", JString (Location i));
        ("countyId", JInt (CountyID i));
        ("countyName", JString (CountyName i));
        ("city", JString (City i));
        ("start", JString (StartTime i));
        ("end", JString (EndTime i));
        ("lastUpdate", JString (LastUpdate i));
        ("road", JString (Road i));
        ("routeId", JInt (RouteID i));
        ("lanesClosed", JInt (LanesClosed i));
        ("lanesTotal", JInt (LanesTotal i));
        ("detour", JString (Detour i));
        ("crossStreetPrefix", JString (CrossStreetPrefix i));
        ("crossStreetNumber", JInt (CrossStreetNumber i));
        ("crossStreetSuffix", JString (CrossStreetSuffix i));
        ("crossStreetCommonName", JString (CrossStreetCommonName i));
        ("event", JString (Event i));
        ("createdFromConcurrent", JBool (CreatedFromConcurrent i));
        ("movableConstruction", JString (MovableConstruction i));
        ("workZoneSpeedLimit", JInt (WorkZoneSpeedLimit i))
      ])
    end
  end.

Definition marshal_WeatherData (d : WeatherData) : json :=
  JObject [
    ("temperature", JInt (Temperature d));
    ("windSpeed", JString (WindSpeed d));
    ("shortForecast", JString (ShortForecast d));
    ("icon", JString (Icon d))
  ].

(** The values [saveToUnifiedDB] stores in its [map[string]interface{}]: an
    [Incident], or a [*WeatherData] that may be nil. *)
Inductive any : Type :=
| any_Incident (i : Incident)
| any_WeatherData_ptr (p : option WeatherData).

(** A nil pointer is encoded as [null]. *)
Definition marshal_any (v : any) : result json :=
  match v with
  | any_Incident i => marshal_Incident i
  | any_WeatherData_ptr None => Ok JNull
  | any_WeatherData_ptr (Some d) => Ok (marshal_WeatherData d)
  end.

(** The encoder sorts the keys of a map. *)
Fixpoint insert_by_key (kv : string * any) (l : list (string * any)) : list (string * any) :=
  match l with
  | [] => [kv]
  | kv' :: rest =>
    if String.leb (fst kv) (fst kv') then kv :: l else kv' :: insert_by_key kv rest
  end.

Definition sort_by_key (l : list (string * any)) : list (string * any) :=
  fold_right insert_by_key [] l.

Fixpoint marshal_members (l : list (string * any)) : result (list (string * json)) :=
  match l with
  | [] => Ok []
  | (k, v) :: rest =>
    match marshal_any v with
    | Err e => Err e
    | Ok j =>
      match marshal_members rest with
      | Err e => Err e
      | Ok js => Ok ((k, j) :: js)
      end
    end
  end.

(** [json.Marshal] on a [map[string]interface{}]. *)
Definition json_Marshal (m : list (string * any)) : result json :=
  match marshal_members (sort_by_key m) with
  | Err e => Err e
  | Ok js => Ok (JObject js)
  end.

(** The decoding of an encoded [Incident]: it reads every field back. *)
Definition get_int (k : string) (j : json) : option Z :=
  match json_get k j with Some (JInt n) => Some n | _ => None end.
Definition get_float (k : string) (j : json) : option float :=
  match json_get k j with Some (JFloat x) => Some x | _ => None end.
Definition get_string (k : string) (j : json) : option string :=
  match json_get k j with Some (JString s) => Some s | _ => None end.
Definition get_bool (k : string) (j : json) : option bool :=
  match json_get k j with Some (JBool b) => Some b | _ => None end.

Notation "'get' x <- e ; k" :=
  (match e with Some x => k | None => None end)
  (at level 10, x name, e at level 100, k at level 200, only parsing).

Definition Incident_of_json (j : json) : option Incident :=
  get id <- get_int "id" j;
  get latitude <- get_float "latitude" j;
  get longitude <- get_float "longitude" j;
  get commonName <- get_string "commonName" j;
  get reason <- get_string "reason" j;
  get condition <- get_string "condition" j;
  get incidentType <- get_string "incidentType" j;
  get severity <- get_int "severity" j;
  get direction <- get_string "direction" j;
  get location <- get_string "location" j;
  get countyId <- get_int "countyId" j;
  get countyName <- get_string "countyName" j;
  get city <- get_string "city" j;
  get start <- get_string "start" j;
  get end_ <- get_string "end" j;
  get lastUpdate <- get_string "lastUpdate" j;
  get road <- get_string "road" j;
  get routeId <- get_int "routeId" j;
  get lanesClosed <- get_int "lanesClosed" j;
  get lanesTotal <- get_int "lanesTotal" j;
  get detour <- get_string "detour" j;
  get crossStreetPrefix <- get_string "crossStreetPrefix" j;
  get crossStreetNumber <- get_int "crossStreetNumber" j;
  get crossStreetSuffix <- get_string "crossStreetSuffix" j;
  get crossStreetCommonName <- get_string "crossStreetCommonName" j;
  get event <- get_string "event" j;
  get createdFromConcurrent <- get_bool "createdFromConcurrent" j;
  get movableConstruction <- get_string "movableConstruction" j;
  get workZoneSpeedLimit <- get_int "workZoneSpeedLimit" j;
  Some {|
    ID := id; Latitude := latitude; Longitude := longitude;
    CommonName := commonName; Reason := reason; Condition := condition;
    IncidentType := incidentType; Severity := severity; Direction := direction;
    Location := location; CountyID := countyId; CountyName := countyName;
    City := city; StartTime := start; EndTime := end_; LastUpdate := lastUpdate;
    Road := road; RouteID := routeId; LanesClosed := lanesClosed;
    LanesTotal := lanesTotal; Detour := detour;
    CrossStreetPrefix := crossStreetPrefix; CrossStreetNumber := crossStreetNumber;
    CrossStreetSuffix := crossStreetSuffix;
    CrossStreetCommonName := crossStreetCommonName; Event := event;
    CreatedFromConcurrent := createdFromConcurrent;
    MovableConstruction := movableConstruction;
    WorkZoneSpeedLimit := workZoneSpeedLimit
  |}.

(** ** The table [unified_incidents] and the upsert statement *)

(** A row. The statement of [saveToUnifiedDB] names thirteen columns; the
    table has more ([jurisdiction], which NCDOT does not provide), and the
    statement leaves them to the table's defaults. *)
Record Row : Type := {
  source : string;
  source_id : string;
  event_type : string;
  status : string;
  address : string;
  latitude : float;
  longitude : float;
  timestamp : Instant;
  details : json;
  problem_detail : string;
  weather_temp : option Z;
  weather_wind_speed : option string;
  weather_forecast : option string;
  jurisdiction : option string
}.

(** The twelve parameters [$1 .. $12] of the statement, as [db.Exec] receives
    them: the unified incident that is written. *)
Record ExecArgs : Type := {
  arg_source : string;                   (* $1 *)
  arg_source_id : string;                (* $2 *)
  arg_event_type : string;               (* $3 *)
  arg_address : string;                  (* $4 *)
  arg_latitude : float;                  (* $5 *)
  arg_longitude : float;                 (* $6 *)
  arg_timestamp : Instant;               (* $7 *)
  arg_details : json;                    (* $8 *)
  arg_problem_detail : string;           (* $9 *)
  arg_weather_temp : NullInt32;          (* $10 *)
  arg_weather_wind_speed : NullString;   (* $11 *)
  arg_weather_forecast : NullString      (* $12 *)
}.

(** [VALUES ($1, $2, $3, 'active', $4, ..., $12)]: the row proposed for
    insertion, called [EXCLUDED] in the conflict clause. *)
Definition excluded (jurisdiction_default : option string) (a : ExecArgs) : Row := {|
  source := arg_source a;
  source_id := arg_source_id a;
  event_type := arg_event_type a;
  status := "active";
  address := arg_address a;
  latitude := arg_latitude a;
  longitude := arg_longitude a;
  timestamp := arg_timestamp a;
  details := arg_details a;
  problem_detail := arg_problem_detail a;
  weather_temp := NullInt32_Value (arg_weather_temp a);
  weather_wind_speed := NullString_Value (arg_weather_wind_speed a);
  weather_forecast := NullString_Value (arg_weather_forecast a);
  jurisdiction := jurisdiction_default
|}.

(** [ON CONFLICT (source, source_id)]: the existing row [r] has the key of
    the proposed one. *)
Definition conflict (a : ExecArgs) (r : Row) : bool :=
  String.eqb (source r) (arg_source a) && String.eqb (source_id r) (arg_source_id a).

(** [DO UPDATE SET details = EXCLUDED.details, status = 'active', ...]. *)
Definition do_update (a : ExecArgs) (r : Row) : Row := {|
  source := source r;
  source_id := source_id r;
  event_type := event_type r;
  status := "active";
  address := address r;
  latitude := latitude r;
  longitude := longitude r;
  timestamp := timestamp r;
  details := arg_details a;
  problem_detail := arg_problem_detail a;
  weather_temp := NullInt32_Value (arg_weather_temp a);
  weather_wind_speed := NullString_Value (arg_weather_wind_speed a);
  weather_forecast := NullString_Value (arg_weather_forecast a);
  jurisdiction := jurisdiction r
|}.

(** The statement on a table: the row in conflict is updated in place; with no
    row in conflict the proposed row is inserted. *)
Fixpoint upsert (jurisdiction_default : option string) (a : ExecArgs) (t : list Row) : list Row :=
  match t with
  | [] => [excluded jurisdiction_default a]
  | r :: rest =>
    if conflict a r then do_update a r :: rest
    else r :: upsert jurisdiction_default a rest
  end.

(** [SELECT * FROM unified_incidents WHERE source = s AND source_id = i]. *)
Definition has_key (s i : string) (r : Row) : bool :=
  String.eqb (source r) s && String.eqb (source_id r) i.

Definition select_row (s i : string) (t : list Row) : option Row :=
  find (has_key s i) t.

Definition count_rows (s i : string) (t : list Row) : nat :=
  List.length (filter (has_key s i) t).

(** The uniqueness constraint on [(source, source_id)] that the conflict
    clause names. *)
Definition unique_keys (t : list Row) : Prop :=
  NoDup (map (fun r => (source r, source_id r)) t).

(** ** The world the program runs in *)

(** An HTTP request as the program builds it: the method, the URL and the
    [User-Agent] header it sets. *)
Record Request : Type := {
  Method : string;
  URL : string;
  UserAgent : option string
}.

(** An HTTP response: the status, and what [io.ReadAll] makes of the body. *)
Record Response : Type := {
  StatusCode : Z;
  Status : string;
  Body : result string
}.

(** The lines the program logs, by their format. *)
Inductive LogEntry : Type :=
| log_found (n : Z)
    (* "Found %d total incidents from NC DOT." *)
| log_timestamp_warning (start : string) (err : error)
    (* "WARNING: Could not parse timestamp '%s', using current time. Error: %v" *)
| log_weather_warning (id : Z) (err : error)
    (* "Warning: could not fetch weather for NC DOT incident %d: %v" *)
| log_save_error (id : Z) (err : error)
    (* "Error saving NC DOT incident ID %d: %v" *)
| log_run_complete (n : Z)
    (* "Run complete. Processed and saved %d relevant incidents to the unified table." *).

(** The state of the world: the wall clock, the requests sent so far, the
    statements executed so far with their outcome, the table, and the log. *)
Record World : Type := {
  w_clock : Instant;
  w_http : list Request;
  w_exec : list (ExecArgs * option error);
  w_table : list Row;
  w_log : list LogEntry
}.

(** What the program does not decide. The network and the database server
    answer as they please: their answer may depend on everything that was
    sent before, and takes some time. *)
Class Env : Type := {
  (** [time.Parse(time.RFC3339, s)] *)
  time_Parse_RFC3339 : string -> result Instant;
  (** the error of [http.NewRequest] on a URL that does not parse *)
  url_error : string -> option error;
  (** [client.Do(req)], after the requests of the history: the time it took
      and its outcome *)
  client_Do : list Request -> Request -> N * result Response;
  (** [json.Unmarshal(body, &pointsResponse)] *)
  json_Unmarshal_points : string -> result NWSPointsResponse;
  (** [json.Unmarshal(hourlyBody, &hourlyResponse)] *)
  json_Unmarshal_hourly : string -> result NWSHourlyResponse;
  (** the server's verdict on the statement, after the statements of the
      history and on the current table: the time it took, and the error it
      raises, if any *)
  db_server : list (ExecArgs * option error) -> list Row -> ExecArgs -> N * option error;
  (** the default of the columns the statement does not name *)
  jurisdiction_default : option string
}.

(** ** The monad of effects: state, and Go's early return on error *)

Definition M (A : Type) : Type := World -> World * result A.

Definition ret {A} (a : A) : M A := fun w => (w, Ok a).

Definition fail {A} (e : error) : M A := fun w => (w, Err e).

Definition bind {A B} (m : M A) (k : A -> M B) : M B :=
  fun w =>
    match m w with
    | (w', Ok a) => k a w'
    | (w', Err e) => (w', Err e)
    end.

Notation "x <- m ;; k" := (bind m (fun x => k))
  (at level 61, m at next level, right associativity).
Notation "m ;;; k" := (bind m (fun _ => k))
  (at level 61, right associativity).

(** [if err != nil { return nil, fmt.Errorf(msg + ": %w", err) }]. *)
Definition wrapping {A} (msg : string) (m : M A) : M A :=
  fun w =>
    match m w with
    | (w', Err e) => (w', Err (Errorf_w msg e))
    | r => r
    end.

(** [if err != nil { handler }], with no return: the error is handled and the
    function goes on. *)
Definition recover {A} (m : M A) (handler : error -> M A) : M A :=
  fun w =>
    match m w with
    | (w', Err e) => handler e w'
    | r => r
    end.

Definition lift {A} (r : result A) : M A := fun w => (w, r).

(** [log.Printf]. *)
Definition log_Printf (l : LogEntry) : M unit :=
  fun w => ({| w_clock := w_clock w; w_http := w_http w; w_exec := w_exec w;
               w_table := w_table w; w_log := w_log w ++ [l] |}, Ok tt).

(** [time.Now()]. *)
Definition time_Now : M Instant := fun w => (w, Ok (w_clock w)).

(** ** The program *)

Section Program.

Context {E : Env}.

(** [http.NewRequest("GET", url, nil)]. *)
Definition http_NewRequest (method url : string) : M Request :=
  match url_error url with
  | Some err => fail err
  | None => ret {| Method := method; URL := url; UserAgent := None |}
  end.

(** [req.Header.Set("User-Agent", v)]. *)
Definition Header_Set_UserAgent (req : Request) (v : string) : Request :=
  {| Method := Method req; URL := URL req; UserAgent := Some v |}.

(** [client.Do(req)]: the request is sent, the clock moves on, the world
    answers. *)
Definition Do (req : Request) : M Response :=
  fun w =>
    let (elapsed, outcome) := client_Do (w_http w) req in
    ({| w_clock := w_clock w + Z.of_N elapsed; w_http := w_http w ++ [req];
        w_exec := w_exec w; w_table := w_table w; w_log := w_log w |}, outcome).

(** [io.ReadAll(resp.Body)]. *)
Definition io_ReadAll (resp : Response) : M string := lift (Body resp).

(** [getWeatherForIncident] fetches current weather conditions from the NWS
    API. *)
Definition getWeatherForIncident (lat lon : float) : M WeatherData :=
  let pointsURL :=
    ("https://api.weather.gov/points/" ++ Sprintf_4f lat ++ "," ++ Sprintf_4f lon)%string in
  req <- http_NewRequest "GET" pointsURL ;;
  let req := Header_Set_UserAgent req "(patrolx, mtickle@gmail.com)" in
  pointsResp <- wrapping "failed to fetch NWS points data" (Do req) ;;
  if negb (StatusCode pointsResp =? 200) then
    fail (errors_New ("NWS points API returned non-200 status: " ++ Status pointsResp))
  else
  body <- wrapping "failed to read NWS points response body" (io_ReadAll pointsResp) ;;
  pointsResponse <- wrapping "failed to unmarshal NWS points JSON"
                      (lift (json_Unmarshal_points body)) ;;
  if String.eqb (ForecastHourly pointsResponse) "" then
    fail (errors_New "NWS points response did not contain a forecast URL")
  else
  req <- http_NewRequest "GET" (ForecastHourly pointsResponse ++ "?units=us") ;;
  let req := Header_Set_UserAgent req "(patrolx, mtickle@gmail.com)" in
  hourlyResp <- wrapping "failed to fetch NWS hourly data" (Do req) ;;
  if negb (StatusCode hourlyResp =? 200) then
    fail (errors_New ("NWS hourly API returned non-200 status: " ++ Status hourlyResp))
  else
  hourlyBody <- wrapping "failed to read NWS hourly response body" (io_ReadAll hourlyResp) ;;
  hourlyResponse <- wrapping "failed to unmarshal NWS hourly JSON"
                      (lift (json_Unmarshal_hourly hourlyBody)) ;;
  match Periods hourlyResponse with
  | first :: _ => ret first
  | [] => fail (errors_New "no weather periods returned from NWS")
  end.

(** [db.Exec(sqlStatement, args...)]: the statement is sent and the clock
    moves on; the server either raises an error and leaves the table as it
    is, or runs the statement. *)
Definition db_Exec (a : ExecArgs) : M unit :=
  fun w =>
    let (elapsed, verdict) := db_server (w_exec w) (w_table w) a in
    ({| w_clock := w_clock w + Z.of_N elapsed; w_http := w_http w;
        w_exec := w_exec w ++ [(a, verdict)];
        w_table := match verdict with
                   | Some _ => w_table w
                   | None => upsert jurisdiction_default a (w_table w)
                   end;
        w_log := w_log w |},
     match verdict with
     | Some err => Err err
     | None => Ok tt
     end).

(** The [details] map of [saveToUnifiedDB]. *)
Definition details_map (incident : Incident) (weatherData : option WeatherData)
  : list (string * any) :=
  [ ("raw_incident", any_Incident incident);
    ("weather", any_WeatherData_ptr weatherData) ].

(** The zero value of [sql.NullInt32], and the one [saveToUnifiedDB] fills
    in when it has weather data. *)
Definition weatherTemp_of (weatherData : option WeatherData) : NullInt32 :=
  match weatherData with
  | Some d => {| Int32 := int32 (Temperature d); Int32_Valid := true |}
  | None => {| Int32 := 0; Int32_Valid := false |}
  end.

Definition weatherWind_of (weatherData : option WeatherData) : NullString :=
  match weatherData with
  | Some d => {| String_ := WindSpeed d; String_Valid := true |}
  | None => {| String_ := ""; String_Valid := false |}
  end.

Definition weatherForecast_of (weatherData : option WeatherData) : NullString :=
  match weatherData with
  | Some d => {| String_ := ShortForecast d; String_Valid := true |}
  | None => {| String_ := ""; String_Valid := false |}
  end.

(** [saveToUnifiedDB] normalizes, enriches, and saves an incident to the
    unified table. *)
Definition saveToUnifiedDB (incident : Incident) : M unit :=
  let source := "NCDOT" in
  let sourceID := Itoa (ID incident) in
  let eventType := IncidentType incident in
  parsedTime <- recover (lift (time_Parse_RFC3339 (StartTime incident)))
                  (fun err =>
                     log_Printf (log_timestamp_warning (StartTime incident) err) ;;;
                     time_Now) ;;
  (* the enrichment step *)
  weatherData <- recover
                   (d <- getWeatherForIncident (Latitude incident) (Longitude incident) ;;
                    ret (Some d))
                   (fun err =>
                      log_Printf (log_weather_warning (ID incident) err) ;;;
                      ret None) ;;
  let details := details_map incident weatherData in
  detailsJSON <- wrapping "could not marshal unified details to JSON"
                   (lift (json_Marshal details)) ;;
  (* the new column values *)
  let weatherTemp := weatherTemp_of weatherData in
  let weatherWind := weatherWind_of weatherData in
  let weatherForecast := weatherForecast_of weatherData in
  db_Exec {|
    arg_source := source;
    arg_source_id := sourceID;
    arg_event_type := eventType;
    arg_address := Location incident;
    arg_latitude := Latitude incident;
    arg_longitude := Longitude incident;
    arg_timestamp := parsedTime;
    arg_details := detailsJSON;
    arg_problem_detail := Reason incident;
    arg_weather_temp := weatherTemp;
    arg_weather_wind_speed := weatherWind;
    arg_weather_forecast := weatherForecast
  |}.

(** The test of the loop of [main]. *)
Definition relevant (incident : Incident) : bool :=
  String.eqb (IncidentType incident) "Vehicle Crash"
  || String.eqb (IncidentType incident) "Disabled Vehicle".

(** One turn of the loop of [main], on the world and on [incidentsSaved]. A
    slice holds fewer than 2^63 incidents, so the counter never wraps. *)
Definition main_loop_body (incident : Incident) (st : World * Z) : World * Z :=
  let (w, incidentsSaved) := st in
  if relevant incident then
    match saveToUnifiedDB incident w with
    | (w', Err err) =>
        (fst (log_Printf (log_save_error (ID incident) err) w'), incidentsSaved)
    | (w', Ok _) => (w', incidentsSaved + 1)
    end
  else (w, incidentsSaved).

(** [for _, incident := range allIncidents { ... }]. *)
Definition main_loop (allIncidents : list Incident) (st : World * Z) : World * Z :=
  fold_left (fun st incident => main_loop_body incident st) allIncidents st.

(** [main], from the decoded feed on: the count of the feed is logged, the
    loop runs from [incidentsSaved := 0], and the count of saved incidents is
    reported. *)
Definition main_ingest (allIncidents : list Incident) (w : World) : World * Z :=
  let w := fst (log_Printf (log_found (Z.of_nat (List.length allIncidents))) w) in
  let (w, incidentsSaved) := main_loop allIncidents (w, 0) in
  (fst (log_Printf (log_run_complete incidentsSaved) w), incidentsSaved).

End Program.

(** ** The vocabulary of the properties *)

Definition finite_coordinates (incident : Incident) : bool :=
  is_finite (Latitude incident) && is_finite (Longitude incident).

(** The document under [weather]: the observation, or [null]. *)
Definition weather_json (weatherData : option WeatherData) : json :=
  match weatherData with
  | Some d => marshal_WeatherData d
  | None => JNull
  end.

Section Readings.

Context {E : Env}.

Definition log_line (l : LogEntry) (w : World) : World := fst (log_Printf l w).

(** The request of the first stage and the one of the second. *)
Definition pointsURL (lat lon : float) : string :=
  ("https://api.weather.gov/points/" ++ Sprintf_4f lat ++ "," ++ Sprintf_4f lon)%string.

Definition points_request (lat lon : float) : Request :=
  {| Method := "GET"; URL := pointsURL lat lon;
     UserAgent := Some "(patrolx, mtickle@gmail.com)" |}.

Definition hourly_request (forecastHourly : string) : Request :=
  {| Method := "GET"; URL := (forecastHourly ++ "?units=us")%string;
     UserAgent := Some "(patrolx, mtickle@gmail.com)" |}.

(** The timestamp step: the parsed start time, or the clock and a warning. *)
Definition after_parse (incident : Incident) (w : World) : World * Instant :=
  match time_Parse_RFC3339 (StartTime incident) with
  | Ok t => (w, t)
  | Err err => (log_line (log_timestamp_warning (StartTime incident) err) w, w_clock w)
  end.

(** The enrichment step: the weather, or none and a warning. *)
Definition after_weather (incident : Incident) (w : World) : World * option WeatherData :=
  match getWeatherForIncident (Latitude incident) (Longitude incident) w with
  | (w', Ok d) => (w', Some d)
  | (w', Err err) => (log_line (log_weather_warning (ID incident) err) w', None)
  end.

(** The parameters of the statement. *)
Definition args_of (incident : Incident) (parsedTime : Instant) (detailsJSON : json)
  (weatherData : option WeatherData) : ExecArgs := {|
  arg_source := "NCDOT";
  arg_source_id := Itoa (ID incident);
  arg_event_type := IncidentType incident;
  arg_address := Location incident;
  arg_latitude := Latitude incident;
  arg_longitude := Longitude incident;
  arg_timestamp := parsedTime;
  arg_details := detailsJSON;
  arg_problem_detail := Reason incident;
  arg_weather_temp := weatherTemp_of weatherData;
  arg_weather_wind_speed := weatherWind_of weatherData;
  arg_weather_forecast := weatherForecast_of weatherData
|}.

Definition result_of_verdict (verdict : option error) : result unit :=
  match verdict with
  | Some err => Err err
  | None => Ok tt
  end.

(** The first stage got the response [resp]. *)
Definition points_response (h : list Request) (lat lon : float) (resp : Response) : Prop :=
  url_error (pointsURL lat lon) = None
  /\ exists elapsed, client_Do h (points_request lat lon) = (elapsed, Ok resp).

(** The first stage obtained the forecast URL [u]. *)
Definition points_answer (h : list Request) (lat lon : float) (u : string) : Prop :=
  exists resp body pointsResponse,
    points_response h lat lon resp
    /\ StatusCode resp = 200
    /\ Body resp = Ok body
    /\ json_Unmarshal_points body = Ok pointsResponse
    /\ ForecastHourly pointsResponse = u
    /\ u <> "".

(** The second stage, sent to the URL [u] of the first, got the response
    [resp]. *)
Definition hourly_response (h : list Request) (lat lon : float) (u : string)
  (resp : Response) : Prop :=
  points_answer h lat lon u
  /\ url_error (u ++ "?units=us") = None
  /\ exists elapsed,
       client_Do (h ++ [points_request lat lon]) (hourly_request u) = (elapsed, Ok resp).

(** The second stage obtained the periods [ps]. *)
Definition hourly_answer (h : list Request) (lat lon : float) (u : string)
  (ps : list WeatherData) : Prop :=
  exists resp body hourlyResponse,
    hourly_response h lat lon u resp
    /\ StatusCode resp = 200
    /\ Body resp = Ok body
    /\ json_Unmarshal_hourly body = Ok hourlyResponse
    /\ Periods hourlyResponse = ps.

(** The failures of the lookup that the specification lists: a status other
    than 200, a body that does not decode, no forecast URL in the first
    stage, no period in the second. *)
Inductive weather_lookup_fails (h : list Request) (lat lon : float) : Prop :=
| points_status_not_200 (resp : Response) :
    points_response h lat lon resp ->
    StatusCode resp <> 200 ->
    weather_lookup_fails h lat lon
| points_body_malformed (resp : Response) (body : string) (e : error) :
    points_response h lat lon resp ->
    StatusCode resp = 200 ->
    Body resp = Ok body ->
    json_Unmarshal_points body = Err e ->
    weather_lookup_fails h lat lon
| points_forecast_url_missing (resp : Response) (body : string) (pr : NWSPointsResponse) :
    points_response h lat lon resp ->
    StatusCode resp = 200 ->
    Body resp = Ok body ->
    json_Unmarshal_points body = Ok pr ->
    ForecastHourly pr = "" ->
    weather_lookup_fails h lat lon
| hourly_status_not_200 (u : string) (resp : Response) :
    hourly_response h lat lon u resp ->
    StatusCode resp <> 200 ->
    weather_lookup_fails h lat lon
| hourly_body_malformed (u : string) (resp : Response) (body : string) (e : error) :
    hourly_response h lat lon u resp ->
    StatusCode resp = 200 ->
    Body resp = Ok body ->
    json_Unmarshal_hourly body = Err e ->
    weather_lookup_fails h lat lon
| hourly_periods_empty (u : string) :
    hourly_answer h lat lon u [] ->
    weather_lookup_fails h lat lon.

(** The weather [saveToUnifiedDB] works with, from the result of the
    lookup. *)
Definition weather_of (r : result WeatherData) : option WeatherData :=
  match r with
  | Ok d => Some d
  | Err _ => None
  end.

(** The timestamp [saveToUnifiedDB] works with. *)
Definition timestamp_of (incident : Incident) (w : World) : Instant :=
  match time_Parse_RFC3339 (StartTime incident) with
  | Ok t => t
  | Err _ => w_clock w
  end.

(** The warnings [saveToUnifiedDB] logs. *)
Definition warnings_of (incident : Incident) (r : result WeatherData) : list LogEntry :=
  match time_Parse_RFC3339 (StartTime incident) with
  | Ok _ => []
  | Err err => [log_timestamp_warning (StartTime incident) err]
  end ++
  match r with
  | Ok _ => []
  | Err err => [log_weather_warning (ID incident) err]
  end.

End Readings.

(** The server accepted the statement. *)
Definition accepted (c : ExecArgs * option error) : bool :=
  match snd c with
  | None => true
  | Some _ => false
  end.

(** The effect of an executed statement on the table. *)
Definition written (jd : option string) (t : list Row) (c : ExecArgs * option error)
  : list Row :=
  if accepted c then upsert jd (fst c) t else t.

(** The incidents whose statement reaches the server: the relevant ones (all
    of them, but for coordinates that JSON cannot hold, which the feed
    cannot deliver). *)
Definition reaches_store (incident : Incident) : bool :=
  relevant incident && finite_coordinates incident.

(** The number [q] of ten-thousandths is nearest to [m * 2^e]: equal to it
    when [m * 2^e * 10^4] is an integer written out, and otherwise within half
    a ten-thousandth, [|m * 10^4 - q * 2^-e| <= 2^-e / 2]. *)
Definition nearest_ten_thousandths (m : positive) (e q : Z) : Prop :=
  0 <= q
  /\ (0 <= e -> q = Zpos m * 2 ^ e * 10000)
  /\ (e < 0 -> 2 * Z.abs (Zpos m * 10000 - 2 ^ (- e) * q) <= 2 ^ (- e)).

(** ** A scripted world, for running the program on examples *)

Module Fixture.

(** A parser that agrees with [time.Parse(time.RFC3339, _)] on the UTC
    instants written [YYYY-MM-DDTHH:MM:SSZ] and rejects every other string. *)
Definition digit (c : ascii) : option Z :=
  let n := Z.of_N (N_of_ascii c) in
  if (48 <=? n) && (n <=? 57) then Some (n - 48) else None.

Fixpoint number (cs : list ascii) (acc : Z) : option Z :=
  match cs with
  | [] => Some acc
  | c :: rest =>
    match digit c with
    | Some d => number rest (10 * acc + d)
    | None => None
    end
  end.

(** Days from 1970-01-01 to the given day of the proleptic Gregorian
    calendar. *)
Definition days_from_civil (y m d : Z) : Z :=
  let y := if m <=? 2 then y - 1 else y in
  let era := y / 400 in
  let yoe := y - era * 400 in
  let mp := (m + 9) mod 12 in
  let doy := (153 * mp + 2) / 5 + d - 1 in
  let doe := yoe * 365 + yoe / 4 - yoe / 100 + doy in
  era * 146097 + doe - 719468.

Definition days_in_month (y m : Z) : Z :=
  if m =? 2 then
    if ((y mod 4 =? 0) && negb (y mod 100 =? 0)) || (y mod 400 =? 0) then 29 else 28
  else if (m =? 4) || (m =? 6) || (m =? 9) || (m =? 11) then 30 else 31.

Definition parse_error : error := errors_New "parsing time: not in the RFC 3339 layout".

Definition parse_utc (s : string) : result Instant :=
  match list_ascii_of_string s with
  | [y1; y2; y3; y4; "-"; m1; m2; "-"; d1; d2; "T";
     h1; h2; ":"; n1; n2; ":"; s1; s2; "Z"]%char =>
    match number [y1; y2; y3; y4] 0, number [m1; m2] 0, number [d1; d2] 0,
          number [h1; h2] 0, number [n1; n2] 0, number [s1; s2] 0 with
    | Some y, Some m, Some d, Some h, Some n, Some sec =>
      if (1 <=? m) && (m <=? 12) && (1 <=? d) && (d <=? days_in_month y m)
         && (h <? 24) && (n <? 60) && (sec <? 60)
      then Ok ((days_from_civil y m d * 86400 + h * 3600 + n * 60 + sec) * 1000000000)
      else Err parse_error
    | _, _, _, _, _, _ => Err parse_error
    end
  | _ => Err parse_error
  end.

(** The weather service: the metadata endpoint answers every point with a
    status chosen by the script, the forecast endpoint of the Raleigh grid
    answers with another, and nothing else exists. Bodies are named, and the
    decoders below know what each name holds. *)
Definition points_prefix : string := "https://api.weather.gov/points/".
Definition raleigh_hourly : string :=
  "https://api.weather.gov/gridpoints/RAH/75,57/forecast/hourly".

Definition status_text (code : Z) : string :=
  if code =? 200 then "200 OK" else if code =? 404 then "404 Not Found"
  else if code =? 503 then "503 Service Unavailable" else Itoa code.

Definition service (points_status hourly_status : Z) (hourly_body : string)
  (history : list Request) (req : Request) : N * result Response :=
  if String.prefix points_prefix (URL req) then
    (150000000%N, Ok {| StatusCode := points_status; Status := status_text points_status;
                       Body := Ok "points:raleigh" |})
  else if String.eqb (URL req) (raleigh_hourly ++ "?units=us") then
    (250000000%N, Ok {| StatusCode := hourly_status; Status := status_text hourly_status;
                       Body := Ok hourly_body |})
  else
    (100000000%N, Ok {| StatusCode := 404; Status := status_text 404; Body := Ok "" |}).

Definition decode_points (body : string) : result NWSPointsResponse :=
  if String.eqb body "points:raleigh" then Ok {| ForecastHourly := raleigh_hourly |}
  else if String.eqb body "points:none" then Ok {| ForecastHourly := "" |}
  else Err (errors_New "invalid character looking for beginning of value").

Definition clear : WeatherData :=
  {| Temperature := 72; WindSpeed := "5 mph"; ShortForecast := "Clear"; Icon := "" |}.
Definition cloudy : WeatherData :=
  {| Temperature := 70; WindSpeed := "7 mph"; ShortForecast := "Cloudy"; Icon := "" |}.

Definition decode_hourly (body : string) : result NWSHourlyResponse :=
  if String.eqb body "hourly:clear-then-cloudy" then Ok {| Periods := [clear; cloudy] |}
  else if String.eqb body "hourly:empty" then Ok {| Periods := [] |}
  else Err (errors_New "unexpected end of JSON input").

(** The database server: it rejects the statements the script says, by their
    rank in the run and their parameters. *)
Definition server (reject : nat -> ExecArgs -> bool)
  (history : list (ExecArgs * option error)) (table : list Row) (a : ExecArgs)
  : N * option error :=
  (20000000%N,
   if reject (List.length history) a
   then Some (errors_New "pq: new row violates check constraint")
   else None).

Definition env (points_status hourly_status : Z) (hourly_body : string)
  (reject : nat -> ExecArgs -> bool) : Env := {|
  time_Parse_RFC3339 := parse_utc;
  url_error := fun _ => None;
  client_Do := service points_status hourly_status hourly_body;
  json_Unmarshal_points := decode_points;
  json_Unmarshal_hourly := decode_hourly;
  db_server := server reject;
  jurisdiction_default := None
|}.

(** Fair weather and a willing server. *)
Definition fair : Env := env 200 200 "hourly:clear-then-cloudy" (fun _ _ => false).

(** The metadata endpoint is down. *)
Definition points_down : Env := env 503 200 "hourly:clear-then-cloudy" (fun _ _ => false).

(** The server rejects the second statement of the run. *)
Definition rejects_second : Env :=
  env 200 200 "hourly:clear-then-cloudy" (fun rank _ => Nat.eqb rank 1).

(** An incident of the feed, blank but for what the examples set. *)
Definition incident (id : Z) (type start reason : string) (lat lon : float) : Incident := {|
  ID := id; Latitude := lat; Longitude := lon; CommonName := ""; Reason := reason;
  Condition := ""; IncidentType := type; Severity := 0; Direction := "";
  Location := "I-40 near Exit 289"; CountyID := 0; CountyName := ""; City := "";
  StartTime := start; EndTime := ""; LastUpdate := ""; Road := ""; RouteID := 0;
  LanesClosed := 0; LanesTotal := 0; Detour := ""; CrossStreetPrefix := "";
  CrossStreetNumber := 0; CrossStreetSuffix := ""; CrossStreetCommonName := "";
  Event := ""; CreatedFromConcurrent := false; MovableConstruction := "";
  WorkZoneSpeedLimit := 0
|}.

Definition crash555 : Incident :=
  incident 555 "Vehicle Crash" "2024-05-01T10:00:00Z" "debris" 35.78%float (-78.64)%float.

Definition crash_undated : Incident :=
  incident 556 "Vehicle Crash" "not-a-date" "debris" 35.78%float (-78.64)%float.

Definition disabled557 : Incident :=
  incident 557 "Disabled Vehicle" "2024-05-01T10:05:00Z" "flat tire" 35.9%float (-78.9)%float.

Definition closure558 : Incident :=
  incident 558 "Road Closure" "2024-05-01T10:10:00Z" "flooding" 35.5%float (-78.5)%float.

Definition crash_nowhere : Incident :=
  incident 559 "Vehicle Crash" "2024-05-01T10:15:00Z" "debris" nan (-78.64)%float.

(** Noon on 2024-05-01, nothing sent, an empty table. *)
Definition noon : World := {|
  w_clock := 1714564800000000000; w_http := []; w_exec := []; w_table := []; w_log := []
|}.

(** Two sightings of incident 555: the second one differs in every
    parameter but the key. *)
Definition first_sighting : ExecArgs := {|
  arg_source := "NCDOT"; arg_source_id := "555"; arg_event_type := "Vehicle Crash";
  arg_address := "I-40 near Exit 289"; arg_latitude := 35.78%float;
  arg_longitude := (-78.64)%float; arg_timestamp := 1714557600000000000;
  arg_details := JObject [("weather", marshal_WeatherData clear)];
  arg_problem_detail := "debris";
  arg_weather_temp := {| Int32 := 72; Int32_Valid := true |};
  arg_weather_wind_speed := {| String_ := "5 mph"; String_Valid := true |};
  arg_weather_forecast := {| String_ := "Clear"; String_Valid := true |}
|}.

Definition second_sighting : ExecArgs := {|
  arg_source := "NCDOT"; arg_source_id := "555"; arg_event_type := "Disabled Vehicle";
  arg_address := "I-40 near Exit 290"; arg_latitude := 35.79%float;
  arg_longitude := (-78.65)%float; arg_timestamp := 1714561200000000000;
  arg_details := JObject [("weather", JNull)];
  arg_problem_detail := "debris cleared, vehicle on shoulder";
  arg_weather_temp := {| Int32 := 0; Int32_Valid := false |};
  arg_weather_wind_speed := {| String_ := ""; String_Valid := false |};
  arg_weather_forecast := {| String_ := ""; String_Valid := false |}
|}.

(** A row another ingestor wrote and closed. *)
Definition closed_row : Row := {|
  source := "CAD"; source_id := "555"; event_type := "Vehicle Crash"; status := "closed";
  address := "Main St"; latitude := 35.7%float; longitude := (-78.6)%float;
  timestamp := 1714470000000000000; details := JNull; problem_detail := "";
  weather_temp := None; weather_wind_speed := None; weather_forecast := None;
  jurisdiction := Some "Raleigh"
|}.

(** The parameters of the statement for the incident with no date, at noon
    and in fair weather. *)
Definition raw556 : json :=
  match marshal_Incident crash_undated with
  | Ok raw => raw
  | Err _ => JNull
  end.

Definition args556_at_noon : ExecArgs :=
  args_of crash_undated 1714564800000000000
    (JObject [("raw_incident", raw556); ("weather", marshal_WeatherData clear)])
    (Some clear).

(** The parameters of the statement for incident 555 when the lookup
    failed. *)
Definition raw555 : json :=
  match marshal_Incident crash555 with
  | Ok raw => raw
  | Err _ => JNull
  end.

Definition args555_no_weather : ExecArgs :=
  args_of crash555 1714557600000000000
    (JObject [("raw_incident", raw555); ("weather", JNull)]) None.

End Fixture.

(** ** The start of [main] *)

(** The lines [main] logs before the loop, by their format. *)
Inductive StartupEntry : Type :=
| log_env_note
    (* "Note: .env file not found" *)
| log_open_fatal (err : error)
    (* "Error opening database: %s" *)
| log_ping_fatal (err : error)
    (* "Error connecting to database: %s" *)
| log_connected
    (* "Successfully connected to the database." *)
| log_url_fatal
    (* "Error: DOT_URL must be set in your environment or .env file." *)
| log_fetch_fatal (err : error)
    (* "Error fetching data from NC DOT API: %s" *)
| log_read_fatal (err : error)
    (* "Error reading response body: %s" *)
| log_raw_response (body : string)
    (* "DEBUG: Raw response from server was: %s" *)
| log_unmarshal_fatal (err : error)
    (* "Error unmarshalling JSON: %s" *).

(** The lines of [log.Fatalf] and [log.Fatalln]: the process exits with
    status 1 after them. *)
Definition is_fatal (l : StartupEntry) : bool :=
  match l with
  | log_open_fatal _ | log_ping_fatal _ | log_url_fatal | log_fetch_fatal _
  | log_read_fatal _ | log_unmarshal_fatal _ => true
  | log_env_note | log_connected | log_raw_response _ => false
  end.

(** What the machine and the network decide at the start of [main]. *)
Class Host : Type := {
  (** [godotenv.Load()] *)
  godotenv_Load : option error;
  (** [os.Getenv], in the environment [godotenv.Load] leaves *)
  os_Getenv : string -> string;
  (** the error of [sql.Open("postgres", psqlInfo)] *)
  sql_Open : string -> option error;
  (** [db.Ping()] on the handle opened with the connection string: the time
      it took and its error *)
  db_Ping : string -> N * option error;
  (** [http.Get(url)], after the requests of the history *)
  http_Get : list Request -> string -> N * result Response;
  (** [json.Unmarshal(body, &allIncidents)] *)
  json_Unmarshal_incidents : string -> result (list Incident)
}.

Section Main.

Context {E : Env} {H : Host}.

(** The connection string of [main]. *)
Definition psqlInfo : string :=
  ("host=" ++ os_Getenv "DATABASE_HOST"
   ++ " port=" ++ os_Getenv "DATABASE_PORT"
   ++ " user=" ++ os_Getenv "DATABASE_USERNAME"
   ++ " password=" ++ os_Getenv "DATABASE_PASSWORD"
   ++ " dbname=" ++ os_Getenv "DATABASE_NAME"
   ++ " sslmode=require")%string.

(** The request of [http.Get(dotURL)]: the program sets no header. *)
Definition feed_request (dotURL : string) : Request :=
  {| Method := "GET"; URL := dotURL; UserAgent := None |}.

(** The clock moves on. *)
Definition wait (elapsed : N) (w : World) : World :=
  {| w_clock := w_clock w + Z.of_N elapsed; w_http := w_http w; w_exec := w_exec w;
     w_table := w_table w; w_log := w_log w |}.

(** A request is sent and the clock moves on. *)
Definition send (req : Request) (elapsed : N) (w : World) : World :=
  {| w_clock := w_clock w + Z.of_N elapsed; w_http := w_http w ++ [req];
     w_exec := w_exec w; w_table := w_table w; w_log := w_log w |}.

(** [main]: the lines logged before the loop, the world at the end, and the
    count of saved incidents when [main] returns; [None] when the process
    exits through [log.Fatalf] or [log.Fatalln]. *)
Definition main (w : World) : list StartupEntry * World * option Z :=
  let logs :=
    match godotenv_Load with
    | Some _ => [log_env_note]
    | None => []
    end in
  match sql_Open psqlInfo with
  | Some err => (logs ++ [log_open_fatal err], w, None)
  | None =>
    let (elapsed, ping) := db_Ping psqlInfo in
    let w := wait elapsed w in
    match ping with
    | Some err => (logs ++ [log_ping_fatal err], w, None)
    | None =>
      let logs := logs ++ [log_connected] in
      let dotURL := os_Getenv "DOT_URL" in
      if String.eqb dotURL "" then (logs ++ [log_url_fatal], w, None)
      else
        let (elapsed, fetched) := http_Get (w_http w) dotURL in
        let w := send (feed_request dotURL) elapsed w in
        match fetched with
        | Err err => (logs ++ [log_fetch_fatal err], w, None)
        | Ok resp =>
          match Body resp with
          | Err err => (logs ++ [log_read_fatal err], w, None)
          | Ok body =>
            match json_Unmarshal_incidents body with
            | Err err =>
                (logs ++ [log_raw_response body; log_unmarshal_fatal err], w, None)
            | Ok allIncidents =>
                let (w, incidentsSaved) := main_ingest allIncidents w in
                (logs, w, Some incidentsSaved)
            end
          end
        end
    end
  end.

End Main.

(** ** More vocabulary *)

(** The reading of a key back from its decimal writing. *)
Definition Atoi (s : string) : option Z :=
  option_map Z.of_int (NilZero.int_of_string s).

(** The key of an incident in the table. *)
Definition key_of (incident : Incident) : string * string :=
  ("NCDOT"%string, Itoa (ID incident)).

(** A line that reports a failed save. *)
Definition is_save_error (l : LogEntry) : bool :=
  match l with
  | log_save_error _ _ => true
  | _ => false
  end.

(** The table holds a row for the key. *)
Definition has_row (s i : string) (t : list Row) : bool :=
  match select_row s i t with
  | Some _ => true
  | None => false
  end.

(** The request carries what the program sets on each request to the weather
    service. *)
Definition identified (r : Request) : Prop :=
  Method r = "GET"%string /\ UserAgent r = Some "(patrolx, mtickle@gmail.com)"%string.

(** ** The earlier ingestor ([src/unnamed/part_000])

    The file holds the build script and an earlier [main.go]: no weather, a
    constant event type, the incident itself as details, and a statement that
    does nothing on conflict. [Incident] is the same record. *)

Module Part000.

(** A row, read through the nine columns the statement names. *)
Record Row : Type := {
  source : string;
  source_id : string;
  event_type : string;
  status : string;
  address : string;
  latitude : float;
  longitude : float;
  timestamp : Instant;
  details : json
}.

(** The eight parameters [$1 .. $8] of the statement. *)
Record ExecArgs : Type := {
  arg_source : string;          (* $1 *)
  arg_source_id : string;       (* $2 *)
  arg_event_type : string;      (* $3 *)
  arg_address : string;         (* $4 *)
  arg_latitude : float;         (* $5 *)
  arg_longitude : float;        (* $6 *)
  arg_timestamp : Instant;      (* $7 *)
  arg_details : json            (* $8 *)
}.

(** [VALUES ($1, $2, $3, 'active', $4, $5, $6, $7, $8)]. *)
Definition inserted (a : ExecArgs) : Row := {|
  source := arg_source a;
  source_id := arg_source_id a;
  event_type := arg_event_type a;
  status := "active";
  address := arg_address a;
  latitude := arg_latitude a;
  longitude := arg_longitude a;
  timestamp := arg_timestamp a;
  details := arg_details a
|}.

(** [ON CONFLICT (source, source_id)]. *)
Definition conflict (a : ExecArgs) (r : Row) : bool :=
  String.eqb (source r) (arg_source a) && String.eqb (source_id r) (arg_source_id a).

(** The statement on a table: [DO NOTHING] on a row in conflict, the insertion
    of the proposed row otherwise. *)
Fixpoint insert_or_nothing (a : ExecArgs) (t : list Row) : list Row :=
  match t with
  | [] => [inserted a]
  | r :: rest =>
    if conflict a r then r :: rest
    else r :: insert_or_nothing a rest
  end.

Definition has_key (s i : string) (r : Row) : bool :=
  String.eqb (source r) s && String.eqb (source_id r) i.

Definition select_row (s i : string) (t : list Row) : option Row :=
  find (has_key s i) t.

(** The lines the program logs, by their format. *)
Inductive LogEntry : Type :=
| log_found (n : Z)
    (* "Found %d total incidents from NC DOT." *)
| log_start_time (id : Z) (start : string)
    (* "DEBUG: Raw StartTime string from NC DOT API for incident %d: '%s'" *)
| log_timestamp_warning (start : string) (id : Z) (err : error)
    (* "WARNING: Could not parse timestamp '%s' for incident %d. Using current time instead. Error: %v" *)
| log_save_error (id : Z) (err : error)
    (* "Error saving NC DOT crash ID %d: %v" *)
| log_run_complete (n : Z)
    (* "Run complete. Processed and saved %d vehicle crashes to the unified table." *).

(** The state of the world: the clock, the statements executed so far with
    their outcome, the table, and the log. *)
Record World : Type := {
  w_clock : Instant;
  w_exec : list (ExecArgs * option error);
  w_table : list Row;
  w_log : list LogEntry
}.

(** The database server, as in [Env]. *)
Class Server : Type := {
  db_server : list (ExecArgs * option error) -> list Row -> ExecArgs -> N * option error
}.

Section Program.

Context {E : Env} {S : Server}.

Definition log_Printf (l : LogEntry) (w : World) : World :=
  {| w_clock := w_clock w; w_exec := w_exec w; w_table := w_table w;
     w_log := w_log w ++ [l] |}.

(** [db.Exec(sqlStatement, args...)]. *)
Definition db_Exec (a : ExecArgs) (w : World) : World * result unit :=
  let (elapsed, verdict) := db_server (w_exec w) (w_table w) a in
  ({| w_clock := w_clock w + Z.of_N elapsed;
      w_exec := w_exec w ++ [(a, verdict)];
      w_table := match verdict with
                 | Some _ => w_table w
                 | None => insert_or_nothing a (w_table w)
                 end;
      w_log := w_log w |},
   match verdict with
   | Some err => Err err
   | None => Ok tt
   end).

(** [saveToUnifiedDB] normalizes and saves a crash incident to the unified
    table. *)
Definition saveToUnifiedDB (incident : Incident) (w : World) : World * result unit :=
  let source := "NCDOT" in
  let sourceID := Itoa (ID incident) in
  let eventType := "Vehicle Crash" in
  let w := log_Printf (log_start_time (ID incident) (StartTime incident)) w in
  let (w, parsedTime) :=
    match time_Parse_RFC3339 (StartTime incident) with
    | Ok t => (w, t)
    | Err err =>
        (log_Printf (log_timestamp_warning (StartTime incident) (ID incident) err) w,
         w_clock w)
    end in
  match marshal_Incident incident with
  | Err err => (w, Err (Errorf_w "could not marshal incident details to JSON" err))
  | Ok detailsJSON =>
    db_Exec {|
      arg_source := source;
      arg_source_id := sourceID;
      arg_event_type := eventType;
      arg_address := Location incident;
      arg_latitude := Latitude incident;
      arg_longitude := Longitude incident;
      arg_timestamp := parsedTime;
      arg_details := detailsJSON
    |} w
  end.

(** The test of the loop of [main]. *)
Definition relevant (incident : Incident) : bool :=
  String.eqb (IncidentType incident) "Vehicle Crash".

(** One turn of the loop of [main], on the world and on [crashesSaved]. *)
Definition main_loop_body (incident : Incident) (st : World * Z) : World * Z :=
  let (w, crashesSaved) := st in
  if relevant incident then
    match saveToUnifiedDB incident w with
    | (w', Err err) => (log_Printf (log_save_error (ID incident) err) w', crashesSaved)
    | (w', Ok _) => (w', crashesSaved + 1)
    end
  else (w, crashesSaved).

Definition main_loop (allIncidents : list Incident) (st : World * Z) : World * Z :=
  fold_left (fun st incident => main_loop_body incident st) allIncidents st.

(** [main], from the decoded feed on. *)
Definition main_ingest (allIncidents : list Incident) (w : World) : World * Z :=
  let w := log_Printf (log_found (Z.of_nat (List.length allIncidents))) w in
  let (w, crashesSaved) := main_loop allIncidents (w, 0) in
  (log_Printf (log_run_complete crashesSaved) w, crashesSaved).

End Program.

End Part000.

(** The parameters and the timestamp of the earlier statement. *)

Section EarlierReadings.

Context {E : Env}.

(** The parameters of the statement of the earlier [saveToUnifiedDB]. *)
Definition part000_args (incident : Incident) (parsedTime : Instant) (raw : json)
  : Part000.ExecArgs := {|
  Part000.arg_source := "NCDOT";
  Part000.arg_source_id := Itoa (ID incident);
  Part000.arg_event_type := "Vehicle Crash";
  Part000.arg_address := Location incident;
  Part000.arg_latitude := Latitude incident;
  Part000.arg_longitude := Longitude incident;
  Part000.arg_timestamp := parsedTime;
  Part000.arg_details := raw
|}.

Definition part000_timestamp (incident : Incident) (w : Part000.World) : Instant :=
  match time_Parse_RFC3339 (StartTime incident) with
  | Ok t => t
  | Err _ => Part000.w_clock w
  end.

End EarlierReadings.

(** ** More of the scripted world *)

Module Scenario.

(** The environment of the process: a database and the URL of the feed. *)
Definition configured (name : string) : string :=
  if String.eqb name "DATABASE_HOST" then "db.example"
  else if String.eqb name "DATABASE_PORT" then "5432"
  else if String.eqb name "DATABASE_USERNAME" then "ingestor"
  else if String.eqb name "DATABASE_PASSWORD" then "secret"
  else if String.eqb name "DATABASE_NAME" then "incidents"
  else if String.eqb name "DOT_URL" then "https://dot.example/incidents"
  else "".

(** The same without the URL of the feed. *)
Definition no_url (name : string) : string :=
  if String.eqb name "DOT_URL" then "" else configured name.

(** Bodies of the feed are named, as those of the weather service are. *)
Definition decode_feed (body : string) : result (list Incident) :=
  if String.eqb body "feed:crash-and-closure"
  then Ok [Fixture.crash555; Fixture.closure558]
  else Err (errors_New "invalid character looking for beginning of value").

(** A machine with no [.env] file, a database that answers, and a feed that
    answers with the given status and body. *)
Definition host (getenv : string -> string) (status : Z) (body : string) : Host := {|
  godotenv_Load := Some (errors_New "open .env: no such file or directory");
  os_Getenv := getenv;
  sql_Open := fun _ => None;
  db_Ping := fun _ => (30000000%N, None);
  http_Get := fun _ _ =>
    (400000000%N, Ok {| StatusCode := status; Status := Fixture.status_text status;
                        Body := Ok body |});
  json_Unmarshal_incidents := decode_feed
|}.

(** The feed answers 503 with a body that decodes all the same. *)
Definition feed_503 : Host := host configured 503 "feed:crash-and-closure".

(** The feed answers with a page that is no JSON. *)
Definition feed_garbled : Host := host configured 200 "Service Unavailable".

(** No URL for the feed. *)
Definition feed_unset : Host := host no_url 200 "feed:crash-and-closure".

(** The table after the first sighting of incident 555 in fair weather. *)
Definition seen555 : World :=
  fst (@saveToUnifiedDB Fixture.fair Fixture.crash555 Fixture.noon).

(** Incident 555 seen again by the feed, with another reason. *)
Definition crash555_again : Incident :=
  Fixture.incident 555 "Vehicle Crash" "2024-05-01T11:00:00Z" "lane blocked"
    35.78%float (-78.64)%float.

(** A sighting of incident 557, for a key other than the one of 555. *)
Definition sighting557 : ExecArgs :=
  args_of Fixture.disabled557 1714557900000000000 (JObject [("weather", JNull)]) None.

(** Fair weather and a server that rejects every statement. *)
Definition rejecting : Env :=
  Fixture.env 200 200 "hourly:clear-then-cloudy" (fun _ _ => true).

Definition rejection : error := errors_New "pq: new row violates check constraint".

(** The earlier ingestor: a willing server and an empty table at noon. *)
Definition old_server : Part000.Server := {|
  Part000.db_server := fun _ _ _ => (20000000%N, None)
|}.

Definition old_noon : Part000.World := {|
  Part000.w_clock := 1714564800000000000; Part000.w_exec := [];
  Part000.w_table := []; Part000.w_log := []
|}.

Definition old_seen555 : Part000.World :=
  fst (@Part000.saveToUnifiedDB Fixture.fair old_server Fixture.crash555 old_noon).

End Scenario.

(** * Properties *)

(** ** Tactics *)

Ltac unfold_monad :=
  unfold http_NewRequest, io_ReadAll, Header_Set_UserAgent in *;
  unfold bind, ret, fail, wrapping, recover, lift, time_Now in *.

(** Case analysis along the early returns of a monadic function: the answers
    of the world first, then the tests of the program. *)
Ltac split_cases :=
  repeat (match goal with
          | |- context [client_Do ?h ?r] =>
              destruct (client_Do h r) as [? [?|?]] eqn:?
          | |- context [db_server ?h ?t ?a] =>
              destruct (db_server h t a) as [? [?|]] eqn:?
          | |- context [match ?x with _ => _ end] =>
              lazymatch type of x with
              | prod World _ => fail
              | _ => destruct x eqn:?
              end
          end; simpl in *).

(** Rewriting with what is known of the answers of the world. *)
Ltac use_answers :=
  repeat match goal with
         | H : StatusCode _ <> 200 |- _ => apply Z.eqb_neq in H
         | H : _ <> ""%string |- _ => apply String.eqb_neq in H
         | H : ?x = _ |- context [?x] => rewrite H; simpl
         end.

(** From the tests of the program to equations. *)
Ltac normalize_tests :=
  repeat match goal with
         | H : negb _ = true |- _ => apply negb_true_iff in H
         | H : negb _ = false |- _ => apply negb_false_iff in H
         | H : (_ =? _) = true |- _ => apply Z.eqb_eq in H
         | H : (_ =? _) = false |- _ => apply Z.eqb_neq in H
         | H : String.eqb _ _ = true |- _ => apply String.eqb_eq in H
         | H : String.eqb _ _ = false |- _ => apply String.eqb_neq in H
         end.

(** ** The upsert statement *)

Section Upsert.

Variable jd : option string.

Lemma conflict_has_key (a : ExecArgs) (r : Row) :
  conflict a r = has_key (arg_source a) (arg_source_id a) r.
Proof. reflexivity. Qed.

Lemma has_key_excluded (a : ExecArgs) :
  has_key (arg_source a) (arg_source_id a) (excluded jd a) = true.
Proof.
  unfold has_key; simpl. now rewrite !String.eqb_refl.
Qed.

Lemma has_key_eq (s i : string) (r : Row) :
  has_key s i r = true <-> (source r, source_id r) = (s, i).
Proof.
  unfold has_key. rewrite andb_true_iff, !String.eqb_eq.
  split; [intros [-> ->]; reflexivity | intros H; inversion H; auto].
Qed.

Lemma do_update_excluded (a : ExecArgs) : do_update a (excluded jd a) = excluded jd a.
Proof. reflexivity. Qed.

Lemma do_update_twice (a : ExecArgs) (r : Row) :
  do_update a (do_update a r) = do_update a r.
Proof. reflexivity. Qed.

(** The row of the key after the statement: the old one updated, or the
    proposed one. *)
Lemma select_upsert_same (a : ExecArgs) (t : list Row) :
  select_row (arg_source a) (arg_source_id a) (upsert jd a t) =
  Some (match select_row (arg_source a) (arg_source_id a) t with
        | Some old => do_update a old
        | None => excluded jd a
        end).
Proof.
  unfold select_row.
  induction t as [|r rest IH]; simpl.
  - now rewrite has_key_excluded.
  - rewrite conflict_has_key.
    destruct (has_key (arg_source a) (arg_source_id a) r) eqn:Hk; simpl.
    + change (has_key (arg_source a) (arg_source_id a) (do_update a r))
        with (has_key (arg_source a) (arg_source_id a) r).
      now rewrite Hk.
    + now rewrite Hk.
Qed.

(** The rows of the other keys are as they were. *)
Lemma select_upsert_other (a : ExecArgs) (t : list Row) (s i : string) :
  (s, i) <> (arg_source a, arg_source_id a) ->
  select_row s i (upsert jd a t) = select_row s i t.
Proof.
  intros Hne. unfold select_row.
  assert (Hnew : forall r, has_key (arg_source a) (arg_source_id a) r = true ->
                           has_key s i r = false).
  { intros r Hr. destruct (has_key s i r) eqn:Hs; [|reflexivity].
    apply has_key_eq in Hr. apply has_key_eq in Hs. congruence. }
  induction t as [|r rest IH]; simpl.
  - now rewrite (Hnew _ (has_key_excluded a)).
  - rewrite conflict_has_key.
    destruct (has_key (arg_source a) (arg_source_id a) r) eqn:Hk; simpl.
    + change (has_key s i (do_update a r)) with (has_key s i r).
      now rewrite (Hnew r Hk).
    + now rewrite IH.
Qed.

Lemma upsert_length (a : ExecArgs) (t : list Row) :
  List.length (upsert jd a t) =
  match select_row (arg_source a) (arg_source_id a) t with
  | Some _ => List.length t
  | None => S (List.length t)
  end.
Proof.
  unfold select_row.
  induction t as [|r rest IH]; simpl; [reflexivity|].
  rewrite conflict_has_key.
  destruct (has_key (arg_source a) (arg_source_id a) r); simpl; [reflexivity|].
  rewrite IH. now destruct (find _ rest).
Qed.

Lemma upsert_idempotent (a : ExecArgs) (t : list Row) :
  upsert jd a (upsert jd a t) = upsert jd a t.
Proof.
  induction t as [|r rest IH]; simpl.
  - rewrite conflict_has_key, has_key_excluded. reflexivity.
  - destruct (conflict a r) eqn:Hc; simpl.
    + change (conflict a (do_update a r)) with (conflict a r). now rewrite Hc.
    + now rewrite Hc, IH.
Qed.

(** The keys of the table after the statement. *)
Lemma upsert_keys (a : ExecArgs) (t : list Row) :
  map (fun r => (source r, source_id r)) (upsert jd a t) =
  match select_row (arg_source a) (arg_source_id a) t with
  | Some _ => map (fun r => (source r, source_id r)) t
  | None => map (fun r => (source r, source_id r)) t ++ [(arg_source a, arg_source_id a)]
  end.
Proof.
  unfold select_row.
  induction t as [|r rest IH]; simpl; [reflexivity|].
  rewrite conflict_has_key.
  destruct (has_key (arg_source a) (arg_source_id a) r); simpl; [reflexivity|].
  rewrite IH. now destruct (find _ rest).
Qed.

Lemma select_row_none_not_in (s i : string) (t : list Row) :
  select_row s i t = None -> ~ In (s, i) (map (fun r => (source r, source_id r)) t).
Proof.
  unfold select_row. intros Hnone Hin.
  apply in_map_iff in Hin. destruct Hin as [r [Hr Hin]].
  apply (find_none _ _ Hnone) in Hin.
  apply has_key_eq in Hr. congruence.
Qed.

(** The statement keeps the uniqueness constraint. *)
Lemma unique_keys_upsert (a : ExecArgs) (t : list Row) :
  unique_keys t -> unique_keys (upsert jd a t).
Proof.
  unfold unique_keys. intros Hu. rewrite upsert_keys.
  destruct (select_row (arg_source a) (arg_source_id a) t) eqn:Hs; [assumption|].
  apply NoDup_rev in Hu. rewrite <- (rev_involutive (_ ++ _)).
  apply NoDup_rev. rewrite rev_app_distr. simpl. constructor; [|assumption].
  rewrite <- in_rev. now apply select_row_none_not_in.
Qed.

(** Under the constraint a key has at most one row. *)
Lemma unique_keys_count (s i : string) (t : list Row) :
  unique_keys t -> (count_rows s i t <= 1)%nat.
Proof.
  unfold unique_keys, count_rows.
  induction t as [|r rest IH]; simpl; intros Hu; [lia|].
  inversion Hu as [|k ks Hnotin Hrest]; subst.
  destruct (has_key s i r) eqn:Hk; simpl; [|auto].
  apply has_key_eq in Hk.
  assert (Hnone : filter (has_key s i) rest = []).
  { destruct (filter (has_key s i) rest) as [|r' l] eqn:Hf; [reflexivity|].
    exfalso. apply Hnotin.
    assert (Hin : In r' (filter (has_key s i) rest)) by (rewrite Hf; now left).
    apply filter_In in Hin. destruct Hin as [Hin Hk'].
    apply has_key_eq in Hk'. rewrite Hk, <- Hk'.
    now apply (in_map (fun r => (source r, source_id r))). }
  rewrite Hnone. simpl. lia.
Qed.

Lemma select_row_count (s i : string) (t : list Row) (r : Row) :
  select_row s i t = Some r -> (1 <= count_rows s i t)%nat.
Proof.
  unfold select_row, count_rows. intros Hf.
  apply find_some in Hf. destruct Hf as [Hin Hk].
  assert (Hin' : In r (filter (has_key s i) t)) by (apply filter_In; auto).
  destruct (filter (has_key s i) t); [contradiction | simpl; lia].
Qed.

(** A row of the table after the statement was there before, or was written
    by the statement with the status "active". *)
Lemma upsert_In (a : ExecArgs) (t : list Row) (row : Row) :
  In row (upsert jd a t) -> In row t \/ status row = "active".
Proof.
  induction t as [|r rest IH]; simpl.
  - intros [<-|[]]. now right.
  - destruct (conflict a r); simpl.
    + intros [<-|Hin]; [now right | left; now right].
    + intros [<-|Hin]; [left; now left|].
      destruct (IH Hin) as [H|H]; [left; now right | now right].
Qed.

End Upsert.

(** C1. When the table already holds a row for the key of the statement, the
    statement changes six columns of that row and nothing else: [details],
    [problem_detail] and the three weather columns take the values of the
    new incident, [status] is set to "active"; the key ([source],
    [source_id]) and the columns [event_type], [address], [latitude],
    [longitude], [timestamp] (and [jurisdiction], which the statement does not
    name) keep the values of the existing row, whatever the new incident
    holds there. No row is added and the rows of the other keys are as they
    were. *)
Theorem upsert_conflict_updates_only_enrichment
  (jd : option string) (a : ExecArgs) (t : list Row) (old : Row) :
  select_row (arg_source a) (arg_source_id a) t = Some old ->
  exists new : Row,
    select_row (arg_source a) (arg_source_id a) (upsert jd a t) = Some new
    /\ (details new = arg_details a
        /\ status new = "active"
        /\ problem_detail new = arg_problem_detail a
        /\ weather_temp new = NullInt32_Value (arg_weather_temp a)
        /\ weather_wind_speed new = NullString_Value (arg_weather_wind_speed a)
        /\ weather_forecast new = NullString_Value (arg_weather_forecast a))
    /\ (source new = source old
        /\ source_id new = source_id old
        /\ event_type new = event_type old
        /\ address new = address old
        /\ latitude new = latitude old
        /\ longitude new = longitude old
        /\ timestamp new = timestamp old
        /\ jurisdiction new = jurisdiction old)
    /\ List.length (upsert jd a t) = List.length t
    /\ (forall s i : string,
          (s, i) <> (arg_source a, arg_source_id a) ->
          select_row s i (upsert jd a t) = select_row s i t).
Proof.
  intros Hold. exists (do_update a old).
  split; [rewrite select_upsert_same, Hold; reflexivity|].
  split; [repeat split|].
  split; [repeat split|].
  split; [rewrite upsert_length, Hold; reflexivity|].
  intros s i Hne. now apply select_upsert_other.
Qed.

(** The second sighting of incident 555 differs from the first in every
    parameter; the row keeps the type, place and time of the first. *)
Lemma upsert_conflict_updates_only_enrichment_witness :
  exists new : Row,
    select_row "NCDOT" "555"
      (upsert None Fixture.second_sighting
         [Fixture.closed_row; excluded None Fixture.first_sighting]) = Some new
    /\ (details new = JObject [("weather", JNull)]
        /\ status new = "active"
        /\ problem_detail new = "debris cleared, vehicle on shoulder"
        /\ weather_temp new = None
        /\ weather_wind_speed new = None
        /\ weather_forecast new = None)
    /\ (source new = "NCDOT"
        /\ source_id new = "555"
        /\ event_type new = "Vehicle Crash"
        /\ address new = "I-40 near Exit 289"
        /\ latitude new = 35.78%float
        /\ longitude new = (-78.64)%float
        /\ timestamp new = 1714557600000000000
        /\ jurisdiction new = None)
    /\ List.length
         (upsert None Fixture.second_sighting
            [Fixture.closed_row; excluded None Fixture.first_sighting]) = 2%nat
    /\ (forall s i : string,
          (s, i) <> ("NCDOT", "555") ->
          select_row s i
            (upsert None Fixture.second_sighting
               [Fixture.closed_row; excluded None Fixture.first_sighting]) =
          select_row s i [Fixture.closed_row; excluded None Fixture.first_sighting]).
Proof.
  apply (upsert_conflict_updates_only_enrichment None Fixture.second_sighting
           [Fixture.closed_row; excluded None Fixture.first_sighting]
           (excluded None Fixture.first_sighting)).
  reflexivity.
Defined.

(** C2. Running the statement twice in succession on the same incident leaves
    the table exactly as running it once does, so the row of the key has the
    fields of the single write; and in a table that satisfies the uniqueness
    constraint the key has exactly one row afterwards, the constraint still
    holding. *)
Theorem upsert_twice_is_upsert_once
  (jd : option string) (a : ExecArgs) (t : list Row) :
  unique_keys t ->
  upsert jd a (upsert jd a t) = upsert jd a t
  /\ select_row (arg_source a) (arg_source_id a) (upsert jd a (upsert jd a t)) =
     select_row (arg_source a) (arg_source_id a) (upsert jd a t)
  /\ count_rows (arg_source a) (arg_source_id a) (upsert jd a (upsert jd a t)) = 1%nat
  /\ unique_keys (upsert jd a (upsert jd a t)).
Proof.
  intros Hu. rewrite upsert_idempotent.
  split; [reflexivity|]. split; [reflexivity|].
  pose proof (unique_keys_upsert jd a t Hu) as Hu'.
  split; [|assumption].
  pose proof (unique_keys_count (arg_source a) (arg_source_id a) _ Hu') as Hle.
  pose proof (select_row_count _ _ _ _ (select_upsert_same jd a t)) as Hge.
  lia.
Qed.

Lemma upsert_twice_is_upsert_once_witness :
  upsert None Fixture.first_sighting
    (upsert None Fixture.first_sighting [Fixture.closed_row]) =
  upsert None Fixture.first_sighting [Fixture.closed_row]
  /\ select_row "NCDOT" "555"
       (upsert None Fixture.first_sighting
          (upsert None Fixture.first_sighting [Fixture.closed_row])) =
     select_row "NCDOT" "555" (upsert None Fixture.first_sighting [Fixture.closed_row])
  /\ count_rows "NCDOT" "555"
       (upsert None Fixture.first_sighting
          (upsert None Fixture.first_sighting [Fixture.closed_row])) = 1%nat
  /\ unique_keys
       (upsert None Fixture.first_sighting
          (upsert None Fixture.first_sighting [Fixture.closed_row])).
Proof.
  apply (upsert_twice_is_upsert_once None Fixture.first_sighting [Fixture.closed_row]).
  unfold unique_keys; simpl.
  constructor; [intros H; exact H | constructor].
Defined.

(** ** The details blob *)

Lemma marshal_Incident_finite (incident : Incident) :
  finite_coordinates incident = true ->
  exists raw, marshal_Incident incident = Ok raw.
Proof.
  unfold finite_coordinates, marshal_Incident, marshal_float64.
  intros H. apply andb_true_iff in H. destruct H as [-> ->]. eexists. reflexivity.
Qed.

Lemma marshal_Incident_not_finite (incident : Incident) :
  finite_coordinates incident = false ->
  exists e, marshal_Incident incident = Err e.
Proof.
  unfold finite_coordinates, marshal_Incident, marshal_float64.
  intros H. apply andb_false_iff in H.
  destruct (is_finite (Latitude incident)); [|eexists; reflexivity].
  destruct H as [H|H]; [discriminate|]. rewrite H. eexists. reflexivity.
Qed.

(** The map of [saveToUnifiedDB] is encoded as an object of two members, in
    the order of their keys; the only error is the one of the incident. *)
Lemma json_Marshal_details (incident : Incident) (weatherData : option WeatherData) :
  json_Marshal (details_map incident weatherData) =
  match marshal_Incident incident with
  | Err e => Err e
  | Ok raw => Ok (JObject [("raw_incident", raw); ("weather", weather_json weatherData)])
  end.
Proof.
  unfold json_Marshal, details_map, sort_by_key. simpl.
  destruct (marshal_Incident incident); [|reflexivity].
  destruct weatherData; reflexivity.
Qed.

(** Every field of the incident is read back from its encoding. *)
Lemma Incident_of_json_marshal (incident : Incident) (raw : json) :
  marshal_Incident incident = Ok raw -> Incident_of_json raw = Some incident.
Proof.
  unfold marshal_Incident, marshal_float64.
  destruct (is_finite (Latitude incident)); [|discriminate].
  destruct (is_finite (Longitude incident)); [|discriminate].
  intros H. injection H as <-. destruct incident. reflexivity.
Qed.

(** ** The steps of [saveToUnifiedDB] *)

Section Steps.

Context {E : Env}.

Lemma saveToUnifiedDB_steps (incident : Incident) (w : World) :
  saveToUnifiedDB incident w =
  let (w0, parsedTime) := after_parse incident w in
  let (w1, weatherData) := after_weather incident w0 in
  match marshal_Incident incident with
  | Err e => (w1, Err (Errorf_w "could not marshal unified details to JSON" e))
  | Ok raw =>
    db_Exec (args_of incident parsedTime
               (JObject [("raw_incident", raw); ("weather", weather_json weatherData)])
               weatherData) w1
  end.
Proof.
  unfold saveToUnifiedDB, after_parse, after_weather, log_line.
  unfold bind at 1. unfold recover at 1. unfold lift at 1.
  destruct (time_Parse_RFC3339 (StartTime incident)) as [t|err].
  - unfold bind at 1. unfold recover at 1. unfold bind at 1.
    destruct (getWeatherForIncident (Latitude incident) (Longitude incident) w)
      as [w1 [d|e]]; unfold_monad; simpl; rewrite json_Marshal_details;
      destruct (marshal_Incident incident); reflexivity.
  - unfold bind at 1. unfold bind at 1. unfold log_Printf at 1. unfold time_Now at 1.
    unfold bind at 1. unfold recover at 1. unfold bind at 1.
    destruct (getWeatherForIncident (Latitude incident) (Longitude incident) _)
      as [w1 [d|e]]; unfold_monad; simpl; rewrite json_Marshal_details;
      destruct (marshal_Incident incident); reflexivity.
Qed.

End Steps.

(** ** The weather lookup *)

Section Weather.

Context {E : Env}.

Local Arguments String.append : simpl never.

(** The lookup touches neither the table nor the log, and the clock does not
    go back. *)
Lemma getWeatherForIncident_frame (lat lon : float) (w : World) :
  let w' := fst (getWeatherForIncident lat lon w) in
  w_exec w' = w_exec w /\ w_table w' = w_table w /\ w_log w' = w_log w
  /\ w_clock w <= w_clock w'.
Proof.
  unfold getWeatherForIncident, Do. unfold_monad. simpl.
  split_cases; repeat split; try reflexivity; lia.
Qed.

(** A line more in the log changes nothing to the lookup. *)
Lemma getWeatherForIncident_log (lat lon : float) (l : LogEntry) (w : World) :
  getWeatherForIncident lat lon (log_line l w) =
  (log_line l (fst (getWeatherForIncident lat lon w)),
   snd (getWeatherForIncident lat lon w)).
Proof.
  unfold getWeatherForIncident, Do, log_line, log_Printf. unfold_monad. simpl.
  split_cases; reflexivity.
Qed.

(** Each failure the specification lists makes the lookup return an error. *)
Lemma weather_lookup_fails_error (lat lon : float) (w : World) :
  weather_lookup_fails (w_http w) lat lon ->
  exists e, snd (getWeatherForIncident lat lon w) = Err e.
Proof.
  intros Hfail.
  destruct Hfail as
    [ resp [Hurl [dt Hdo]] Hstatus
    | resp body e [Hurl [dt Hdo]] Hstatus Hbody Hjson
    | resp body pr [Hurl [dt Hdo]] Hstatus Hbody Hjson Hnone
    | u resp [Hpoints [Hurl2 [dt2 Hdo2]]] Hstatus2
    | u resp body e [Hpoints [Hurl2 [dt2 Hdo2]]] Hstatus2 Hbody2 Hjson2
    | u [resp2 [body2 [hr [[Hpoints [Hurl2 [dt2 Hdo2]]] [Hstatus2 [Hbody2 [Hjson2 Hnone]]]]]]] ];
    try (destruct Hpoints as
           [resp1 [body1 [pr1 [[Hurl [dt Hdo]] [Hstatus [Hbody [Hjson [Hu Hne]]]]]]]];
         subst u);
    unfold points_request, hourly_request, pointsURL in *;
    unfold getWeatherForIncident, Do; unfold_monad; simpl;
    use_answers; eexists; reflexivity.
Qed.

(** The requests of a lookup and its result: the two stages answered and the
    result is the first period, or the lookup failed after no, one or two
    requests. *)
Lemma getWeatherForIncident_stages (lat lon : float) (w : World) :
  exists reqs : list Request,
    w_http (fst (getWeatherForIncident lat lon w)) = w_http w ++ reqs
    /\ ((exists u first rest,
            hourly_answer (w_http w) lat lon u (first :: rest)
            /\ reqs = [points_request lat lon; hourly_request u]
            /\ snd (getWeatherForIncident lat lon w) = Ok first)
        \/ (exists e,
              snd (getWeatherForIncident lat lon w) = Err e
              /\ ((reqs = [] /\ url_error (pointsURL lat lon) = Some e)
                  \/ (reqs = [points_request lat lon]
                      /\ forall u, points_answer (w_http w) lat lon u ->
                                   url_error (u ++ "?units=us") = Some e)
                  \/ (exists u, points_answer (w_http w) lat lon u
                                /\ reqs = [points_request lat lon; hourly_request u])))).
Proof.
  unfold hourly_answer, hourly_response, points_answer, points_response.
  unfold points_request, hourly_request, pointsURL.
  unfold getWeatherForIncident, Do. unfold_monad. simpl.
  split_cases; normalize_tests;
    solve
      [ exists []; rewrite app_nil_r; split; [reflexivity|];
        right; eexists; split; [reflexivity|]; left; auto
      | eexists [_]; split; [reflexivity|];
        right; eexists; split; [reflexivity|]; right; left; split; [reflexivity|];
        intros u' [resp' [body' [pr' [[_ [dt' Hdo']] [Hs' [Hb' [Hj' [Hu' Hne']]]]]]]];
        congruence
      | eexists [_; _]; rewrite <- app_assoc; split; [reflexivity|];
        right; eexists; split; [reflexivity|]; right; right;
        eexists; split; [| reflexivity]; eauto 20
      | eexists [_; _]; rewrite <- app_assoc; split; [reflexivity|];
        left; do 3 eexists; split; [|split; reflexivity]; eauto 30 ].
Qed.

(** The requests of a lookup, exactly: none when the request of the first
    stage cannot be built; the one of the first stage alone when that stage
    fails or the request of the second cannot be built; the two of them when
    the first stage answered with a URL a request is built from. *)
Lemma getWeatherForIncident_trace (lat lon : float) (w : World) :
  exists reqs : list Request,
    w_http (fst (getWeatherForIncident lat lon w)) = w_http w ++ reqs
    /\ ((exists e,
           url_error (pointsURL lat lon) = Some e
           /\ reqs = []
           /\ snd (getWeatherForIncident lat lon w) = Err e)
        \/ (url_error (pointsURL lat lon) = None
            /\ reqs = [points_request lat lon]
            /\ (exists e, snd (getWeatherForIncident lat lon w) = Err e)
            /\ forall u, points_answer (w_http w) lat lon u ->
                         url_error (u ++ "?units=us") <> None)
        \/ (exists u,
              points_answer (w_http w) lat lon u
              /\ url_error (u ++ "?units=us") = None
              /\ reqs = [points_request lat lon; hourly_request u])).
Proof.
  unfold points_answer, points_response.
  unfold points_request, hourly_request, pointsURL.
  unfold getWeatherForIncident, Do. unfold_monad. simpl.
  split_cases; normalize_tests;
    solve
      [ exists []; rewrite app_nil_r; split; [reflexivity|];
        left; eexists; repeat split; reflexivity
      | eexists [_]; split; [reflexivity|];
        right; left; split; [reflexivity|]; split; [reflexivity|];
        split; [eexists; reflexivity|];
        intros u' [resp' [body' [pr' [[_ [dt' Hdo']] [Hs' [Hb' [Hj' [Hu' Hne']]]]]]]];
        congruence
      | eexists [_; _]; rewrite <- app_assoc; split; [reflexivity|];
        right; right; eexists; split; [|split; [|reflexivity]]; eauto 20 ].
Qed.

End Weather.

(** ** The coordinates in the URL of the first stage *)

(** [round_half_even n d] is an integer nearest to [n / d]. *)
Lemma round_half_even_nearest (n d : Z) :
  0 <= n -> 0 < d ->
  0 <= round_half_even n d /\ 2 * Z.abs (n - d * round_half_even n d) <= d.
Proof.
  intros Hn Hd. unfold round_half_even.
  pose proof (Z.div_mod n d ltac:(lia)) as Hdm.
  pose proof (Z.mod_pos_bound n d Hd) as Hr.
  pose proof (Z.div_pos n d Hn Hd) as Hq.
  destruct (2 * (n mod d) <? d) eqn:H1; [apply Z.ltb_lt in H1; split; nia|].
  apply Z.ltb_ge in H1.
  destruct (d <? 2 * (n mod d)) eqn:H2; [apply Z.ltb_lt in H2; split; nia|].
  apply Z.ltb_ge in H2.
  destruct (Z.even (n / d)); split; nia.
Qed.

(** The digits after the point are four. *)
Lemma frac4_length (r : Z) :
  0 <= r < 10000 -> String.length (frac4 r) = 4%nat.
Proof.
  intros Hr.
  assert (H : forallb (fun n => Nat.eqb (String.length (frac4 (Z.of_nat n))) 4)
                (seq 0 (Z.to_nat 10000)) = true) by (vm_compute; reflexivity).
  rewrite forallb_forall in H.
  specialize (H (Z.to_nat r)). rewrite Z2Nat.id in H by lia.
  apply Nat.eqb_eq, H, in_seq. lia.
Qed.

(** A finite coordinate is printed as the nearest number of ten-thousandths,
    with four digits after the point. *)
Lemma Sprintf_4f_nearest (x : float) (s : bool) (m : positive) (e : Z) :
  Prim2SF x = S754_finite s m e ->
  exists q,
    Sprintf_4f x = fixed4 s q
    /\ nearest_ten_thousandths m e q
    /\ String.length (frac4 (q mod 10000)) = 4%nat.
Proof.
  intros Hx. unfold Sprintf_4f. rewrite Hx.
  exists (scaled4 (Zpos m) e). split; [reflexivity|].
  split; [|apply frac4_length, Z.mod_pos_bound; lia].
  unfold nearest_ten_thousandths, scaled4.
  destruct (0 <=? e) eqn:He.
  - apply Z.leb_le in He.
    assert (0 < 2 ^ e) by (apply Z.pow_pos_nonneg; lia).
    split; [nia | split; [intros _; reflexivity | intros; lia]].
  - apply Z.leb_gt in He.
    assert (Hd : 0 < 2 ^ (- e)) by (apply Z.pow_pos_nonneg; lia).
    destruct (round_half_even_nearest (Zpos m * 10000) (2 ^ (- e)) ltac:(lia) Hd)
      as [Hq Hnear].
    split; [exact Hq | split; [intros; lia | intros _; exact Hnear]].
Qed.

Section TwoStages.

Context {E : Env}.

Local Arguments String.append : simpl never.

(** C8, as the program has it. The lookup at [(lat, lon)] sends at most two
    requests, one after the other, whatever was sent before (nothing is
    cached, nothing is sent again). The first one is a GET of
    [https://api.weather.gov/points/<lat>,<lon>], each coordinate printed
    with four decimals, nearest to its value. When the first stage answers
    with a forecast URL [u] that a request can be built from, exactly two
    requests are sent, the second one a GET of [u] followed by [?units=us],
    and a result is the first of the periods the second stage answers. When
    the first stage fails, or the second, the lookup returns an error.

    The requests are pinned in every case: they are none when the first
    request cannot be built, the request of the first stage alone when that
    stage fails (no second lookup, and the first is not sent again), and the
    two requests above otherwise, never more. The same lookup made again in
    the world the first one leaves sends the request of the first stage
    again. *)
Theorem getWeatherForIncident_two_stages (lat lon : float) (w : World) :
  exists reqs : list Request,
    w_http (fst (getWeatherForIncident lat lon w)) = w_http w ++ reqs
    /\ (List.length reqs <= 2)%nat
    /\ (forall r, In r reqs ->
          r = points_request lat lon \/ exists u, r = hourly_request u)
    /\ (url_error (pointsURL lat lon) = None ->
        exists rest, reqs = points_request lat lon :: rest)
    /\ URL (points_request lat lon) =
         ("https://api.weather.gov/points/" ++ Sprintf_4f lat ++ "," ++ Sprintf_4f lon)%string
    /\ (forall x s m e, (x = lat \/ x = lon) -> Prim2SF x = S754_finite s m e ->
          exists q, Sprintf_4f x = fixed4 s q
                    /\ nearest_ten_thousandths m e q
                    /\ String.length (frac4 (q mod 10000)) = 4%nat)
    /\ (forall u, points_answer (w_http w) lat lon u ->
          url_error (u ++ "?units=us") = None ->
          reqs = [points_request lat lon; hourly_request u]
          /\ URL (hourly_request u) = (u ++ "?units=us")%string)
    /\ (forall first, snd (getWeatherForIncident lat lon w) = Ok first ->
          exists u rest,
            hourly_answer (w_http w) lat lon u (first :: rest)
            /\ reqs = [points_request lat lon; hourly_request u])
    /\ (forall u ps, hourly_answer (w_http w) lat lon u ps ->
          snd (getWeatherForIncident lat lon w) =
          match ps with
          | first :: _ => Ok first
          | [] => Err (errors_New "no weather periods returned from NWS")
          end)
    (* the requests, in every case *)
    /\ ((exists e, url_error (pointsURL lat lon) = Some e /\ reqs = [])
        \/ (url_error (pointsURL lat lon) = None
            /\ reqs = [points_request lat lon]
            /\ forall u, points_answer (w_http w) lat lon u ->
                         url_error (u ++ "?units=us") <> None)
        \/ (exists u,
              points_answer (w_http w) lat lon u
              /\ url_error (u ++ "?units=us") = None
              /\ reqs = [points_request lat lon; hourly_request u]))
    (* the first request cannot be built: nothing is sent *)
    /\ (forall e, url_error (pointsURL lat lon) = Some e ->
          reqs = [] /\ snd (getWeatherForIncident lat lon w) = Err e)
    (* the first stage gives no URL to go on with: one request, no more *)
    /\ (url_error (pointsURL lat lon) = None ->
        (forall u, points_answer (w_http w) lat lon u ->
                   url_error (u ++ "?units=us") <> None) ->
        reqs = [points_request lat lon]
        /\ exists e, snd (getWeatherForIncident lat lon w) = Err e)
    /\ (url_error (pointsURL lat lon) = None ->
        (forall u, ~ points_answer (w_http w) lat lon u) ->
        reqs = [points_request lat lon]
        /\ exists e, snd (getWeatherForIncident lat lon w) = Err e)
    /\ (forall resp, points_response (w_http w) lat lon resp ->
          StatusCode resp <> 200 ->
          reqs = [points_request lat lon]
          /\ exists e, snd (getWeatherForIncident lat lon w) = Err e)
    (* nothing is cached: the same lookup again sends the first request again *)
    /\ (url_error (pointsURL lat lon) = None ->
        exists rest,
          w_http (fst (getWeatherForIncident lat lon
                         (fst (getWeatherForIncident lat lon w)))) =
          w_http (fst (getWeatherForIncident lat lon w))
          ++ points_request lat lon :: rest).
Proof.
  destruct (getWeatherForIncident_stages lat lon w) as [reqs [Hsent Hcases]].
  exists reqs. split; [exact Hsent|].
  assert (Hdet : forall u u', points_answer (w_http w) lat lon u ->
                              points_answer (w_http w) lat lon u' -> u = u').
  { intros u u' [r1 [b1 [p1 [[_ [d1 Hd1]] [_ [Hb1 [Hj1 [Hu1 _]]]]]]]]
                [r2 [b2 [p2 [[_ [d2 Hd2]] [_ [Hb2 [Hj2 [Hu2 _]]]]]]]].
    congruence. }
  assert (Htrace :
            (exists e,
                url_error (pointsURL lat lon) = Some e
                /\ reqs = []
                /\ snd (getWeatherForIncident lat lon w) = Err e)
            \/ (url_error (pointsURL lat lon) = None
                /\ reqs = [points_request lat lon]
                /\ (exists e, snd (getWeatherForIncident lat lon w) = Err e)
                /\ forall u, points_answer (w_http w) lat lon u ->
                             url_error (u ++ "?units=us") <> None)
            \/ (exists u,
                  points_answer (w_http w) lat lon u
                  /\ url_error (u ++ "?units=us") = None
                  /\ reqs = [points_request lat lon; hourly_request u])).
  { destruct (getWeatherForIncident_trace lat lon w) as [reqs' [Hsent' Ht]].
    rewrite Hsent in Hsent'. apply app_inv_head in Hsent'. now subst reqs'. }
  assert (Hone : url_error (pointsURL lat lon) = None ->
                 (forall u, points_answer (w_http w) lat lon u ->
                            url_error (u ++ "?units=us") <> None) ->
                 reqs = [points_request lat lon]
                 /\ exists e, snd (getWeatherForIncident lat lon w) = Err e).
  { intros Hurl Hno.
    destruct Htrace as [[e [He _]] | [[_ [Hr [Herr _]]] | [u [Hu [Hu2 _]]]]].
    - congruence.
    - split; assumption.
    - exfalso. now apply (Hno u Hu). }
  split; [|split; [|split; [|split; [reflexivity|split;
    [intros x s m e _ Hx; now apply Sprintf_4f_nearest|split; [|split]]]]]].
  - destruct Hcases as [[u [f [rest [_ [-> _]]]]] | [e [_ [[-> _] | [[-> _] | [u [_ ->]]]]]]];
      simpl; lia.
  - intros r Hin.
    destruct Hcases as [[u [f [rest [_ [-> _]]]]] | [e [_ [[-> _] | [[-> _] | [u [_ ->]]]]]]];
      simpl in Hin; intuition eauto.
  - intros Hurl.
    destruct Hcases as [[u [f [rest [_ [-> _]]]]] | [e [_ [[-> He] | [[-> _] | [u [_ ->]]]]]]];
      try (eexists; reflexivity). congruence.
  - intros u Hu Hurl. split; [|reflexivity].
    destruct Hcases as [[u' [f [rest [Hh [-> _]]]]] | [e [_ [[-> He] | [[-> He] | [u' [Hu' ->]]]]]]].
    + destruct Hh as [r2 [b2 [h2 [[Hu' _] _]]]]. now rewrite (Hdet u u' Hu Hu').
    + destruct Hu as [r1 [b1 [p1 [[Hurl1 _] _]]]]. congruence.
    + specialize (He u Hu). congruence.
    + now rewrite (Hdet u u' Hu Hu').
  - intros first Hok.
    destruct Hcases as [[u [f [rest [Hh [-> Hres]]]]] | [e [Herr _]]]; [|congruence].
    exists u, rest. split; [|reflexivity]. congruence.
  - split; [|split; [|split; [|split; [exact Hone|split; [|split]]]]].
    + intros u ps [resp [body [hr [[Hpoints [Hurl2 [dt2 Hdo2]]] [Hstatus2 [Hbody2 [Hjson2 Hps]]]]]]].
      destruct Hpoints as [resp1 [body1 [pr1 [[Hurl [dt Hdo]] [Hstatus [Hbody [Hjson [Hu Hne]]]]]]]].
      subst u.
      unfold points_request, hourly_request, pointsURL in *.
      unfold getWeatherForIncident, Do; unfold_monad; simpl.
      use_answers. destruct (Periods hr); inversion Hps; subst; reflexivity.
    + destruct Htrace as [[e [He [Hr _]]] | [[Hurl [Hr [_ Hno]]] | Htwo]].
      * left. exists e. split; assumption.
      * right. left. repeat split; assumption.
      * right. right. exact Htwo.
    + intros e He.
      destruct Htrace as [[e' [He' [Hr Herr]]] | [[Hurl _] | [u [Hu _]]]].
      * split; [exact Hr | congruence].
      * congruence.
      * destruct Hu as [r1 [b1 [p1 [[Hurl1 _] _]]]]. congruence.
    + intros Hurl Hnone. apply Hone; [exact Hurl|].
      intros u Hu. exfalso. now apply (Hnone u).
    + intros resp [Hurl [dt Hdo]] Hstatus. apply Hone; [exact Hurl|].
      intros u [r1 [b1 [p1 [[_ [d1 Hd1]] [Hs1 _]]]]]. exfalso.
      rewrite Hdo in Hd1. injection Hd1 as _ <-. contradiction.
    + intros Hurl.
      destruct (getWeatherForIncident_trace lat lon (fst (getWeatherForIncident lat lon w)))
        as [reqs2 [Hsent2 [[e [He _]] | [[_ [Hr _]] | [u [_ [_ Hr]]]]]]].
      * congruence.
      * exists []. now rewrite Hsent2, Hr.
      * eexists. rewrite Hsent2, Hr. reflexivity.
Qed.

End TwoStages.

(** ** One incident *)

Section OneIncident.

Context {E : Env}.

(** What a call of [saveToUnifiedDB] does, in terms of the lookup made in the
    world of the call: it sends the requests of the lookup, logs its warnings,
    and then either fails on the encoding, without a statement, or executes
    one statement and returns what the server says. *)
Lemma saveToUnifiedDB_run (incident : Incident) (w : World) :
  let lookup := getWeatherForIncident (Latitude incident) (Longitude incident) w in
  let weatherData := weather_of (snd lookup) in
  let w' := fst (saveToUnifiedDB incident w) in
  w_http w' = w_http (fst lookup)
  /\ w_log w' = w_log w ++ warnings_of incident (snd lookup)
  /\ w_clock w <= w_clock w'
  /\ match marshal_Incident incident with
     | Err e =>
         w_exec w' = w_exec w /\ w_table w' = w_table w
         /\ snd (saveToUnifiedDB incident w) =
            Err (Errorf_w "could not marshal unified details to JSON" e)
     | Ok raw =>
         let a := args_of incident (timestamp_of incident w)
                    (JObject [("raw_incident", raw); ("weather", weather_json weatherData)])
                    weatherData in
         exists verdict : option error,
           w_exec w' = w_exec w ++ [(a, verdict)]
           /\ snd (saveToUnifiedDB incident w) = result_of_verdict verdict
           /\ w_table w' = match verdict with
                           | Some _ => w_table w
                           | None => upsert jurisdiction_default a (w_table w)
                           end
     end.
Proof.
  cbv zeta. rewrite saveToUnifiedDB_steps.
  unfold after_parse, after_weather, timestamp_of, warnings_of.
  pose proof (getWeatherForIncident_frame (Latitude incident) (Longitude incident) w)
    as Hframe. cbv zeta in Hframe.
  destruct (time_Parse_RFC3339 (StartTime incident)) as [t|perr].
  - destruct (getWeatherForIncident (Latitude incident) (Longitude incident) w)
      as [w1 [d|e]]; simpl in Hframe; destruct Hframe as [Hexec [Htable [Hlog Hclock]]];
      destruct (marshal_Incident incident) as [raw|merr]; simpl;
      unfold db_Exec; simpl; split_cases;
      rewrite ?Hexec, ?Htable, ?Hlog, ?app_nil_r;
      repeat (split; try reflexivity; try lia);
      eexists; repeat (split; try reflexivity).
  - rewrite getWeatherForIncident_log.
    destruct (getWeatherForIncident (Latitude incident) (Longitude incident) w)
      as [w1 [d|e]]; simpl in Hframe; destruct Hframe as [Hexec [Htable [Hlog Hclock]]];
      destruct (marshal_Incident incident) as [raw|merr]; simpl;
      unfold db_Exec; simpl; split_cases;
      rewrite ?Hexec, ?Htable, ?Hlog, ?app_nil_r, <- ?app_assoc;
      repeat (split; try reflexivity; try lia);
      eexists; repeat (split; try reflexivity).
Qed.

Lemma app_one_inv {A} (l : list A) (x y : A) : l ++ [x] = l ++ [y] -> x = y.
Proof. intros H. apply app_inv_head in H. now inversion H. Qed.

Lemma app_one_not_nil {A} (l : list A) (x : A) : l <> l ++ [x].
Proof.
  intros H. apply (f_equal (@List.length A)) in H.
  rewrite length_app in H. simpl in H. lia.
Qed.

(** C10. When the encoding of the details of the call fails with [e],
    [saveToUnifiedDB] returns that error, wrapped, and has executed no
    statement: the table and the record of executed statements are as they
    were. *)
Theorem saveToUnifiedDB_marshal_error_before_write
  (incident : Incident) (w : World) (e : error) :
  json_Marshal
    (details_map incident
       (weather_of (snd (getWeatherForIncident (Latitude incident) (Longitude incident) w))))
  = Err e ->
  snd (saveToUnifiedDB incident w) =
    Err (Errorf_w "could not marshal unified details to JSON" e)
  /\ w_exec (fst (saveToUnifiedDB incident w)) = w_exec w
  /\ w_table (fst (saveToUnifiedDB incident w)) = w_table w.
Proof.
  intros Hm. rewrite json_Marshal_details in Hm.
  destruct (saveToUnifiedDB_run incident w) as [_ [_ [_ Hrun]]].
  destruct (marshal_Incident incident) as [raw|merr]; [discriminate|].
  injection Hm as ->. destruct Hrun as [Hexec [Htable Hres]]. auto.
Qed.

(** C9. The details that [saveToUnifiedDB] sends with its statement are an
    object of two members. Under [raw_incident] stands the encoding of the
    whole incident, from which every field is read back. Under [weather]
    stands the encoding of the observation, and [null] when the lookup
    failed: the key is there in both cases. *)
Theorem saveToUnifiedDB_details_blob
  (incident : Incident) (w : World) (a : ExecArgs) (verdict : option error) :
  w_exec (fst (saveToUnifiedDB incident w)) = w_exec w ++ [(a, verdict)] ->
  let lookup := snd (getWeatherForIncident (Latitude incident) (Longitude incident) w) in
  exists raw weather : json,
    arg_details a = JObject [("raw_incident", raw); ("weather", weather)]
    /\ json_get "raw_incident" (arg_details a) = Some raw
    /\ marshal_Incident incident = Ok raw
    /\ Incident_of_json raw = Some incident
    /\ json_get "weather" (arg_details a) = Some weather
    /\ (forall err, lookup = Err err -> weather = JNull)
    /\ (forall d, lookup = Ok d -> weather = marshal_WeatherData d).
Proof.
  intros Hexec lookup.
  destruct (saveToUnifiedDB_run incident w) as [_ [_ [_ Hrun]]].
  destruct (marshal_Incident incident) as [raw|merr] eqn:Hraw.
  - destruct Hrun as [verdict' [Hexec' _]]. rewrite Hexec' in Hexec.
    apply app_one_inv in Hexec. injection Hexec as <- _.
    exists raw, (weather_json (weather_of lookup)).
    repeat split; try reflexivity.
    + now apply Incident_of_json_marshal.
    + intros err Herr. fold lookup. now rewrite Herr.
    + intros d Hd. fold lookup. now rewrite Hd.
  - destruct Hrun as [Hexec' _]. rewrite Hexec' in Hexec.
    now apply app_one_not_nil in Hexec.
Qed.

(** C6. When the start time of the incident does not parse,
    [saveToUnifiedDB] logs a warning and goes on with the reading of the
    clock at that moment: the statement is executed with this timestamp,
    which lies between the clock at the start of the call and the clock at
    its end, and the call returns what the server says. When the server
    accepts, the table holds the row of the incident, and a row that is new
    has this timestamp. *)
Theorem saveToUnifiedDB_timestamp_fallback
  (incident : Incident) (w : World) (perr : error) :
  time_Parse_RFC3339 (StartTime incident) = Err perr ->
  finite_coordinates incident = true ->
  exists (a : ExecArgs) (verdict : option error),
    w_exec (fst (saveToUnifiedDB incident w)) = w_exec w ++ [(a, verdict)]
    /\ arg_timestamp a = w_clock w
    /\ w_clock w <= w_clock (fst (saveToUnifiedDB incident w))
    /\ In (log_timestamp_warning (StartTime incident) perr)
          (w_log (fst (saveToUnifiedDB incident w)))
    /\ snd (saveToUnifiedDB incident w) = result_of_verdict verdict
    /\ (verdict = None ->
        exists row,
          select_row "NCDOT" (Itoa (ID incident))
            (w_table (fst (saveToUnifiedDB incident w))) = Some row
          /\ (select_row "NCDOT" (Itoa (ID incident)) (w_table w) = None ->
              timestamp row = w_clock w)).
Proof.
  intros Hparse Hfinite.
  destruct (saveToUnifiedDB_run incident w) as [_ [Hlog [Hclock Hrun]]].
  destruct (marshal_Incident_finite incident Hfinite) as [raw Hraw].
  rewrite Hraw in Hrun. cbv zeta in Hrun.
  destruct Hrun as [verdict [Hexec [Hres Htable]]].
  unfold timestamp_of in *. unfold warnings_of in Hlog. rewrite Hparse in *.
  match type of Hexec with _ = _ ++ [(?x, _)] => set (a := x) in * end.
  exists a, verdict.
  split; [exact Hexec|]. split; [reflexivity|]. split; [exact Hclock|].
  split; [rewrite Hlog; apply in_or_app; right; now left|].
  split; [exact Hres|].
  intros ->. rewrite Htable.
  exists (match select_row "NCDOT" (Itoa (ID incident)) (w_table w) with
          | Some old => do_update a old
          | None => excluded jurisdiction_default a
          end).
  split; [exact (select_upsert_same jurisdiction_default a (w_table w))|].
  now intros ->.
Qed.

(** C5. When the lookup fails in one of the ways the specification lists (a
    status other than 200 or a body that does not decode at either stage, no
    forecast URL in the first stage, no period in the second), the lookup
    returns an error and [saveToUnifiedDB] goes on without weather: it logs
    the warning, and executes its statement for the incident with the three
    weather parameters NULL and, in the details, the whole incident under
    [raw_incident] and no observation ([null]) under [weather]. The call
    returns what the server says of the statement, so the failure of the
    lookup fails nothing; when the server accepts, the row of the incident
    is in the table with its three weather columns NULL. *)
Theorem saveToUnifiedDB_weather_failure_not_fatal (incident : Incident) (w : World) :
  finite_coordinates incident = true ->
  weather_lookup_fails (w_http w) (Latitude incident) (Longitude incident) ->
  exists (e : error) (a : ExecArgs) (verdict : option error),
    snd (getWeatherForIncident (Latitude incident) (Longitude incident) w) = Err e
    /\ In (log_weather_warning (ID incident) e) (w_log (fst (saveToUnifiedDB incident w)))
    /\ w_exec (fst (saveToUnifiedDB incident w)) = w_exec w ++ [(a, verdict)]
    /\ snd (saveToUnifiedDB incident w) = result_of_verdict verdict
    /\ (arg_source a = "NCDOT"
        /\ arg_source_id a = Itoa (ID incident)
        /\ arg_event_type a = IncidentType incident
        /\ arg_address a = Location incident
        /\ arg_latitude a = Latitude incident
        /\ arg_longitude a = Longitude incident
        /\ arg_problem_detail a = Reason incident)
    /\ (NullInt32_Value (arg_weather_temp a) = None
        /\ NullString_Value (arg_weather_wind_speed a) = None
        /\ NullString_Value (arg_weather_forecast a) = None)
    /\ json_get "weather" (arg_details a) = Some JNull
    /\ (exists raw, json_get "raw_incident" (arg_details a) = Some raw
                    /\ Incident_of_json raw = Some incident)
    /\ (verdict = None ->
        exists row,
          select_row "NCDOT" (Itoa (ID incident))
            (w_table (fst (saveToUnifiedDB incident w))) = Some row
          /\ weather_temp row = None
          /\ weather_wind_speed row = None
          /\ weather_forecast row = None
          /\ json_get "weather" (details row) = Some JNull).
Proof.
  intros Hfinite Hfails.
  destruct (weather_lookup_fails_error _ _ w Hfails) as [e He].
  destruct (saveToUnifiedDB_run incident w) as [_ [Hlog [_ Hrun]]].
  destruct (marshal_Incident_finite incident Hfinite) as [raw Hraw].
  rewrite Hraw in Hrun. cbv zeta in Hrun.
  destruct Hrun as [verdict [Hexec [Hres Htable]]].
  rewrite He in *. simpl weather_of in *. simpl weather_json in *.
  match type of Hexec with _ = _ ++ [(?x, _)] => set (a := x) in * end.
  exists e, a, verdict.
  split; [reflexivity|].
  split; [rewrite Hlog; apply in_or_app; right; unfold warnings_of;
          apply in_or_app; right; now left|].
  split; [exact Hexec|]. split; [exact Hres|].
  split; [repeat split|]. split; [repeat split|]. split; [reflexivity|].
  split; [exists raw; split; [reflexivity | now apply Incident_of_json_marshal]|].
  intros ->. rewrite Htable.
  exists (match select_row "NCDOT" (Itoa (ID incident)) (w_table w) with
          | Some old => do_update a old
          | None => excluded jurisdiction_default a
          end).
  split; [exact (select_upsert_same jurisdiction_default a (w_table w))|].
  destruct (select_row "NCDOT" (Itoa (ID incident)) (w_table w)); repeat split.
Qed.

End OneIncident.

(** ** The loop of [main] *)

Lemma written_In (jd : option string) (calls : list (ExecArgs * option error))
  (t : list Row) (row : Row) :
  In row (fold_left (written jd) calls t) -> In row t \/ status row = "active".
Proof.
  revert t. induction calls as [|c calls IH]; simpl; intros t Hin; [now left|].
  destruct (IH _ Hin) as [H|H]; [|now right].
  unfold written in H. destruct (accepted c); [|now left].
  now apply upsert_In in H.
Qed.

Section Loop.

Context {E : Env}.

Lemma finite_coordinates_marshal (incident : Incident) :
  match marshal_Incident incident with
  | Ok _ => finite_coordinates incident = true
  | Err _ => finite_coordinates incident = false
  end.
Proof.
  destruct (finite_coordinates incident) eqn:Hf.
  - destruct (marshal_Incident_finite incident Hf) as [raw ->]. reflexivity.
  - destruct (marshal_Incident_not_finite incident Hf) as [e ->]. reflexivity.
Qed.

(** One turn of the loop: the statements it executes, the count, the table. *)
Lemma main_loop_body_run (incident : Incident) (w : World) (n : Z) :
  exists calls : list (ExecArgs * option error),
    w_exec (fst (main_loop_body incident (w, n))) = w_exec w ++ calls
    /\ map (fun c => arg_source_id (fst c)) calls =
       (if reaches_store incident then [Itoa (ID incident)] else [])
    /\ snd (main_loop_body incident (w, n)) =
       n + Z.of_nat (List.length (filter accepted calls))
    /\ w_table (fst (main_loop_body incident (w, n))) =
       fold_left (written jurisdiction_default) calls (w_table w).
Proof.
  unfold main_loop_body, reaches_store.
  destruct (relevant incident); simpl andb.
  - destruct (saveToUnifiedDB_run incident w) as [_ [_ [_ Hrun]]].
    pose proof (finite_coordinates_marshal incident) as Hfin.
    destruct (marshal_Incident incident) as [raw|merr]; rewrite Hfin.
    + cbv zeta in Hrun. destruct Hrun as [verdict [Hexec [Hres Htable]]].
      destruct (saveToUnifiedDB incident w) as [w' r]. simpl in *. subst r.
      eexists [(_, verdict)]. destruct verdict as [err|]; simpl;
        (split; [exact Hexec|]); (split; [reflexivity|]);
        (split; [lia|]); exact Htable.
    + destruct Hrun as [Hexec [Htable Hres]].
      destruct (saveToUnifiedDB incident w) as [w' r]. simpl in *. subst r.
      exists []. simpl. rewrite app_nil_r. repeat split; auto; lia.
  - exists []. simpl. rewrite app_nil_r. repeat split; lia.
Qed.

Lemma main_loop_cons (incident : Incident) (rest : list Incident) (st : World * Z) :
  main_loop (incident :: rest) st = main_loop rest (main_loop_body incident st).
Proof. reflexivity. Qed.

(** The whole loop. *)
Lemma main_loop_run (allIncidents : list Incident) (w : World) (n : Z) :
  exists calls : list (ExecArgs * option error),
    w_exec (fst (main_loop allIncidents (w, n))) = w_exec w ++ calls
    /\ map (fun c => arg_source_id (fst c)) calls =
       map (fun i => Itoa (ID i)) (filter reaches_store allIncidents)
    /\ snd (main_loop allIncidents (w, n)) =
       n + Z.of_nat (List.length (filter accepted calls))
    /\ w_table (fst (main_loop allIncidents (w, n))) =
       fold_left (written jurisdiction_default) calls (w_table w).
Proof.
  revert w n. induction allIncidents as [|incident rest IH]; intros w n.
  - exists []. simpl. rewrite app_nil_r. repeat split; lia.
  - rewrite main_loop_cons.
    destruct (main_loop_body_run incident w n) as [c1 [He1 [Hi1 [Hn1 Ht1]]]].
    destruct (main_loop_body incident (w, n)) as [w1 n1]. simpl in He1, Hn1, Ht1.
    destruct (IH w1 n1) as [c2 [He2 [Hi2 [Hn2 Ht2]]]].
    exists (c1 ++ c2).
    split; [rewrite He2, He1, app_assoc; reflexivity|].
    split; [rewrite map_app, Hi1, Hi2; simpl;
            destruct (reaches_store incident); reflexivity|].
    split; [rewrite Hn2, Hn1, filter_app, length_app; lia|].
    rewrite Ht2, Ht1, fold_left_app. reflexivity.
Qed.

(** The table after the run: the accepted statements, in order. *)
Lemma main_ingest_tables (allIncidents : list Incident) (w : World) :
  exists calls : list (ExecArgs * option error),
    w_table (fst (main_ingest allIncidents w)) =
    fold_left (written jurisdiction_default) calls (w_table w).
Proof.
  unfold main_ingest.
  set (w0 := fst (log_Printf (log_found (Z.of_nat (List.length allIncidents))) w)).
  destruct (main_loop_run allIncidents w0 0) as [calls [_ [_ [_ Ht]]]].
  destruct (main_loop allIncidents (w0, 0)) as [w' saved]. simpl in *.
  exists calls. exact Ht.
Qed.

(** C3. The loop executes one statement for every relevant incident of the
    batch, in the order of the batch, whatever the server said of the
    statements before: a rejected statement stops nothing. (An incident
    with a coordinate that JSON cannot hold fails before its statement; the
    feed, being JSON, delivers none.) The rejected statements leave the
    table as it is, the accepted ones are the writes, and the count that
    [main] reports is the number of accepted statements. *)
Theorem main_ingest_isolates_store_failures (allIncidents : list Incident) (w : World) :
  exists calls : list (ExecArgs * option error),
    w_exec (fst (main_ingest allIncidents w)) = w_exec w ++ calls
    /\ map (fun c => arg_source_id (fst c)) calls =
       map (fun i => Itoa (ID i)) (filter reaches_store allIncidents)
    /\ ((forall i, In i allIncidents -> finite_coordinates i = true) ->
        map (fun c => arg_source_id (fst c)) calls =
        map (fun i => Itoa (ID i)) (filter relevant allIncidents))
    /\ snd (main_ingest allIncidents w) = Z.of_nat (List.length (filter accepted calls))
    /\ w_table (fst (main_ingest allIncidents w)) =
       fold_left (written jurisdiction_default) calls (w_table w)
    /\ exists l, w_log (fst (main_ingest allIncidents w)) =
                 l ++ [log_run_complete (snd (main_ingest allIncidents w))].
Proof.
  unfold main_ingest.
  set (w0 := fst (log_Printf (log_found (Z.of_nat (List.length allIncidents))) w)).
  destruct (main_loop_run allIncidents w0 0) as [calls [He [Hi [Hn Ht]]]].
  destruct (main_loop allIncidents (w0, 0)) as [w' saved]. simpl in *.
  exists calls.
  split; [exact He|]. split; [exact Hi|].
  split; [|split; [exact Hn|split; [exact Ht|eexists; reflexivity]]].
  intros Hall. rewrite Hi. f_equal. apply filter_ext_in.
  intros i Hin. unfold reaches_store. rewrite (Hall i Hin). apply andb_true_r.
Qed.

(** C4. A turn of the loop processes the incident if and only if its type is
    "Vehicle Crash" or "Disabled Vehicle". For any other type the turn
    leaves the world and the count as they are: no request, no statement, no
    line in the log. For these two types the turn makes the weather lookup
    and, the details being encoded, executes the statement of the
    incident. *)
Theorem main_loop_body_relevance (incident : Incident) (w : World) (n : Z) :
  let allow_set := ["Vehicle Crash"; "Disabled Vehicle"]%string in
  let w' := fst (main_loop_body incident (w, n)) in
  (In (IncidentType incident) allow_set <-> w' <> w)
  /\ (~ In (IncidentType incident) allow_set -> main_loop_body incident (w, n) = (w, n))
  /\ (In (IncidentType incident) allow_set ->
      w_http w' =
        w_http (fst (getWeatherForIncident (Latitude incident) (Longitude incident) w))
      /\ (finite_coordinates incident = true ->
          exists a verdict,
            w_exec w' = w_exec w ++ [(a, verdict)]
            /\ arg_source_id a = Itoa (ID incident)
            /\ arg_event_type a = IncidentType incident)).
Proof.
  intros allow_set w'.
  assert (Hrel : relevant incident = true <-> In (IncidentType incident) allow_set).
  { unfold relevant, allow_set. rewrite orb_true_iff, !String.eqb_eq. simpl.
    split; [intros [->| ->]; auto | intros [<-|[<-|[]]]; auto]. }
  assert (Hskip : relevant incident = false -> main_loop_body incident (w, n) = (w, n)).
  { intros Hr. unfold main_loop_body. now rewrite Hr. }
  assert (Hdo : relevant incident = true ->
                w' <> w
                /\ w_http w' =
                   w_http (fst (getWeatherForIncident (Latitude incident)
                                  (Longitude incident) w))
                /\ (finite_coordinates incident = true ->
                    exists a verdict,
                      w_exec w' = w_exec w ++ [(a, verdict)]
                      /\ arg_source_id a = Itoa (ID incident)
                      /\ arg_event_type a = IncidentType incident)).
  { intros Hr. unfold w', main_loop_body. rewrite Hr.
    destruct (saveToUnifiedDB_run incident w) as [Hhttp [Hlog [_ Hrun]]].
    pose proof (finite_coordinates_marshal incident) as Hfin.
    destruct (marshal_Incident incident) as [raw|merr].
    - cbv zeta in Hrun. destruct Hrun as [verdict [Hexec [Hres Htable]]].
      destruct (saveToUnifiedDB incident w) as [w1 r]. simpl in *.
      assert (Hne : forall w2, w_exec w2 = w_exec w1 -> w2 <> w).
      { intros w2 H2 ->. rewrite Hexec in H2. now apply app_one_not_nil in H2. }
      destruct r; simpl; (split; [now apply Hne|]); (split; [exact Hhttp|]);
        intros _; eexists; exists verdict; (split; [exact Hexec|]); split; reflexivity.
    - destruct Hrun as [Hexec [Htable Hres]].
      destruct (saveToUnifiedDB incident w) as [w1 r]. simpl in *. subst r. simpl.
      split; [|split; [exact Hhttp | congruence]].
      intros Heq. apply (f_equal w_log) in Heq. simpl in Heq.
      rewrite Hlog, <- app_assoc in Heq.
      apply (f_equal (@List.length LogEntry)) in Heq.
      rewrite !length_app in Heq. simpl in Heq. lia. }
  split; [|split].
  - split.
    + intros Hin. now apply Hdo, Hrel.
    + intros Hne. apply Hrel. destruct (relevant incident) eqn:Hr; [reflexivity|].
      exfalso. apply Hne. unfold w'. now rewrite (Hskip eq_refl).
  - intros Hnot. apply Hskip. destruct (relevant incident) eqn:Hr; [|reflexivity].
    exfalso. now apply Hnot, Hrel.
  - intros Hin. now apply Hdo, Hrel.
Qed.

(** C7. Both branches of the statement give the row the status "active", the
    insertion of a new key and the update of an existing one. So after a
    call of [saveToUnifiedDB] every row of the table is a row that was there
    before the call, untouched, or has the status "active"; when the call
    succeeds the row of the incident is there with the status "active"; and
    the same holds of the table after the whole run. *)
Theorem saveToUnifiedDB_status_active (incident : Incident) (w : World) :
  (forall (a : ExecArgs) (old : Row),
      status (excluded jurisdiction_default a) = "active"
      /\ status (do_update a old) = "active")
  /\ (forall row,
        In row (w_table (fst (saveToUnifiedDB incident w))) ->
        In row (w_table w) \/ status row = "active")
  /\ (snd (saveToUnifiedDB incident w) = Ok tt ->
      exists row,
        select_row "NCDOT" (Itoa (ID incident))
          (w_table (fst (saveToUnifiedDB incident w))) = Some row
        /\ status row = "active")
  /\ (forall (allIncidents : list Incident) row,
        In row (w_table (fst (main_ingest allIncidents w))) ->
        In row (w_table w) \/ status row = "active").
Proof.
  split; [intros a old; split; reflexivity|].
  destruct (saveToUnifiedDB_run incident w) as [_ [_ [_ Hrun]]].
  destruct (marshal_Incident incident) as [raw|merr].
  - cbv zeta in Hrun. destruct Hrun as [verdict [Hexec [Hres Htable]]].
    match type of Hexec with _ = _ ++ [(?x, _)] => set (a := x) in * end.
    split; [|split].
    + intros row Hin. rewrite Htable in Hin.
      destruct verdict; [now left | now apply upsert_In in Hin].
    + intros Hok. rewrite Hres in Hok. destruct verdict; [discriminate|].
      rewrite Htable.
      exists (match select_row "NCDOT" (Itoa (ID incident)) (w_table w) with
              | Some old => do_update a old
              | None => excluded jurisdiction_default a
              end).
      split; [exact (select_upsert_same jurisdiction_default a (w_table w))|].
      destruct (select_row "NCDOT" (Itoa (ID incident)) (w_table w)); reflexivity.
    + intros allIncidents row Hin.
      destruct (main_ingest_tables allIncidents w) as [calls Ht].
      rewrite Ht in Hin. now apply written_In in Hin.
  - destruct Hrun as [Hexec [Htable Hres]].
    split; [|split].
    + intros row Hin. rewrite Htable in Hin. now left.
    + intros Hok. rewrite Hres in Hok. discriminate.
    + intros allIncidents row Hin.
      destruct (main_ingest_tables allIncidents w) as [calls Ht].
      rewrite Ht in Hin. now apply written_In in Hin.
Qed.

End Loop.

(** ** The program on the scripted world *)

Example Sprintf_4f_raleigh :
  Sprintf_4f 35.78%float = "35.7800" /\ Sprintf_4f (-78.64)%float = "-78.6400".
Proof. split; vm_compute; reflexivity. Qed.

Example Sprintf_4f_rounds :
  Sprintf_4f 35.123456%float = "35.1235" /\
  Sprintf_4f 0.00004%float = "0.0000" /\
  Sprintf_4f 0.5%float = "0.5000" /\
  Sprintf_4f 0.03125%float = "0.0312" /\
  Sprintf_4f 0.09375%float = "0.0938" /\
  Sprintf_4f (-0.00001)%float = "-0.0000".
Proof. repeat split; vm_compute; reflexivity. Qed.

(** The example of the specification: incident 555 in fair weather. *)
Example saveToUnifiedDB_crash555 :
  let run := @saveToUnifiedDB Fixture.fair Fixture.crash555 Fixture.noon in
  snd run = Ok tt
  /\ map URL (w_http (fst run)) =
     [ "https://api.weather.gov/points/35.7800,-78.6400";
       "https://api.weather.gov/gridpoints/RAH/75,57/forecast/hourly?units=us" ]%string
  /\ exists row,
       w_table (fst run) = [row]
       /\ source row = "NCDOT" /\ source_id row = "555" /\ status row = "active"
       /\ event_type row = "Vehicle Crash" /\ problem_detail row = "debris"
       /\ weather_temp row = Some 72 /\ weather_wind_speed row = Some "5 mph"%string
       /\ weather_forecast row = Some "Clear"%string
       /\ timestamp row = 1714557600000000000
       /\ json_get "weather" (details row) = Some (marshal_WeatherData Fixture.clear).
Proof.
  vm_compute. split; [reflexivity|]. split; [reflexivity|].
  eexists. repeat split; reflexivity.
Qed.

(** Incident 555 seen twice in fair weather: one row, the one of the first
    sighting. *)
Example saveToUnifiedDB_twice :
  let once := fst (@saveToUnifiedDB Fixture.fair Fixture.crash555 Fixture.noon) in
  let twice := fst (@saveToUnifiedDB Fixture.fair Fixture.crash555 once) in
  w_table twice = w_table once
  /\ count_rows "NCDOT" "555" (w_table twice) = 1%nat
  /\ List.length (w_exec twice) = 2%nat.
Proof. vm_compute. repeat split; reflexivity. Qed.

(** Incident 555 seen again, moved and retyped by the feed, with the metadata
    endpoint down: the row loses its weather and keeps its type, place and
    time. *)
Example saveToUnifiedDB_second_sighting :
  let moved :=
    Fixture.incident 555 "Disabled Vehicle" "2024-05-01T11:00:00Z" "vehicle on shoulder"
      35.79%float (-78.65)%float in
  let once := fst (@saveToUnifiedDB Fixture.fair Fixture.crash555 Fixture.noon) in
  let twice := fst (@saveToUnifiedDB Fixture.points_down moved once) in
  map (fun r => (event_type r, timestamp r, latitude r, status r)) (w_table twice) =
    [("Vehicle Crash"%string, 1714557600000000000, 35.78%float, "active"%string)]
  /\ map (fun r => (problem_detail r, weather_temp r, weather_forecast r)) (w_table twice) =
     [("vehicle on shoulder"%string, None, None)]
  /\ map (fun r => json_get "weather" (details r)) (w_table twice) = [Some JNull].
Proof. vm_compute. repeat split; reflexivity. Qed.

(** A batch of three relevant incidents and a road closure; the server rejects
    the second statement. The first and the third incident are written, the
    closure and the rejected one are not, and the count is 2. *)
Example main_ingest_rejects_second :
  let batch := [Fixture.crash555; Fixture.closure558; Fixture.disabled557;
                Fixture.crash_undated] in
  let run := @main_ingest Fixture.rejects_second batch Fixture.noon in
  snd run = 2
  /\ map (fun c => (arg_source_id (fst c), accepted c)) (w_exec (fst run)) =
     [("555", true); ("557", false); ("556", true)]%string
  /\ map source_id (w_table (fst run)) = ["555"; "556"]%string
  /\ map status (w_table (fst run)) = ["active"; "active"]%string
  /\ map timestamp (w_table (fst run)) = [1714557600000000000; 1714564800840000000].
Proof. vm_compute. repeat split; reflexivity. Qed.

(** A road closure on its own: nothing happens. *)
Example main_ingest_road_closure :
  @main_loop Fixture.fair [Fixture.closure558] (Fixture.noon, 0) = (Fixture.noon, 0).
Proof. reflexivity. Qed.

(** With the metadata endpoint down a lookup sends one request. *)
Example getWeatherForIncident_points_down :
  @getWeatherForIncident Fixture.points_down 35.78%float (-78.64)%float Fixture.noon =
  ({| w_clock := 1714564800150000000;
      w_http := [points_request 35.78%float (-78.64)%float];
      w_exec := []; w_table := []; w_log := [] |},
   Err (errors_New "NWS points API returned non-200 status: 503 Service Unavailable")).
Proof. vm_compute. reflexivity. Qed.

(** C8, as it is stated, fails: a lookup does not always send two requests.
    With the metadata endpoint down the lookup at Raleigh sends the request
    of the first stage and returns. *)
Lemma getWeatherForIncident_not_always_two_lookups :
  ~ (forall (E : Env) (lat lon : float) (w : World),
       exists r1 r2 : Request,
         w_http (fst (getWeatherForIncident lat lon w)) = w_http w ++ [r1; r2]).
Proof.
  intros H.
  destruct (H Fixture.points_down 35.78%float (-78.64)%float Fixture.noon) as [r1 [r2 Hr]].
  vm_compute in Hr. discriminate Hr.
Qed.

Lemma saveToUnifiedDB_marshal_error_before_write_witness :
  snd (@saveToUnifiedDB Fixture.fair Fixture.crash_nowhere Fixture.noon) =
    Err (Errorf_w "could not marshal unified details to JSON"
           (errors_New "json: unsupported value: NaN"))
  /\ w_exec (fst (@saveToUnifiedDB Fixture.fair Fixture.crash_nowhere Fixture.noon)) =
     w_exec Fixture.noon
  /\ w_table (fst (@saveToUnifiedDB Fixture.fair Fixture.crash_nowhere Fixture.noon)) =
     w_table Fixture.noon.
Proof.
  apply (@saveToUnifiedDB_marshal_error_before_write
           Fixture.fair Fixture.crash_nowhere Fixture.noon
           (errors_New "json: unsupported value: NaN")).
  vm_compute. reflexivity.
Defined.

Lemma saveToUnifiedDB_details_blob_witness :
  exists raw weather : json,
    arg_details Fixture.args555_no_weather =
      JObject [("raw_incident", raw); ("weather", weather)]
    /\ json_get "raw_incident" (arg_details Fixture.args555_no_weather) = Some raw
    /\ marshal_Incident Fixture.crash555 = Ok raw
    /\ Incident_of_json raw = Some Fixture.crash555
    /\ json_get "weather" (arg_details Fixture.args555_no_weather) = Some weather
    /\ (forall err,
          snd (@getWeatherForIncident Fixture.points_down
                 (Latitude Fixture.crash555) (Longitude Fixture.crash555) Fixture.noon)
          = Err err -> weather = JNull)
    /\ (forall d,
          snd (@getWeatherForIncident Fixture.points_down
                 (Latitude Fixture.crash555) (Longitude Fixture.crash555) Fixture.noon)
          = Ok d -> weather = marshal_WeatherData d).
Proof.
  apply (@saveToUnifiedDB_details_blob Fixture.points_down Fixture.crash555 Fixture.noon
           Fixture.args555_no_weather None).
  vm_compute. reflexivity.
Defined.

Lemma saveToUnifiedDB_timestamp_fallback_witness :
  exists (a : ExecArgs) (verdict : option error),
    w_exec (fst (@saveToUnifiedDB Fixture.fair Fixture.crash_undated Fixture.noon)) =
      w_exec Fixture.noon ++ [(a, verdict)]
    /\ arg_timestamp a = w_clock Fixture.noon
    /\ w_clock Fixture.noon <=
       w_clock (fst (@saveToUnifiedDB Fixture.fair Fixture.crash_undated Fixture.noon))
    /\ In (log_timestamp_warning (StartTime Fixture.crash_undated) Fixture.parse_error)
          (w_log (fst (@saveToUnifiedDB Fixture.fair Fixture.crash_undated Fixture.noon)))
    /\ snd (@saveToUnifiedDB Fixture.fair Fixture.crash_undated Fixture.noon) =
       result_of_verdict verdict
    /\ (verdict = None ->
        exists row,
          select_row "NCDOT" (Itoa (ID Fixture.crash_undated))
            (w_table (fst (@saveToUnifiedDB Fixture.fair Fixture.crash_undated
                             Fixture.noon))) = Some row
          /\ (select_row "NCDOT" (Itoa (ID Fixture.crash_undated)) (w_table Fixture.noon)
              = None ->
              timestamp row = w_clock Fixture.noon)).
Proof.
  apply (@saveToUnifiedDB_timestamp_fallback Fixture.fair Fixture.crash_undated
           Fixture.noon Fixture.parse_error).
  - vm_compute. reflexivity.
  - vm_compute. reflexivity.
Defined.

(** The fallback on the scripted world: the row has the time of noon. *)
Example saveToUnifiedDB_crash_undated :
  let run := @saveToUnifiedDB Fixture.fair Fixture.crash_undated Fixture.noon in
  snd run = Ok tt
  /\ w_exec (fst run) = [(Fixture.args556_at_noon, None)]
  /\ map timestamp (w_table (fst run)) = [w_clock Fixture.noon]
  /\ w_log (fst run) = [log_timestamp_warning "not-a-date" Fixture.parse_error].
Proof. vm_compute. repeat split; reflexivity. Qed.

Lemma saveToUnifiedDB_weather_failure_not_fatal_witness :
  exists (e : error) (a : ExecArgs) (verdict : option error),
    snd (@getWeatherForIncident Fixture.points_down (Latitude Fixture.crash555)
           (Longitude Fixture.crash555) Fixture.noon) = Err e
    /\ In (log_weather_warning (ID Fixture.crash555) e)
          (w_log (fst (@saveToUnifiedDB Fixture.points_down Fixture.crash555 Fixture.noon)))
    /\ w_exec (fst (@saveToUnifiedDB Fixture.points_down Fixture.crash555 Fixture.noon)) =
       w_exec Fixture.noon ++ [(a, verdict)]
    /\ snd (@saveToUnifiedDB Fixture.points_down Fixture.crash555 Fixture.noon) =
       result_of_verdict verdict
    /\ (arg_source a = "NCDOT"
        /\ arg_source_id a = Itoa (ID Fixture.crash555)
        /\ arg_event_type a = IncidentType Fixture.crash555
        /\ arg_address a = Location Fixture.crash555
        /\ arg_latitude a = Latitude Fixture.crash555
        /\ arg_longitude a = Longitude Fixture.crash555
        /\ arg_problem_detail a = Reason Fixture.crash555)
    /\ (NullInt32_Value (arg_weather_temp a) = None
        /\ NullString_Value (arg_weather_wind_speed a) = None
        /\ NullString_Value (arg_weather_forecast a) = None)
    /\ json_get "weather" (arg_details a) = Some JNull
    /\ (exists raw, json_get "raw_incident" (arg_details a) = Some raw
                    /\ Incident_of_json raw = Some Fixture.crash555)
    /\ (verdict = None ->
        exists row,
          select_row "NCDOT" (Itoa (ID Fixture.crash555))
            (w_table (fst (@saveToUnifiedDB Fixture.points_down Fixture.crash555
                             Fixture.noon))) = Some row
          /\ weather_temp row = None
          /\ weather_wind_speed row = None
          /\ weather_forecast row = None
          /\ json_get "weather" (details row) = Some JNull).
Proof.
  apply (@saveToUnifiedDB_weather_failure_not_fatal Fixture.points_down
           Fixture.crash555 Fixture.noon).
  - vm_compute. reflexivity.
  - apply (@points_status_not_200 Fixture.points_down _ _ _
             {| StatusCode := 503; Status := "503 Service Unavailable";
                Body := Ok "points:raleigh" |}).
    + split; [reflexivity|]. exists 150000000%N. vm_compute. reflexivity.
    + simpl. lia.
Defined.

(** The same on the scripted world: the statement is the one for incident 555
    without weather, and the server accepts it. *)
Example saveToUnifiedDB_points_down :
  let run := @saveToUnifiedDB Fixture.points_down Fixture.crash555 Fixture.noon in
  snd run = Ok tt
  /\ w_exec (fst run) = [(Fixture.args555_no_weather, None)]
  /\ map weather_temp (w_table (fst run)) = [None]
  /\ map (fun r => json_get "weather" (details r)) (w_table (fst run)) = [Some JNull].
Proof. vm_compute. repeat split; reflexivity. Qed.

(** * Further properties *)

(** ** The key of an incident *)

Lemma Atoi_Itoa_back (z : Z) : Atoi (Itoa z) = Some z.
Proof.
  unfold Atoi, Itoa. rewrite NilZero.isi.
  - simpl. now rewrite DecimalZ.of_to.
  - destruct z; simpl; try discriminate.
    intros Hnil. injection Hnil as Hnil.
    now apply DecimalPos.Unsigned.to_uint_nonnil in Hnil.
  - destruct z; simpl; try discriminate.
    intros Hnil. injection Hnil as Hnil.
    now apply DecimalPos.Unsigned.to_uint_nonnil in Hnil.
Qed.

Lemma Itoa_inj (i j : Z) : Itoa i = Itoa j -> i = j.
Proof.
  intros Heq. pose proof (Atoi_Itoa_back i) as Hi.
  rewrite Heq, Atoi_Itoa_back in Hi. now injection Hi.
Qed.

(** X1. The key is a faithful writing of the identifier: it reads back as the
    identifier, so two incidents have the same key exactly when they have the
    same identifier. *)
Theorem key_of_faithful (a b : Incident) :
  Atoi (snd (key_of a)) = Some (ID a)
  /\ (key_of a = key_of b <-> ID a = ID b).
Proof.
  split; [apply Atoi_Itoa_back|].
  unfold key_of. split.
  - intros Heq. injection Heq as Heq. now apply Itoa_inj.
  - now intros ->.
Qed.

(** ** The statement, composed *)

Section UpsertAlgebra.

Variable jd : option string.

(** With no row in conflict the proposed row goes to the end of the table. *)
Lemma upsert_absent (a : ExecArgs) (t : list Row) :
  select_row (arg_source a) (arg_source_id a) t = None ->
  upsert jd a t = t ++ [excluded jd a].
Proof.
  unfold select_row.
  induction t as [|r rest IH]; simpl; [reflexivity|].
  rewrite conflict_has_key.
  destruct (has_key (arg_source a) (arg_source_id a) r); [discriminate|].
  intros Hnone. now rewrite IH.
Qed.

(** With a row in conflict that row is updated where it stands. *)
Lemma upsert_present (a : ExecArgs) (t : list Row) (old : Row) :
  select_row (arg_source a) (arg_source_id a) t = Some old ->
  exists before after,
    t = before ++ old :: after
    /\ upsert jd a t = before ++ do_update a old :: after.
Proof.
  unfold select_row.
  induction t as [|r rest IH]; simpl; [discriminate|].
  rewrite conflict_has_key.
  destruct (has_key (arg_source a) (arg_source_id a) r).
  - intros Hold. injection Hold as ->. exists [], rest. split; reflexivity.
  - intros Hold. destruct (IH Hold) as [before [after [-> ->]]].
    exists (r :: before), after. split; reflexivity.
Qed.

(** The statement removes no key. *)
Lemma upsert_has_row (a : ExecArgs) (t : list Row) (s i : string) :
  has_row s i t = true -> has_row s i (upsert jd a t) = true.
Proof.
  unfold has_row. intros Hrow.
  destruct (String.eqb s (arg_source a) && String.eqb i (arg_source_id a)) eqn:Hk.
  - apply andb_true_iff in Hk. destruct Hk as [Hs Hi].
    apply String.eqb_eq in Hs. apply String.eqb_eq in Hi. subst.
    now rewrite select_upsert_same.
  - rewrite select_upsert_other; [exact Hrow|].
    intros Heq. injection Heq as -> ->. now rewrite !String.eqb_refl in Hk.
Qed.

(** X2. Statements for different keys commute: whatever the order of
    the two, every key finds the same row afterwards, and the table has the
    same number of rows. *)
Theorem upsert_commute (a b : ExecArgs) (t : list Row) :
  (arg_source a, arg_source_id a) <> (arg_source b, arg_source_id b) ->
  (forall s i,
      select_row s i (upsert jd a (upsert jd b t)) =
      select_row s i (upsert jd b (upsert jd a t)))
  /\ List.length (upsert jd a (upsert jd b t)) = List.length (upsert jd b (upsert jd a t)).
Proof.
  intros Hne.
  assert (Hne' : (arg_source b, arg_source_id b) <> (arg_source a, arg_source_id a))
    by congruence.
  assert (Hsel : forall s i,
             select_row s i (upsert jd a (upsert jd b t)) =
             select_row s i (upsert jd b (upsert jd a t))).
  { intros s i.
    destruct (String.eqb s (arg_source a) && String.eqb i (arg_source_id a)) eqn:Ha.
    - apply andb_true_iff in Ha. destruct Ha as [Hs Hi].
      apply String.eqb_eq in Hs. apply String.eqb_eq in Hi. subst.
      rewrite select_upsert_same.
      rewrite (select_upsert_other jd b _ _ _ Hne).
      rewrite (select_upsert_other jd b _ _ _ Hne).
      now rewrite select_upsert_same.
    - assert (Hnea : (s, i) <> (arg_source a, arg_source_id a)).
      { intros Heq. injection Heq as -> ->. now rewrite !String.eqb_refl in Ha. }
      rewrite (select_upsert_other jd a _ _ _ Hnea).
      destruct (String.eqb s (arg_source b) && String.eqb i (arg_source_id b)) eqn:Hb.
      + apply andb_true_iff in Hb. destruct Hb as [Hs Hi].
        apply String.eqb_eq in Hs. apply String.eqb_eq in Hi. subst.
        rewrite !select_upsert_same.
        now rewrite (select_upsert_other jd a _ _ _ Hne').
      + assert (Hneb : (s, i) <> (arg_source b, arg_source_id b)).
        { intros Heq. injection Heq as -> ->. now rewrite !String.eqb_refl in Hb. }
        rewrite !(select_upsert_other jd b _ _ _ Hneb).
        now rewrite (select_upsert_other jd a _ _ _ Hnea). }
  split; [exact Hsel|].
  rewrite !upsert_length.
  rewrite (select_upsert_other jd b _ _ _ Hne).
  rewrite (select_upsert_other jd a _ _ _ Hne').
  destruct (select_row (arg_source a) (arg_source_id a) t),
           (select_row (arg_source b) (arg_source_id b) t); reflexivity.
Qed.

(** X3. Two statements for the same key, one after the other. When the
    table already had the key, the first of the two leaves no trace: the
    table is the one the second statement alone gives. When the key was new,
    the row keeps the type, place and time of the first statement and has the
    details, reason and weather of the second. *)
Theorem upsert_latest_wins (a b : ExecArgs) (t : list Row) :
  (arg_source a, arg_source_id a) = (arg_source b, arg_source_id b) ->
  match select_row (arg_source a) (arg_source_id a) t with
  | Some _ => upsert jd b (upsert jd a t) = upsert jd b t
  | None => upsert jd b (upsert jd a t) = t ++ [do_update b (excluded jd a)]
  end.
Proof.
  intros Hkey. injection Hkey as Hs Hi.
  assert (Hc : forall r, conflict b r = conflict a r).
  { intros r. unfold conflict. now rewrite Hs, Hi. }
  destruct (select_row (arg_source a) (arg_source_id a) t) as [old|] eqn:Hsel.
  - unfold select_row in Hsel.
    induction t as [|r rest IH]; simpl in *; [discriminate|].
    rewrite <- conflict_has_key in Hsel.
    destruct (conflict a r) eqn:Har; simpl.
    + change (conflict b (do_update a r)) with (conflict b r).
      now rewrite !Hc, Har.
    + rewrite !Hc, Har. now rewrite (IH Hsel).
  - rewrite (upsert_absent a t Hsel).
    unfold select_row in Hsel.
    induction t as [|r rest IH]; simpl.
    + rewrite Hc, conflict_has_key, has_key_excluded. reflexivity.
    + simpl in Hsel. rewrite Hc, conflict_has_key.
      destruct (has_key (arg_source a) (arg_source_id a) r); [discriminate|].
      now rewrite (IH Hsel).
Qed.

End UpsertAlgebra.

(** ** One incident, further *)

Section OneIncidentMore.

Context {E : Env}.

(** X4. The conversion of the temperature. The column holds the temperature of
    the observation reduced to 32 bits: always within the range of an
    [int32] and congruent to the temperature modulo 2^32, hence the
    temperature itself when it fits, and a wrapped value otherwise (the
    statement is not refused). *)
Theorem weatherTemp_int32 (d : WeatherData) :
  NullInt32_Value (weatherTemp_of (Some d)) = Some (int32 (Temperature d))
  /\ - 2 ^ 31 <= int32 (Temperature d) < 2 ^ 31
  /\ (int32 (Temperature d) - Temperature d) mod 2 ^ 32 = 0
  /\ (- 2 ^ 31 <= Temperature d < 2 ^ 31 -> int32 (Temperature d) = Temperature d).
Proof.
  split; [reflexivity|]. unfold int32.
  pose proof (Z.mod_pos_bound (Temperature d + 2 ^ 31) (2 ^ 32) ltac:(lia)) as Hb.
  split; [lia|]. split.
  - replace ((Temperature d + 2 ^ 31) mod 2 ^ 32 - 2 ^ 31 - Temperature d)
      with ((Temperature d + 2 ^ 31) mod 2 ^ 32 - (Temperature d + 2 ^ 31)) by lia.
    rewrite Zminus_mod, Z.mod_mod by lia. rewrite Z.sub_diag. reflexivity.
  - intros Hr. rewrite Z.mod_small by lia. lia.
Qed.

(** X5. The untroubled call. When the start time parses and the lookup gives an
    observation, [saveToUnifiedDB] logs nothing and executes one statement:
    the key is "NCDOT" and the identifier in decimal, the type, place and
    reason are those of the incident, the timestamp is the parsed time
    whatever the clock says, the three weather parameters are those of the
    observation, and the details hold the incident and the observation. The
    call returns what the server says. *)
Theorem saveToUnifiedDB_untroubled
  (incident : Incident) (w : World) (t : Instant) (d : WeatherData) :
  time_Parse_RFC3339 (StartTime incident) = Ok t ->
  snd (getWeatherForIncident (Latitude incident) (Longitude incident) w) = Ok d ->
  finite_coordinates incident = true ->
  exists (a : ExecArgs) (raw : json) (verdict : option error),
    w_exec (fst (saveToUnifiedDB incident w)) = w_exec w ++ [(a, verdict)]
    /\ snd (saveToUnifiedDB incident w) = result_of_verdict verdict
    /\ w_log (fst (saveToUnifiedDB incident w)) = w_log w
    /\ (arg_source a = "NCDOT"
        /\ arg_source_id a = Itoa (ID incident)
        /\ arg_event_type a = IncidentType incident
        /\ arg_address a = Location incident
        /\ arg_latitude a = Latitude incident
        /\ arg_longitude a = Longitude incident
        /\ arg_problem_detail a = Reason incident)
    /\ arg_timestamp a = t
    /\ (NullInt32_Value (arg_weather_temp a) = Some (int32 (Temperature d))
        /\ NullString_Value (arg_weather_wind_speed a) = Some (WindSpeed d)
        /\ NullString_Value (arg_weather_forecast a) = Some (ShortForecast d))
    /\ marshal_Incident incident = Ok raw
    /\ arg_details a =
       JObject [("raw_incident", raw);
                ("weather", JObject [("temperature", JInt (Temperature d));
                                     ("windSpeed", JString (WindSpeed d));
                                     ("shortForecast", JString (ShortForecast d));
                                     ("icon", JString (Icon d))])].
Proof.
  intros Hparse Hlookup Hfinite.
  destruct (saveToUnifiedDB_run incident w) as [_ [Hlog [_ Hrun]]].
  destruct (marshal_Incident_finite incident Hfinite) as [raw Hraw].
  rewrite Hraw in Hrun. cbv zeta in Hrun.
  destruct Hrun as [verdict [Hexec [Hres Htable]]].
  unfold timestamp_of in Hexec. unfold warnings_of in Hlog.
  rewrite Hparse, Hlookup in *. simpl in Hlog. rewrite app_nil_r in Hlog.
  simpl weather_of in *. simpl weather_json in *.
  match type of Hexec with _ = _ ++ [(?x, _)] => exists x end.
  exists raw, verdict.
  split; [exact Hexec|]. split; [exact Hres|]. split; [exact Hlog|].
  split; [repeat split|]. split; [reflexivity|]. split; [repeat split|].
  split; [exact Hraw | reflexivity].
Qed.

(** X6. The errors of a call. For an incident with finite coordinates the only
    error [saveToUnifiedDB] returns is the one of the server, as the server
    raised it, not wrapped; the table is then as it was. The loop logs it
    with the identifier of the incident and does not count the incident. *)
Theorem saveToUnifiedDB_error_from_server
  (incident : Incident) (w : World) (err : error) :
  finite_coordinates incident = true ->
  (snd (saveToUnifiedDB incident w) = Err err <->
   exists a, w_exec (fst (saveToUnifiedDB incident w)) = w_exec w ++ [(a, Some err)])
  /\ (snd (saveToUnifiedDB incident w) = Err err ->
      w_table (fst (saveToUnifiedDB incident w)) = w_table w
      /\ forall n,
           relevant incident = true ->
           main_loop_body incident (w, n) =
           (log_line (log_save_error (ID incident) err) (fst (saveToUnifiedDB incident w)),
            n)).
Proof.
  intros Hfinite.
  destruct (saveToUnifiedDB_run incident w) as [_ [_ [_ Hrun]]].
  destruct (marshal_Incident_finite incident Hfinite) as [raw Hraw].
  rewrite Hraw in Hrun. cbv zeta in Hrun.
  destruct Hrun as [verdict [Hexec [Hres Htable]]].
  split.
  - split.
    + intros Herr. rewrite Hres in Herr.
      destruct verdict as [e|]; [|discriminate]. injection Herr as ->.
      eexists. exact Hexec.
    + intros [a Ha]. rewrite Hexec in Ha. apply app_one_inv in Ha.
      injection Ha as _ ->. exact Hres.
  - intros Herr. rewrite Hres in Herr.
    destruct verdict as [e|]; [|discriminate]. injection Herr as ->.
    split; [exact Htable|].
    intros n Hrel. unfold main_loop_body. rewrite Hrel.
    destruct (saveToUnifiedDB incident w) as [w' r]. simpl in *. now rewrite Hres.
Qed.

(** X7. What a call leaves alone. The rows of every other key are as they were:
    those of other sources, and those of the incidents with another
    identifier. No key is removed, and the table grows by one row at most. *)
Theorem saveToUnifiedDB_frame (incident : Incident) (w : World) :
  let t := w_table w in
  let t' := w_table (fst (saveToUnifiedDB incident w)) in
  (forall s i, (s, i) <> key_of incident -> select_row s i t' = select_row s i t)
  /\ (forall other : Incident,
        ID other <> ID incident ->
        select_row "NCDOT" (Itoa (ID other)) t' = select_row "NCDOT" (Itoa (ID other)) t)
  /\ (forall s i, has_row s i t = true -> has_row s i t' = true)
  /\ (List.length t <= List.length t' <= S (List.length t))%nat.
Proof.
  intros t t'.
  assert (Hother : forall s i, (s, i) <> key_of incident ->
                               select_row s i t' = select_row s i t).
  { intros s i Hne. unfold t, t'.
    destruct (saveToUnifiedDB_run incident w) as [_ [_ [_ Hrun]]].
    destruct (marshal_Incident incident) as [raw|merr].
    - cbv zeta in Hrun. destruct Hrun as [verdict [_ [_ Htable]]]. rewrite Htable.
      destruct verdict; [reflexivity|]. now apply select_upsert_other.
    - destruct Hrun as [_ [Htable _]]. now rewrite Htable. }
  split; [exact Hother|]. split.
  - intros other Hid. apply Hother. unfold key_of. intros Heq.
    injection Heq as Heq. now apply Itoa_inj in Heq.
  - unfold t, t'.
    destruct (saveToUnifiedDB_run incident w) as [_ [_ [_ Hrun]]].
    destruct (marshal_Incident incident) as [raw|merr].
    + cbv zeta in Hrun. destruct Hrun as [verdict [_ [_ Htable]]]. rewrite Htable.
      destruct verdict.
      * split; [auto | lia].
      * split; [intros s i; apply upsert_has_row|].
        rewrite upsert_length.
        destruct (select_row _ _ (w_table w)); lia.
    + destruct Hrun as [_ [Htable _]]. rewrite Htable. split; [auto | lia].
Qed.

(** X8. The first sighting. When the table has no row for the incident and the
    call succeeds, the table is the one before with one row more, at the end:
    the row of the incident, with the status "active", the type, place,
    reason and coordinates of the incident, the timestamp of the call and
    the default in the column the statement does not name. *)
Theorem saveToUnifiedDB_first_sighting (incident : Incident) (w : World) :
  has_row "NCDOT" (Itoa (ID incident)) (w_table w) = false ->
  snd (saveToUnifiedDB incident w) = Ok tt ->
  exists row,
    w_table (fst (saveToUnifiedDB incident w)) = w_table w ++ [row]
    /\ (source row, source_id row) = key_of incident
    /\ status row = "active"
    /\ event_type row = IncidentType incident
    /\ address row = Location incident
    /\ latitude row = Latitude incident
    /\ longitude row = Longitude incident
    /\ problem_detail row = Reason incident
    /\ timestamp row = timestamp_of incident w
    /\ (exists raw, json_get "raw_incident" (details row) = Some raw
                    /\ Incident_of_json raw = Some incident)
    /\ jurisdiction row = jurisdiction_default.
Proof.
  unfold has_row. intros Hnew Hok.
  destruct (select_row "NCDOT" (Itoa (ID incident)) (w_table w)) eqn:Hsel; [discriminate|].
  destruct (saveToUnifiedDB_run incident w) as [_ [_ [_ Hrun]]].
  destruct (marshal_Incident incident) as [raw|merr] eqn:Hraw.
  - cbv zeta in Hrun. destruct Hrun as [verdict [_ [Hres Htable]]].
    rewrite Hres in Hok. destruct verdict; [discriminate|].
    rewrite Htable. rewrite upsert_absent by exact Hsel.
    eexists. split; [reflexivity|].
    do 8 (split; [reflexivity|]).
    split; [|reflexivity].
    exists raw. split; [reflexivity | now apply Incident_of_json_marshal].
  - destruct Hrun as [_ [_ Hres]]. rewrite Hres in Hok. discriminate.
Qed.

End OneIncidentMore.

(** ** The whole run, further *)

(** The statements of a run on a table, one after the other. *)
Lemma written_select_other (jd : option string) (calls : list (ExecArgs * option error))
  (t : list Row) (s i : string) :
  Forall (fun c => (arg_source (fst c), arg_source_id (fst c)) <> (s, i)) calls ->
  select_row s i (fold_left (written jd) calls t) = select_row s i t.
Proof.
  revert t. induction calls as [|c calls IH]; intros t Hall; [reflexivity|].
  inversion Hall as [|c' calls' Hc Hrest]; subst. simpl.
  rewrite (IH _ Hrest). unfold written.
  destruct (accepted c); [|reflexivity].
  apply select_upsert_other. congruence.
Qed.

Lemma written_has_row (jd : option string) (calls : list (ExecArgs * option error))
  (t : list Row) (s i : string) :
  has_row s i t = true -> has_row s i (fold_left (written jd) calls t) = true.
Proof.
  revert t. induction calls as [|c calls IH]; intros t Hrow; [exact Hrow|].
  simpl. apply IH. unfold written.
  destruct (accepted c); [now apply upsert_has_row | exact Hrow].
Qed.

Lemma written_length (jd : option string) (calls : list (ExecArgs * option error))
  (t : list Row) :
  (List.length t <= List.length (fold_left (written jd) calls t)
   <= List.length t + List.length calls)%nat.
Proof.
  revert t. induction calls as [|c calls IH]; intros t; simpl; [lia|].
  specialize (IH (written jd t c)).
  assert (List.length t <= List.length (written jd t c) <= S (List.length t))%nat.
  { unfold written. destruct (accepted c); [|lia].
    rewrite upsert_length. destruct (select_row _ _ t); lia. }
  lia.
Qed.

Lemma written_unique_keys (jd : option string) (calls : list (ExecArgs * option error))
  (t : list Row) :
  unique_keys t -> unique_keys (fold_left (written jd) calls t).
Proof.
  revert t. induction calls as [|c calls IH]; intros t Hu; [exact Hu|].
  simpl. apply IH. unfold written.
  destruct (accepted c); [now apply unique_keys_upsert | exact Hu].
Qed.

Section Run.

Context {E : Env}.

Local Arguments String.append : simpl never.

(** The requests of a lookup are two at most, and each one is a GET that
    names the program. *)
Lemma getWeatherForIncident_requests (lat lon : float) (w : World) :
  exists reqs : list Request,
    w_http (fst (getWeatherForIncident lat lon w)) = w_http w ++ reqs
    /\ (List.length reqs <= 2)%nat
    /\ Forall identified reqs.
Proof.
  destruct (getWeatherForIncident_stages lat lon w) as [reqs [Hsent Hcases]].
  exists reqs. split; [exact Hsent|].
  assert (Hp : identified (points_request lat lon)) by (split; reflexivity).
  assert (Hh : forall u, identified (hourly_request u)) by (intros u; split; reflexivity).
  destruct Hcases as [[u [f [rest [_ [-> _]]]]] | [e [_ [[-> _] | [[-> _] | [u [_ ->]]]]]]];
    (split; [simpl; lia|]); repeat constructor; auto.
Qed.

(** One turn of the loop: the requests it sends and the lines it logs. *)
Lemma main_loop_body_traffic (incident : Incident) (w : World) (n : Z) :
  exists (reqs : list Request) (lines : list LogEntry),
    w_http (fst (main_loop_body incident (w, n))) = w_http w ++ reqs
    /\ w_log (fst (main_loop_body incident (w, n))) = w_log w ++ lines
    /\ (List.length reqs <= if relevant incident then 2 else 0)%nat
    /\ Forall identified reqs
    /\ snd (main_loop_body incident (w, n))
       + Z.of_nat (List.length (filter is_save_error lines))
       = n + (if relevant incident then 1 else 0)
    /\ n <= snd (main_loop_body incident (w, n)).
Proof.
  unfold main_loop_body.
  destruct (relevant incident).
  - destruct (saveToUnifiedDB_run incident w) as [Hhttp [Hlog [_ _]]].
    destruct (getWeatherForIncident_requests (Latitude incident) (Longitude incident) w)
      as [reqs [Hsent [Hlen Hid]]].
    assert (Hwarn : forall r, filter is_save_error (warnings_of incident r) = []).
    { intros r. unfold warnings_of.
      destruct (time_Parse_RFC3339 (StartTime incident)), r; reflexivity. }
    destruct (saveToUnifiedDB incident w) as [w' [u|err]]; simpl in *.
    + exists reqs. eexists. split; [now rewrite Hhttp|]. split; [exact Hlog|].
      split; [exact Hlen|]. split; [exact Hid|]. rewrite Hwarn. simpl. lia.
    + exists reqs. eexists. split; [now rewrite Hhttp|].
      split; [rewrite Hlog, <- app_assoc; reflexivity|].
      split; [exact Hlen|]. split; [exact Hid|].
      rewrite filter_app, Hwarn. simpl. lia.
  - exists [], []. simpl. rewrite !app_nil_r. repeat split; auto; lia.
Qed.

(** The whole loop. *)
Lemma main_loop_traffic (allIncidents : list Incident) (w : World) (n : Z) :
  exists (reqs : list Request) (lines : list LogEntry),
    w_http (fst (main_loop allIncidents (w, n))) = w_http w ++ reqs
    /\ w_log (fst (main_loop allIncidents (w, n))) = w_log w ++ lines
    /\ (List.length reqs <= 2 * List.length (filter relevant allIncidents))%nat
    /\ Forall identified reqs
    /\ snd (main_loop allIncidents (w, n))
       + Z.of_nat (List.length (filter is_save_error lines))
       = n + Z.of_nat (List.length (filter relevant allIncidents))
    /\ n <= snd (main_loop allIncidents (w, n)).
Proof.
  revert w n. induction allIncidents as [|incident rest IH]; intros w n.
  - exists [], []. simpl. rewrite !app_nil_r. repeat split; auto; lia.
  - rewrite main_loop_cons.
    destruct (main_loop_body_traffic incident w n)
      as [r1 [l1 [Hh1 [Hl1 [Hn1 [Hi1 [Hc1 Hm1]]]]]]].
    destruct (main_loop_body incident (w, n)) as [w1 n1]. simpl in Hh1, Hl1, Hc1, Hm1.
    destruct (IH w1 n1) as [r2 [l2 [Hh2 [Hl2 [Hn2 [Hi2 [Hc2 Hm2]]]]]]].
    exists (r1 ++ r2), (l1 ++ l2).
    split; [rewrite Hh2, Hh1, app_assoc; reflexivity|].
    split; [rewrite Hl2, Hl1, app_assoc; reflexivity|].
    split; [rewrite length_app; simpl; destruct (relevant incident); simpl in *; lia|].
    split; [apply Forall_app; auto|].
    split; [|lia].
    rewrite filter_app, length_app. simpl.
    destruct (relevant incident); simpl in *; lia.
Qed.

(** One turn of the loop: the keys of the statements it executes. *)
Lemma main_loop_body_keys (incident : Incident) (w : World) (n : Z) :
  exists calls : list (ExecArgs * option error),
    w_table (fst (main_loop_body incident (w, n))) =
      fold_left (written jurisdiction_default) calls (w_table w)
    /\ (List.length calls <= if relevant incident then 1 else 0)%nat
    /\ Forall (fun c => (arg_source (fst c), arg_source_id (fst c)) = key_of incident)
         calls.
Proof.
  unfold main_loop_body.
  destruct (relevant incident).
  - destruct (saveToUnifiedDB_run incident w) as [_ [_ [_ Hrun]]].
    destruct (marshal_Incident incident) as [raw|merr].
    + cbv zeta in Hrun. destruct Hrun as [verdict [_ [Hres Htable]]].
      destruct (saveToUnifiedDB incident w) as [w' r]. simpl in *. subst r.
      eexists [(_, verdict)].
      split; [destruct verdict; simpl; exact Htable|].
      split; [simpl; lia|]. repeat constructor.
    + destruct Hrun as [_ [Htable Hres]].
      destruct (saveToUnifiedDB incident w) as [w' r]. simpl in *. subst r.
      exists []. simpl. split; [exact Htable|]. split; [lia | constructor].
  - exists []. simpl. split; [reflexivity|]. split; [lia | constructor].
Qed.

Lemma main_loop_keys (allIncidents : list Incident) (w : World) (n : Z) :
  exists calls : list (ExecArgs * option error),
    w_table (fst (main_loop allIncidents (w, n))) =
      fold_left (written jurisdiction_default) calls (w_table w)
    /\ (List.length calls <= List.length (filter relevant allIncidents))%nat
    /\ Forall (fun c => In (arg_source (fst c), arg_source_id (fst c))
                          (map key_of (filter relevant allIncidents)))
         calls.
Proof.
  revert w n. induction allIncidents as [|incident rest IH]; intros w n.
  - exists []. simpl. split; [reflexivity|]. split; [lia | constructor].
  - rewrite main_loop_cons.
    destruct (main_loop_body_keys incident w n) as [c1 [Ht1 [Hn1 Hk1]]].
    destruct (main_loop_body incident (w, n)) as [w1 n1]. simpl in Ht1.
    destruct (IH w1 n1) as [c2 [Ht2 [Hn2 Hk2]]].
    exists (c1 ++ c2).
    split; [rewrite Ht2, Ht1, fold_left_app; reflexivity|].
    split; [rewrite length_app; simpl; destruct (relevant incident); simpl in *; lia|].
    simpl filter. apply Forall_app. split.
    + destruct (relevant incident).
      * eapply Forall_impl; [|exact Hk1]. intros c Hc. simpl in Hc.
        rewrite Hc. now left.
      * destruct c1; [constructor | simpl in Hn1; lia].
    + eapply Forall_impl; [|exact Hk2]. intros c Hc. simpl in Hc.
      destruct (relevant incident); [now right | exact Hc].
Qed.

End Run.

Section RunMore.

Context {E : Env}.

(** X9. The account of a run. The run logs the size of the feed first and the
    count of saved incidents last. Every relevant incident is either counted
    as saved or reported in an error line, never both and never neither: the
    count and the number of error lines add up to the number of relevant
    incidents. So the count lies between zero and the number of relevant
    incidents. *)
Theorem main_ingest_accounting (allIncidents : list Incident) (w : World) :
  let saved := snd (main_ingest allIncidents w) in
  let relevant_ones := Z.of_nat (List.length (filter relevant allIncidents)) in
  exists lines : list LogEntry,
    w_log (fst (main_ingest allIncidents w)) =
      w_log w ++ [log_found (Z.of_nat (List.length allIncidents))] ++ lines
            ++ [log_run_complete saved]
    /\ saved + Z.of_nat (List.length (filter is_save_error lines)) = relevant_ones
    /\ 0 <= saved <= relevant_ones
    /\ relevant_ones <= Z.of_nat (List.length allIncidents).
Proof.
  cbv zeta. unfold main_ingest.
  set (w0 := fst (log_Printf (log_found (Z.of_nat (List.length allIncidents))) w)).
  destruct (main_loop_traffic allIncidents w0 0) as [reqs [lines [_ [Hl [_ [_ [Hc Hm]]]]]]].
  destruct (main_loop allIncidents (w0, 0)) as [w' saved]. simpl in *.
  exists lines.
  split; [rewrite Hl, <- !app_assoc; reflexivity|].
  split; [lia|]. split; [lia|].
  pose proof (filter_length_le relevant allIncidents). lia.
Qed.

(** X10. The requests of a run. A run sends at most two requests for each relevant
    incident and none for the others, and every request it sends is a GET
    with the [User-Agent] of the program. *)
Theorem main_ingest_requests (allIncidents : list Incident) (w : World) :
  exists reqs : list Request,
    w_http (fst (main_ingest allIncidents w)) = w_http w ++ reqs
    /\ (List.length reqs <= 2 * List.length (filter relevant allIncidents))%nat
    /\ Forall identified reqs.
Proof.
  unfold main_ingest.
  set (w0 := fst (log_Printf (log_found (Z.of_nat (List.length allIncidents))) w)).
  destruct (main_loop_traffic allIncidents w0 0) as [reqs [lines [Hh [_ [Hn [Hi _]]]]]].
  destruct (main_loop allIncidents (w0, 0)) as [w' saved]. simpl in *.
  exists reqs. auto.
Qed.

(** X11. A feed with nothing relevant, the empty feed among them: the run logs
    the size of the feed and a count of zero, and does nothing else. *)
Theorem main_ingest_nothing_relevant (allIncidents : list Incident) (w : World) :
  (forall i, In i allIncidents -> relevant i = false) ->
  main_ingest allIncidents w =
  ({| w_clock := w_clock w; w_http := w_http w; w_exec := w_exec w;
      w_table := w_table w;
      w_log := w_log w ++ [log_found (Z.of_nat (List.length allIncidents));
                           log_run_complete 0] |}, 0).
Proof.
  intros Hnone. unfold main_ingest.
  set (w0 := fst (log_Printf (log_found (Z.of_nat (List.length allIncidents))) w)).
  assert (Hloop : forall st, main_loop allIncidents st = st).
  { clear w0. induction allIncidents as [|i rest IH]; intros st; [reflexivity|].
    rewrite main_loop_cons.
    assert (Hi : main_loop_body i st = st).
    { unfold main_loop_body. destruct st as [w1 n1].
      now rewrite (Hnone i (or_introl eq_refl)). }
    rewrite Hi. apply IH. intros j Hj. apply Hnone. now right. }
  rewrite Hloop. unfold w0. simpl. rewrite <- app_assoc. reflexivity.
Qed.

(** X12. What a run leaves alone. The rows of the keys that are not those of a
    relevant incident of the feed are as they were, the rows of the other
    sources among them. No key is removed, and the table grows by one row
    for each relevant incident at most. *)
Theorem main_ingest_frame (allIncidents : list Incident) (w : World) :
  let t := w_table w in
  let t' := w_table (fst (main_ingest allIncidents w)) in
  (forall s i,
      ~ In (s, i) (map key_of (filter relevant allIncidents)) ->
      select_row s i t' = select_row s i t)
  /\ (forall s i, s <> "NCDOT"%string -> select_row s i t' = select_row s i t)
  /\ (forall s i, has_row s i t = true -> has_row s i t' = true)
  /\ (List.length t <= List.length t'
      <= List.length t + List.length (filter relevant allIncidents))%nat.
Proof.
  cbv zeta. unfold main_ingest.
  set (w0 := fst (log_Printf (log_found (Z.of_nat (List.length allIncidents))) w)).
  destruct (main_loop_keys allIncidents w0 0) as [calls [Ht [Hn Hk]]].
  destruct (main_loop allIncidents (w0, 0)) as [w' saved]. simpl in *.
  rewrite Ht.
  assert (Hsel : forall s i,
             ~ In (s, i) (map key_of (filter relevant allIncidents)) ->
             select_row s i (fold_left (written jurisdiction_default) calls (w_table w)) =
             select_row s i (w_table w)).
  { intros s i Hnot. apply written_select_other.
    eapply Forall_impl; [|exact Hk]. intros c Hc Heq. simpl in Hc.
    rewrite Heq in Hc. contradiction. }
  split; [exact Hsel|]. split.
  - intros s i Hs. apply Hsel. intros Hin. apply in_map_iff in Hin.
    destruct Hin as [inc [Hkey _]]. unfold key_of in Hkey. congruence.
  - split; [intros s i; apply written_has_row|].
    pose proof (written_length jurisdiction_default calls (w_table w)). lia.
Qed.

(** X13. The uniqueness constraint through a run: a table with one row per key at
    most has one row per key at most after the run, whatever the feed
    holds, the same incident twice included. *)
Theorem main_ingest_unique_keys (allIncidents : list Incident) (w : World) :
  unique_keys (w_table w) ->
  unique_keys (w_table (fst (main_ingest allIncidents w)))
  /\ forall i, In i allIncidents ->
       (count_rows "NCDOT" (Itoa (ID i)) (w_table (fst (main_ingest allIncidents w)))
        <= 1)%nat.
Proof.
  intros Hu.
  destruct (main_ingest_tables allIncidents w) as [calls Ht].
  assert (Hu' : unique_keys (w_table (fst (main_ingest allIncidents w)))).
  { rewrite Ht. now apply written_unique_keys. }
  split; [exact Hu'|].
  intros i _. now apply unique_keys_count.
Qed.

End RunMore.

(** ** The start of [main] *)

Section Startup.

Context {E : Env} {HO : Host}.

(** X14. The database and the URL come first. When the database cannot be opened
    or does not answer, or when [DOT_URL] is empty, [main] exits through a
    fatal line and has sent no request at all, executed no statement and
    written nothing. The URL is looked at only once the database has
    answered: with a database that answers and no URL, the line of the
    connection is logged before the fatal one. *)
Theorem main_database_and_url_first (w : World) :
  sql_Open psqlInfo <> None
  \/ snd (db_Ping psqlInfo) <> None
  \/ os_Getenv "DOT_URL" = ""%string ->
  snd (main w) = None
  /\ w_http (snd (fst (main w))) = w_http w
  /\ w_exec (snd (fst (main w))) = w_exec w
  /\ w_table (snd (fst (main w))) = w_table w
  /\ w_log (snd (fst (main w))) = w_log w
  /\ (sql_Open psqlInfo = None -> snd (db_Ping psqlInfo) = None ->
      exists notes, fst (fst (main w)) = notes ++ [log_connected; log_url_fatal]).
Proof.
  intros Hcause. unfold main.
  destruct (sql_Open psqlInfo) as [oerr|] eqn:Hopen.
  - simpl. repeat split; auto. intros Hcontra. discriminate.
  - destruct (db_Ping psqlInfo) as [elapsed [perr|]] eqn:Hping.
    + simpl. repeat split; auto. intros _ Hcontra. discriminate.
    + simpl in Hcause.
      destruct Hcause as [Hc|[Hc|Hc]]; try congruence.
      rewrite Hc. simpl. repeat split; auto.
      intros _ _. eexists. rewrite <- app_assoc. reflexivity.
Qed.

(** X15. A fatal end processes nothing. When [main] exits through a fatal line,
    that line is the last one it logged before the loop and the only fatal
    one; no statement was executed, the table is untouched, the loop logged
    nothing, and the only request that can have been sent is the one for
    the feed. A feed that does not decode is logged raw just before. *)
Theorem main_fatal_processes_nothing (w : World) :
  snd (main w) = None ->
  w_exec (snd (fst (main w))) = w_exec w
  /\ w_table (snd (fst (main w))) = w_table w
  /\ w_log (snd (fst (main w))) = w_log w
  /\ (w_http (snd (fst (main w))) = w_http w
      \/ w_http (snd (fst (main w))) = w_http w ++ [feed_request (os_Getenv "DOT_URL")])
  /\ (exists before last,
        fst (fst (main w)) = before ++ [last]
        /\ is_fatal last = true
        /\ Forall (fun l => is_fatal l = false) before
        /\ (forall err, last = log_unmarshal_fatal err ->
              exists before' body, before = before' ++ [log_raw_response body])).
Proof.
  unfold main.
  assert (Hnotes : Forall (fun l => is_fatal l = false)
                     match godotenv_Load with Some _ => [log_env_note] | None => [] end).
  { destruct godotenv_Load; repeat constructor. }
  destruct (sql_Open psqlInfo) as [oerr|].
  { intros _. simpl. repeat split; auto.
    eexists; eexists. split; [reflexivity|]. split; [reflexivity|].
    split; [exact Hnotes | intros err Hcontra; discriminate]. }
  destruct (db_Ping psqlInfo) as [elapsed [perr|]].
  { intros _. simpl. repeat split; auto.
    eexists; eexists. split; [reflexivity|]. split; [reflexivity|].
    split; [exact Hnotes | intros err Hcontra; discriminate]. }
  assert (Hlogs : Forall (fun l => is_fatal l = false)
                    (match godotenv_Load with Some _ => [log_env_note] | None => [] end
                     ++ [log_connected])).
  { apply Forall_app. split; [exact Hnotes | repeat constructor]. }
  destruct (String.eqb (os_Getenv "DOT_URL") "").
  { intros _. simpl. repeat split; auto.
    eexists; eexists. split; [reflexivity|]. split; [reflexivity|].
    split; [exact Hlogs | intros err Hcontra; discriminate]. }
  destruct (http_Get _ _) as [elapsed' [resp|ferr]].
  2:{ intros _. simpl. repeat split; auto.
      eexists; eexists. split; [reflexivity|]. split; [reflexivity|].
      split; [exact Hlogs | intros err Hcontra; discriminate]. }
  destruct (Body resp) as [body|rerr].
  2:{ intros _. simpl. repeat split; auto.
      eexists; eexists. split; [reflexivity|]. split; [reflexivity|].
      split; [exact Hlogs | intros err Hcontra; discriminate]. }
  destruct (json_Unmarshal_incidents body) as [allIncidents|uerr].
  { destruct (main_ingest allIncidents _). simpl. discriminate. }
  intros _. simpl. repeat split; auto.
  exists (match godotenv_Load with Some _ => [log_env_note] | None => [] end
          ++ [log_connected; log_raw_response body]), (log_unmarshal_fatal uerr).
  split; [rewrite <- !app_assoc; reflexivity|]. split; [reflexivity|].
  split.
  - apply Forall_app. split; [exact Hnotes | repeat constructor].
  - intros err _.
    exists (match godotenv_Load with Some _ => [log_env_note] | None => [] end
            ++ [log_connected]), body.
    rewrite <- app_assoc. reflexivity.
Qed.

(** X16. The run proper. When the database opens and answers, [DOT_URL] is set,
    and the feed is fetched, read and decoded, [main] returns: it logs no
    fatal line, and the world and the count are those of the loop on the
    decoded incidents, in the world where the database was pinged and the
    feed requested. The status of the response of the feed plays no part,
    nor does the absence of the [.env] file, which only adds a note; and
    nothing that happens to an incident ends the process. *)
Theorem main_runs_the_loop
  (w : World) (pinged fetched : N) (resp : Response) (body : string)
  (allIncidents : list Incident) :
  sql_Open psqlInfo = None ->
  db_Ping psqlInfo = (pinged, None) ->
  os_Getenv "DOT_URL" <> ""%string ->
  http_Get (w_http w) (os_Getenv "DOT_URL") = (fetched, Ok resp) ->
  Body resp = Ok body ->
  json_Unmarshal_incidents body = Ok allIncidents ->
  let w1 := send (feed_request (os_Getenv "DOT_URL")) fetched (wait pinged w) in
  main w =
  (match godotenv_Load with Some _ => [log_env_note] | None => [] end ++ [log_connected],
   fst (main_ingest allIncidents w1),
   Some (snd (main_ingest allIncidents w1))).
Proof.
  intros Hopen Hping Hurl Hget Hbody Hjson w1.
  unfold main. rewrite Hopen, Hping.
  apply String.eqb_neq in Hurl. rewrite Hurl.
  change (w_http (wait pinged w)) with (w_http w). rewrite Hget, Hbody, Hjson.
  fold w1. destruct (main_ingest allIncidents w1). reflexivity.
Qed.

End Startup.

(** ** The earlier ingestor *)

Section Earlier.

Context {E : Env} {S : Part000.Server}.

Lemma part000_insert_present (a : Part000.ExecArgs) (t : list Part000.Row)
  (old : Part000.Row) :
  Part000.select_row (Part000.arg_source a) (Part000.arg_source_id a) t = Some old ->
  Part000.insert_or_nothing a t = t.
Proof.
  unfold Part000.select_row.
  induction t as [|r rest IH]; simpl; [discriminate|].
  change (Part000.has_key (Part000.arg_source a) (Part000.arg_source_id a) r)
    with (Part000.conflict a r).
  destruct (Part000.conflict a r); [reflexivity|].
  intros Hold. now rewrite (IH Hold).
Qed.

Lemma part000_insert_absent (a : Part000.ExecArgs) (t : list Part000.Row) :
  Part000.select_row (Part000.arg_source a) (Part000.arg_source_id a) t = None ->
  Part000.insert_or_nothing a t = t ++ [Part000.inserted a].
Proof.
  unfold Part000.select_row.
  induction t as [|r rest IH]; simpl; [reflexivity|].
  change (Part000.has_key (Part000.arg_source a) (Part000.arg_source_id a) r)
    with (Part000.conflict a r).
  destruct (Part000.conflict a r); [discriminate|].
  intros Hnone. now rewrite (IH Hnone).
Qed.

(** What a call of the earlier [saveToUnifiedDB] does. *)
Lemma part000_saveToUnifiedDB_run (incident : Incident) (w : Part000.World) :
  let w' := fst (Part000.saveToUnifiedDB incident w) in
  (exists lines, Part000.w_log w' =
                 Part000.w_log w
                 ++ Part000.log_start_time (ID incident) (StartTime incident) :: lines)
  /\ match marshal_Incident incident with
     | Err e =>
         Part000.w_exec w' = Part000.w_exec w
         /\ Part000.w_table w' = Part000.w_table w
         /\ snd (Part000.saveToUnifiedDB incident w) =
            Err (Errorf_w "could not marshal incident details to JSON" e)
     | Ok raw =>
         let a := part000_args incident (part000_timestamp incident w) raw in
         exists verdict : option error,
           Part000.w_exec w' = Part000.w_exec w ++ [(a, verdict)]
           /\ snd (Part000.saveToUnifiedDB incident w) = result_of_verdict verdict
           /\ Part000.w_table w' =
              match verdict with
              | Some _ => Part000.w_table w
              | None => Part000.insert_or_nothing a (Part000.w_table w)
              end
     end.
Proof.
  cbv zeta. unfold Part000.saveToUnifiedDB, part000_timestamp, part000_args.
  destruct (time_Parse_RFC3339 (StartTime incident)) as [t|perr];
    destruct (marshal_Incident incident) as [raw|merr]; simpl;
    unfold Part000.db_Exec; simpl.
  - match goal with |- context [Part000.db_server ?h ?t ?a] =>
      destruct (Part000.db_server h t a) as [elapsed [err|]] end; simpl;
      (split; [exists []; reflexivity|]); eexists; repeat split.
  - split; [exists []; reflexivity|]. repeat split.
  - match goal with |- context [Part000.db_server ?h ?t ?a] =>
      destruct (Part000.db_server h t a) as [elapsed [err|]] end; simpl;
      (split; [eexists; rewrite <- app_assoc; reflexivity|]); eexists; repeat split.
  - split; [eexists; rewrite <- app_assoc; reflexivity|]. repeat split.
Qed.

(** X17. An incident already in the table. The earlier statement does nothing on
    conflict: whatever the feed now says of the incident, the table is
    exactly as it was. The server raises no error for that, so the call
    succeeds and the loop counts the incident as saved although nothing was
    written. *)
Theorem part000_existing_incident_untouched
  (incident : Incident) (w : Part000.World) (old : Part000.Row) :
  Part000.select_row "NCDOT" (Itoa (ID incident)) (Part000.w_table w) = Some old ->
  Part000.w_table (fst (Part000.saveToUnifiedDB incident w)) = Part000.w_table w
  /\ (forall n,
        Part000.relevant incident = true ->
        snd (Part000.saveToUnifiedDB incident w) = Ok tt ->
        snd (Part000.main_loop_body incident (w, n)) = n + 1
        /\ Part000.w_table (fst (Part000.main_loop_body incident (w, n))) =
           Part000.w_table w).
Proof.
  intros Hold.
  destruct (part000_saveToUnifiedDB_run incident w) as [_ Hrun].
  assert (Htab : Part000.w_table (fst (Part000.saveToUnifiedDB incident w)) =
                 Part000.w_table w).
  { destruct (marshal_Incident incident) as [raw|merr].
    - cbv zeta in Hrun. destruct Hrun as [verdict [_ [_ Htable]]]. rewrite Htable.
      destruct verdict; [reflexivity|].
      now apply (part000_insert_present _ _ old).
    - now destruct Hrun as [_ [Htable _]]. }
  split; [exact Htab|].
  intros n Hrel Hok. unfold Part000.main_loop_body. rewrite Hrel.
  destruct (Part000.saveToUnifiedDB incident w) as [w' r]. simpl in *. subst r.
  split; [reflexivity | exact Htab].
Qed.

(** X18. A new incident. When the table has no row for the incident and the call
    succeeds, the table is the one before with one row more, at the end. The
    row has the status "active" and the event type "Vehicle Crash" whatever
    the type of the incident; its details are the encoding of the incident
    itself, from which every field is read back. *)
Theorem part000_first_sighting (incident : Incident) (w : Part000.World) :
  Part000.select_row "NCDOT" (Itoa (ID incident)) (Part000.w_table w) = None ->
  snd (Part000.saveToUnifiedDB incident w) = Ok tt ->
  exists row,
    Part000.w_table (fst (Part000.saveToUnifiedDB incident w)) =
      Part000.w_table w ++ [row]
    /\ Part000.source row = "NCDOT"
    /\ Part000.source_id row = Itoa (ID incident)
    /\ Part000.event_type row = "Vehicle Crash"
    /\ Part000.status row = "active"
    /\ Part000.address row = Location incident
    /\ Part000.latitude row = Latitude incident
    /\ Part000.longitude row = Longitude incident
    /\ Part000.timestamp row = part000_timestamp incident w
    /\ Incident_of_json (Part000.details row) = Some incident.
Proof.
  intros Hnew Hok.
  destruct (part000_saveToUnifiedDB_run incident w) as [_ Hrun].
  destruct (marshal_Incident incident) as [raw|merr] eqn:Hraw.
  - cbv zeta in Hrun. destruct Hrun as [verdict [_ [Hres Htable]]].
    rewrite Hres in Hok. destruct verdict; [discriminate|].
    rewrite Htable, part000_insert_absent by exact Hnew.
    eexists. split; [reflexivity|].
    do 8 (split; [reflexivity|]).
    now apply Incident_of_json_marshal.
  - destruct Hrun as [_ [_ Hres]]. rewrite Hres in Hok. discriminate.
Qed.

(** X19. The earlier loop processes an incident if and only if its type is
    "Vehicle Crash": a disabled vehicle, like any other type, leaves the
    world and the count as they are. So the constant event type of the
    earlier [saveToUnifiedDB] is the type of every incident the loop hands
    to it. *)
Theorem part000_main_loop_body_relevance
  (incident : Incident) (w : Part000.World) (n : Z) :
  (IncidentType incident = "Vehicle Crash"%string <->
   fst (Part000.main_loop_body incident (w, n)) <> w)
  /\ (IncidentType incident <> "Vehicle Crash"%string ->
      Part000.main_loop_body incident (w, n) = (w, n))
  /\ (IncidentType incident = "Disabled Vehicle"%string ->
      Part000.main_loop_body incident (w, n) = (w, n))
  /\ (fst (Part000.main_loop_body incident (w, n)) <> w ->
      forall a verdict,
        In (a, verdict)
           (Part000.w_exec (fst (Part000.main_loop_body incident (w, n)))) ->
        In (a, verdict) (Part000.w_exec w)
        \/ Part000.arg_event_type a = IncidentType incident).
Proof.
  assert (Hskip : Part000.relevant incident = false ->
                  Part000.main_loop_body incident (w, n) = (w, n)).
  { intros Hr. unfold Part000.main_loop_body. now rewrite Hr. }
  assert (Hdo : Part000.relevant incident = true ->
                fst (Part000.main_loop_body incident (w, n)) <> w).
  { intros Hr. unfold Part000.main_loop_body. rewrite Hr.
    destruct (part000_saveToUnifiedDB_run incident w) as [[lines Hlog] _].
    destruct (Part000.saveToUnifiedDB incident w) as [w' r]. simpl in Hlog.
    assert (Hlen : forall w2, Part000.w_log w2 = Part000.w_log w' \/
                              (exists l, Part000.w_log w2 = Part000.w_log w' ++ [l]) ->
                              w2 <> w).
    { intros w2 Hw2 ->. rewrite Hlog in Hw2.
      destruct Hw2 as [Hw2|[l Hw2]];
        apply (f_equal (@List.length Part000.LogEntry)) in Hw2;
        rewrite ?length_app in Hw2; simpl in Hw2; rewrite ?length_app in Hw2;
        simpl in Hw2; lia. }
    destruct r; simpl; apply Hlen; [now left | right; eexists; reflexivity]. }
  assert (Hrel : Part000.relevant incident = true <->
                 IncidentType incident = "Vehicle Crash"%string).
  { unfold Part000.relevant. apply String.eqb_eq. }
  assert (Hnot : IncidentType incident <> "Vehicle Crash"%string ->
                 Part000.main_loop_body incident (w, n) = (w, n)).
  { intros Hne. apply Hskip. destruct (Part000.relevant incident) eqn:Hr; [|reflexivity].
    exfalso. now apply Hne, Hrel. }
  split; [|split; [exact Hnot|split]].
  - split; [intros Ht; now apply Hdo, Hrel|].
    intros Hne. apply Hrel. destruct (Part000.relevant incident) eqn:Hr; [reflexivity|].
    exfalso. apply Hne. now rewrite (Hskip eq_refl).
  - intros Ht. apply Hnot. rewrite Ht. discriminate.
  - intros Hne a verdict Hin.
    assert (Hr : Part000.relevant incident = true).
    { destruct (Part000.relevant incident) eqn:Hr; [reflexivity|].
      exfalso. apply Hne. now rewrite (Hskip eq_refl). }
    apply Hrel in Hr as Ht.
    unfold Part000.main_loop_body in Hin. rewrite Hr in Hin.
    destruct (part000_saveToUnifiedDB_run incident w) as [_ Hrun].
    destruct (marshal_Incident incident) as [raw|merr].
    + cbv zeta in Hrun. destruct Hrun as [verdict' [Hexec _]].
      destruct (Part000.saveToUnifiedDB incident w) as [w' r]. simpl in Hexec.
      assert (Hin' : In (a, verdict) (Part000.w_exec w')) by (destruct r; exact Hin).
      rewrite Hexec in Hin'. apply in_app_or in Hin'.
      destruct Hin' as [Hin'|[Hin'|[]]]; [now left|].
      right. injection Hin' as <- _. simpl. now rewrite Ht.
    + destruct Hrun as [Hexec _].
      destruct (Part000.saveToUnifiedDB incident w) as [w' r]. simpl in Hexec.
      assert (Hin' : In (a, verdict) (Part000.w_exec w')) by (destruct r; exact Hin).
      rewrite Hexec in Hin'. now left.
Qed.

(** X20. The earlier run never touches a row that is there. The table after the
    run is the table before followed by the rows the run inserted, one for
    each relevant incident at most, each with the source "NCDOT", the status
    "active" and the event type "Vehicle Crash". *)
Theorem part000_main_ingest_appends (allIncidents : list Incident) (w : Part000.World) :
  exists added : list Part000.Row,
    Part000.w_table (fst (Part000.main_ingest allIncidents w)) =
      Part000.w_table w ++ added
    /\ (List.length added <= List.length (filter Part000.relevant allIncidents))%nat
    /\ Forall (fun r => Part000.source r = "NCDOT"%string
                        /\ Part000.status r = "active"%string
                        /\ Part000.event_type r = "Vehicle Crash"%string) added.
Proof.
  assert (Hbody : forall incident w n,
             exists added,
               Part000.w_table (fst (Part000.main_loop_body incident (w, n))) =
                 Part000.w_table w ++ added
               /\ (List.length added <= if Part000.relevant incident then 1 else 0)%nat
               /\ Forall (fun r => Part000.source r = "NCDOT"%string
                                   /\ Part000.status r = "active"%string
                                   /\ Part000.event_type r = "Vehicle Crash"%string)
                    added).
  { intros incident w0 n. unfold Part000.main_loop_body.
    destruct (Part000.relevant incident).
    - destruct (part000_saveToUnifiedDB_run incident w0) as [_ Hrun].
      assert (Hsame : forall w1 : Part000.World,
                 Part000.w_table w1 = Part000.w_table w0 ->
                 exists added,
                   Part000.w_table w1 = Part000.w_table w0 ++ added
                   /\ (List.length added <= 1)%nat
                   /\ Forall (fun r => Part000.source r = "NCDOT"%string
                                       /\ Part000.status r = "active"%string
                                       /\ Part000.event_type r = "Vehicle Crash"%string)
                        added).
      { intros w1 H1. exists []. rewrite app_nil_r.
        split; [exact H1|]. split; [simpl; lia | constructor]. }
      destruct (marshal_Incident incident) as [raw|merr].
      + cbv zeta in Hrun. destruct Hrun as [verdict [_ [_ Htable]]].
        destruct (Part000.saveToUnifiedDB incident w0) as [w1 r]. simpl in Htable.
        assert (Hw1 : exists added,
                   Part000.w_table w1 = Part000.w_table w0 ++ added
                   /\ (List.length added <= 1)%nat
                   /\ Forall (fun r => Part000.source r = "NCDOT"%string
                                       /\ Part000.status r = "active"%string
                                       /\ Part000.event_type r = "Vehicle Crash"%string)
                        added).
        { destruct verdict; [now apply Hsame|].
          match type of Htable with
            _ = Part000.insert_or_nothing ?a _ => set (a0 := a) in *
          end.
          destruct (Part000.select_row (Part000.arg_source a0) (Part000.arg_source_id a0)
                      (Part000.w_table w0)) eqn:Hsel.
          - apply Hsame. rewrite Htable. now apply (part000_insert_present _ _ r0).
          - exists [Part000.inserted a0].
            split; [rewrite Htable; now apply part000_insert_absent|].
            split; [simpl; lia|]. repeat constructor. }
        destruct r; simpl; exact Hw1.
      + destruct Hrun as [_ [Htable _]].
        destruct (Part000.saveToUnifiedDB incident w0) as [w1 r]. simpl in Htable.
        destruct r; simpl; now apply Hsame.
    - exists []. simpl. rewrite app_nil_r. split; [reflexivity|].
      split; [lia | constructor]. }
  assert (Hloop : forall l w n,
             exists added,
               Part000.w_table (fst (Part000.main_loop l (w, n))) =
                 Part000.w_table w ++ added
               /\ (List.length added <= List.length (filter Part000.relevant l))%nat
               /\ Forall (fun r => Part000.source r = "NCDOT"%string
                                   /\ Part000.status r = "active"%string
                                   /\ Part000.event_type r = "Vehicle Crash"%string)
                    added).
  { induction l as [|incident rest IH]; intros w0 n.
    - exists []. simpl. rewrite app_nil_r. split; [reflexivity|].
      split; [lia | constructor].
    - change (Part000.main_loop (incident :: rest) (w0, n))
        with (Part000.main_loop rest (Part000.main_loop_body incident (w0, n))).
      destruct (Hbody incident w0 n) as [a1 [Ht1 [Hn1 Hf1]]].
      destruct (Part000.main_loop_body incident (w0, n)) as [w1 n1]. simpl in Ht1.
      destruct (IH w1 n1) as [a2 [Ht2 [Hn2 Hf2]]].
      exists (a1 ++ a2).
      split; [rewrite Ht2, Ht1, app_assoc; reflexivity|].
      split; [|apply Forall_app; auto].
      rewrite length_app. simpl filter.
      destruct (Part000.relevant incident); simpl in *; lia. }
  unfold Part000.main_ingest.
  set (w0 := Part000.log_Printf _ w).
  destruct (Hloop allIncidents w0 0) as [added [Ht [Hn Hf]]].
  destruct (Part000.main_loop allIncidents (w0, 0)) as [w' saved]. simpl in *.
  exists added. auto.
Qed.

End Earlier.

(** ** The further properties on the scripted world *)

Lemma upsert_commute_witness :
  (forall s i,
      select_row s i
        (upsert None Fixture.first_sighting
           (upsert None Scenario.sighting557 [Fixture.closed_row])) =
      select_row s i
        (upsert None Scenario.sighting557
           (upsert None Fixture.first_sighting [Fixture.closed_row])))
  /\ List.length
       (upsert None Fixture.first_sighting
          (upsert None Scenario.sighting557 [Fixture.closed_row])) =
     List.length
       (upsert None Scenario.sighting557
          (upsert None Fixture.first_sighting [Fixture.closed_row])).
Proof.
  apply (upsert_commute None Fixture.first_sighting Scenario.sighting557
           [Fixture.closed_row]).
  vm_compute. discriminate.
Defined.

Lemma upsert_latest_wins_witness :
  upsert None Fixture.second_sighting
    (upsert None Fixture.first_sighting [Fixture.closed_row]) =
  [Fixture.closed_row]
  ++ [do_update Fixture.second_sighting (excluded None Fixture.first_sighting)].
Proof.
  apply (upsert_latest_wins None Fixture.first_sighting Fixture.second_sighting
           [Fixture.closed_row]).
  reflexivity.
Defined.

Lemma saveToUnifiedDB_untroubled_witness :
  exists (a : ExecArgs) (raw : json) (verdict : option error),
    w_exec (fst (@saveToUnifiedDB Fixture.fair Fixture.crash555 Fixture.noon)) =
      w_exec Fixture.noon ++ [(a, verdict)]
    /\ snd (@saveToUnifiedDB Fixture.fair Fixture.crash555 Fixture.noon) =
       result_of_verdict verdict
    /\ w_log (fst (@saveToUnifiedDB Fixture.fair Fixture.crash555 Fixture.noon)) =
       w_log Fixture.noon
    /\ (arg_source a = "NCDOT"
        /\ arg_source_id a = Itoa (ID Fixture.crash555)
        /\ arg_event_type a = IncidentType Fixture.crash555
        /\ arg_address a = Location Fixture.crash555
        /\ arg_latitude a = Latitude Fixture.crash555
        /\ arg_longitude a = Longitude Fixture.crash555
        /\ arg_problem_detail a = Reason Fixture.crash555)
    /\ arg_timestamp a = 1714557600000000000
    /\ (NullInt32_Value (arg_weather_temp a) = Some (int32 (Temperature Fixture.clear))
        /\ NullString_Value (arg_weather_wind_speed a) = Some (WindSpeed Fixture.clear)
        /\ NullString_Value (arg_weather_forecast a) = Some (ShortForecast Fixture.clear))
    /\ marshal_Incident Fixture.crash555 = Ok raw
    /\ arg_details a =
       JObject [("raw_incident", raw);
                ("weather",
                 JObject [("temperature", JInt (Temperature Fixture.clear));
                          ("windSpeed", JString (WindSpeed Fixture.clear));
                          ("shortForecast", JString (ShortForecast Fixture.clear));
                          ("icon", JString (Icon Fixture.clear))])].
Proof.
  apply (@saveToUnifiedDB_untroubled Fixture.fair Fixture.crash555 Fixture.noon
           1714557600000000000 Fixture.clear).
  - vm_compute. reflexivity.
  - vm_compute. reflexivity.
  - vm_compute. reflexivity.
Defined.

Lemma saveToUnifiedDB_error_from_server_witness :
  (snd (@saveToUnifiedDB Scenario.rejecting Fixture.crash555 Fixture.noon) =
     Err Scenario.rejection <->
   exists a,
     w_exec (fst (@saveToUnifiedDB Scenario.rejecting Fixture.crash555 Fixture.noon)) =
     w_exec Fixture.noon ++ [(a, Some Scenario.rejection)])
  /\ (snd (@saveToUnifiedDB Scenario.rejecting Fixture.crash555 Fixture.noon) =
        Err Scenario.rejection ->
      w_table (fst (@saveToUnifiedDB Scenario.rejecting Fixture.crash555 Fixture.noon)) =
        w_table Fixture.noon
      /\ forall n,
           relevant Fixture.crash555 = true ->
           @main_loop_body Scenario.rejecting Fixture.crash555 (Fixture.noon, n) =
           (log_line (log_save_error (ID Fixture.crash555) Scenario.rejection)
              (fst (@saveToUnifiedDB Scenario.rejecting Fixture.crash555 Fixture.noon)),
            n)).
Proof.
  apply (@saveToUnifiedDB_error_from_server Scenario.rejecting Fixture.crash555
           Fixture.noon Scenario.rejection).
  vm_compute. reflexivity.
Defined.

(** The rejected statement on the scripted world. *)
Example saveToUnifiedDB_rejected :
  snd (@saveToUnifiedDB Scenario.rejecting Fixture.crash555 Fixture.noon) =
    Err Scenario.rejection
  /\ @main_ingest Scenario.rejecting [Fixture.crash555] Fixture.noon =
     ({| w_clock := 1714564800420000000;
         w_http := w_http Scenario.seen555;
         w_exec := [(fst (hd (Fixture.first_sighting, None) (w_exec Scenario.seen555)),
                     Some Scenario.rejection)];
         w_table := [];
         w_log := [log_found 1; log_save_error 555 Scenario.rejection;
                   log_run_complete 0] |}, 0).
Proof. vm_compute. split; reflexivity. Qed.

Lemma saveToUnifiedDB_first_sighting_witness :
  exists row,
    w_table (fst (@saveToUnifiedDB Fixture.fair Fixture.crash555 Fixture.noon)) =
      w_table Fixture.noon ++ [row]
    /\ (source row, source_id row) = key_of Fixture.crash555
    /\ status row = "active"
    /\ event_type row = IncidentType Fixture.crash555
    /\ address row = Location Fixture.crash555
    /\ latitude row = Latitude Fixture.crash555
    /\ longitude row = Longitude Fixture.crash555
    /\ problem_detail row = Reason Fixture.crash555
    /\ timestamp row = @timestamp_of Fixture.fair Fixture.crash555 Fixture.noon
    /\ (exists raw, json_get "raw_incident" (details row) = Some raw
                    /\ Incident_of_json raw = Some Fixture.crash555)
    /\ jurisdiction row = @jurisdiction_default Fixture.fair.
Proof.
  apply (@saveToUnifiedDB_first_sighting Fixture.fair Fixture.crash555 Fixture.noon).
  - vm_compute. reflexivity.
  - vm_compute. reflexivity.
Defined.

Lemma main_ingest_nothing_relevant_witness :
  @main_ingest Fixture.fair [Fixture.closure558] Fixture.noon =
  ({| w_clock := w_clock Fixture.noon; w_http := w_http Fixture.noon;
      w_exec := w_exec Fixture.noon; w_table := w_table Fixture.noon;
      w_log := w_log Fixture.noon
               ++ [log_found (Z.of_nat (List.length [Fixture.closure558]));
                   log_run_complete 0] |}, 0).
Proof.
  apply (@main_ingest_nothing_relevant Fixture.fair [Fixture.closure558] Fixture.noon).
  intros i [<-|[]]. reflexivity.
Defined.

Lemma main_ingest_unique_keys_witness :
  unique_keys
    (w_table (fst (@main_ingest Fixture.fair
                     [Fixture.crash555; Scenario.crash555_again] Fixture.noon)))
  /\ forall i, In i [Fixture.crash555; Scenario.crash555_again] ->
       (count_rows "NCDOT" (Itoa (ID i))
          (w_table (fst (@main_ingest Fixture.fair
                           [Fixture.crash555; Scenario.crash555_again] Fixture.noon)))
        <= 1)%nat.
Proof.
  apply (@main_ingest_unique_keys Fixture.fair
           [Fixture.crash555; Scenario.crash555_again] Fixture.noon).
  simpl. constructor.
Defined.

(** The same incident twice in a feed: one row, counted twice. *)
Example main_ingest_same_incident_twice :
  let run := @main_ingest Fixture.fair [Fixture.crash555; Scenario.crash555_again]
               Fixture.noon in
  snd run = 2
  /\ map (fun r => (source_id r, problem_detail r, timestamp r)) (w_table (fst run)) =
     [("555"%string, "lane blocked"%string, 1714557600000000000)].
Proof. vm_compute. split; reflexivity. Qed.

Lemma main_database_and_url_first_witness :
  snd (@main Fixture.fair Scenario.feed_unset Fixture.noon) = None
  /\ w_http (snd (fst (@main Fixture.fair Scenario.feed_unset Fixture.noon))) =
     w_http Fixture.noon
  /\ w_exec (snd (fst (@main Fixture.fair Scenario.feed_unset Fixture.noon))) =
     w_exec Fixture.noon
  /\ w_table (snd (fst (@main Fixture.fair Scenario.feed_unset Fixture.noon))) =
     w_table Fixture.noon
  /\ w_log (snd (fst (@main Fixture.fair Scenario.feed_unset Fixture.noon))) =
     w_log Fixture.noon
  /\ (@sql_Open Scenario.feed_unset (@psqlInfo Scenario.feed_unset) = None ->
      snd (@db_Ping Scenario.feed_unset (@psqlInfo Scenario.feed_unset)) = None ->
      exists notes,
        fst (fst (@main Fixture.fair Scenario.feed_unset Fixture.noon)) =
        notes ++ [log_connected; log_url_fatal]).
Proof.
  apply (@main_database_and_url_first Fixture.fair Scenario.feed_unset Fixture.noon).
  right. right. reflexivity.
Defined.

Lemma main_fatal_processes_nothing_witness :
  w_exec (snd (fst (@main Fixture.fair Scenario.feed_garbled Fixture.noon))) =
    w_exec Fixture.noon
  /\ w_table (snd (fst (@main Fixture.fair Scenario.feed_garbled Fixture.noon))) =
     w_table Fixture.noon
  /\ w_log (snd (fst (@main Fixture.fair Scenario.feed_garbled Fixture.noon))) =
     w_log Fixture.noon
  /\ (w_http (snd (fst (@main Fixture.fair Scenario.feed_garbled Fixture.noon))) =
        w_http Fixture.noon
      \/ w_http (snd (fst (@main Fixture.fair Scenario.feed_garbled Fixture.noon))) =
         w_http Fixture.noon
         ++ [feed_request (@os_Getenv Scenario.feed_garbled "DOT_URL")])
  /\ (exists before last,
        fst (fst (@main Fixture.fair Scenario.feed_garbled Fixture.noon)) =
          before ++ [last]
        /\ is_fatal last = true
        /\ Forall (fun l => is_fatal l = false) before
        /\ (forall err, last = log_unmarshal_fatal err ->
              exists before' body, before = before' ++ [log_raw_response body])).
Proof.
  apply (@main_fatal_processes_nothing Fixture.fair Scenario.feed_garbled Fixture.noon).
  vm_compute. reflexivity.
Defined.

(** The garbled feed on the scripted world. *)
Example main_feed_garbled :
  fst (fst (@main Fixture.fair Scenario.feed_garbled Fixture.noon)) =
    [log_env_note; log_connected; log_raw_response "Service Unavailable";
     log_unmarshal_fatal (errors_New "invalid character looking for beginning of value")]
  /\ map URL (w_http (snd (fst (@main Fixture.fair Scenario.feed_garbled Fixture.noon)))) =
     ["https://dot.example/incidents"%string].
Proof. vm_compute. split; reflexivity. Qed.

Lemma main_runs_the_loop_witness :
  @main Fixture.fair Scenario.feed_503 Fixture.noon =
  (match @godotenv_Load Scenario.feed_503 with
   | Some _ => [log_env_note]
   | None => []
   end ++ [log_connected],
   fst (@main_ingest Fixture.fair [Fixture.crash555; Fixture.closure558]
          (send (feed_request (@os_Getenv Scenario.feed_503 "DOT_URL")) 400000000%N
             (wait 30000000%N Fixture.noon))),
   Some (snd (@main_ingest Fixture.fair [Fixture.crash555; Fixture.closure558]
                (send (feed_request (@os_Getenv Scenario.feed_503 "DOT_URL")) 400000000%N
                   (wait 30000000%N Fixture.noon))))).
Proof.
  apply (@main_runs_the_loop Fixture.fair Scenario.feed_503 Fixture.noon
           30000000%N 400000000%N
           {| StatusCode := 503; Status := "503 Service Unavailable";
              Body := Ok "feed:crash-and-closure" |}
           "feed:crash-and-closure" [Fixture.crash555; Fixture.closure558]).
  - reflexivity.
  - reflexivity.
  - vm_compute. discriminate.
  - reflexivity.
  - reflexivity.
  - reflexivity.
Defined.

(** A feed that answers 503 with incidents in its body is ingested. *)
Example main_feed_503 :
  snd (@main Fixture.fair Scenario.feed_503 Fixture.noon) = Some 1
  /\ map source_id (w_table (snd (fst (@main Fixture.fair Scenario.feed_503 Fixture.noon))))
     = ["555"%string]
  /\ w_log (snd (fst (@main Fixture.fair Scenario.feed_503 Fixture.noon))) =
     [log_found 2; log_run_complete 1].
Proof. vm_compute. repeat split; reflexivity. Qed.

Lemma part000_existing_incident_untouched_witness :
  Part000.w_table
    (fst (@Part000.saveToUnifiedDB Fixture.fair Scenario.old_server
            Scenario.crash555_again Scenario.old_seen555)) =
    Part000.w_table Scenario.old_seen555
  /\ (forall n,
        Part000.relevant Scenario.crash555_again = true ->
        snd (@Part000.saveToUnifiedDB Fixture.fair Scenario.old_server
               Scenario.crash555_again Scenario.old_seen555) = Ok tt ->
        snd (@Part000.main_loop_body Fixture.fair Scenario.old_server
               Scenario.crash555_again (Scenario.old_seen555, n)) = n + 1
        /\ Part000.w_table
             (fst (@Part000.main_loop_body Fixture.fair Scenario.old_server
                     Scenario.crash555_again (Scenario.old_seen555, n))) =
           Part000.w_table Scenario.old_seen555).
Proof.
  eapply (@part000_existing_incident_untouched Fixture.fair Scenario.old_server
            Scenario.crash555_again Scenario.old_seen555).
  vm_compute. reflexivity.
Defined.

Lemma part000_first_sighting_witness :
  exists row,
    Part000.w_table
      (fst (@Part000.saveToUnifiedDB Fixture.fair Scenario.old_server
              Fixture.disabled557 Scenario.old_noon)) =
      Part000.w_table Scenario.old_noon ++ [row]
    /\ Part000.source row = "NCDOT"
    /\ Part000.source_id row = Itoa (ID Fixture.disabled557)
    /\ Part000.event_type row = "Vehicle Crash"
    /\ Part000.status row = "active"
    /\ Part000.address row = Location Fixture.disabled557
    /\ Part000.latitude row = Latitude Fixture.disabled557
    /\ Part000.longitude row = Longitude Fixture.disabled557
    /\ Part000.timestamp row =
       @part000_timestamp Fixture.fair Fixture.disabled557 Scenario.old_noon
    /\ Incident_of_json (Part000.details row) = Some Fixture.disabled557.
Proof.
  apply (@part000_first_sighting Fixture.fair Scenario.old_server
           Fixture.disabled557 Scenario.old_noon).
  - vm_compute. reflexivity.
  - vm_compute. reflexivity.
Defined.

(** The earlier run on the scripted world: the second sighting of incident
    555 is counted and changes nothing, and the disabled vehicle is
    skipped. *)
Example part000_main_ingest_second_sighting :
  let run := @Part000.main_ingest Fixture.fair Scenario.old_server
               [Scenario.crash555_again; Fixture.disabled557] Scenario.old_seen555 in
  snd run = 1
  /\ Part000.w_table (fst run) = Part000.w_table Scenario.old_seen555
  /\ List.length (Part000.w_exec (fst run)) = 2%nat.
Proof. vm_compute. repeat split; reflexivity. Qed.
